(** * cpdup: the recursive replication engine (bin/cpdup/cpdup.c)

    A shallow embedding of the replication core of cpdup: the wildcard
    matcher, the per-directory ignore list, the hardlink table, the
    recursive pruner and the recursive copier [DoCopy], together with the
    properties stated about them in the design description. *)

From Stdlib Require Import ZArith Lia Bool Ascii String List.
From stdpp Require Import base option gmap.
Import ListNotations.

Local Open Scope string_scope.
Local Open Scope Z_scope.

(** ** C strings

    A NUL-terminated C string is represented by the characters that
    precede its terminator, so [""] is a pointer to the terminator,
    [String c s] is a pointer to [c] followed by [s], and [p + 1] is the
    tail. *)

Definition cstring := string.

(** [s + i] for [0 <= i <= strlen(s)]. *)
Fixpoint str_drop (i : nat) (s : string) : string :=
  match i, s with
  | O, _ => s
  | S i', String _ s' => str_drop i' s'
  | S _, EmptyString => EmptyString
  end.

Definition strlen (s : string) : nat := String.length s.

(** ** WildCmp: compare wild string to sane string

    Returns 0 on success and -1 on failure.  The [for (;;)] loop that
    skips the fixed portion advances both pointers by one, which is the
    recursive call on the two tails; the inner [scan] is the loop
    [for (i = 0; i <= l; ++i)] of the ['*'] case. *)

Fixpoint WildCmp (w s : string) {struct w} : Z :=
  match w with
  | EmptyString =>
      (* default: *w == 0, so *w != *s unless s is at its terminator *)
      match s with
      | EmptyString => 0
      | String _ _ => -1
      end
  | String c w1 =>
      if Ascii.eqb c "*" then
        match w1 with
        | EmptyString => 0            (* optimize wild* case *)
        | String _ _ =>
            (fix scan (t : string) : Z :=
               if WildCmp w1 t =? 0 then 0
               else match t with
                    | EmptyString => -1
                    | String _ t' => scan t'
                    end) s
        end
      else if Ascii.eqb c "?" then
        match s with
        | EmptyString => -1
        | String _ s1 => WildCmp w1 s1
        end
      else
        match s with
        | EmptyString => -1
        | String d s1 => if Ascii.eqb c d then WildCmp w1 s1 else -1
        end
  end.

(** The loop of the ['*'] case on its own, for stating lemmas. *)
Fixpoint star_scan (w1 t : string) : Z :=
  if WildCmp w1 t =? 0 then 0
  else match t with
       | EmptyString => -1
       | String _ t' => star_scan w1 t'
       end.

(** The same function with every loop iteration and every recursive call
    charged one unit of fuel; [None] is "still running". *)
Fixpoint WildCmp_fuel (fuel : nat) (w s : string) : option Z :=
  match fuel with
  | O => None
  | S fuel' =>
      match w with
      | EmptyString =>
          match s with
          | EmptyString => Some 0
          | String _ _ => Some (-1)
          end
      | String c w1 =>
          if Ascii.eqb c "*" then
            match w1 with
            | EmptyString => Some 0
            | String _ _ =>
                (fix scan (t : string) : option Z :=
                   match WildCmp_fuel fuel' w1 t with
                   | None => None
                   | Some r =>
                       if r =? 0 then Some 0
                       else match t with
                            | EmptyString => Some (-1)
                            | String _ t' => scan t'
                            end
                   end) s
            end
          else if Ascii.eqb c "?" then
            match s with
            | EmptyString => Some (-1)
            | String _ s1 => WildCmp_fuel fuel' w1 s1
            end
          else
            match s with
            | EmptyString => Some (-1)
            | String d s1 =>
                if Ascii.eqb c d then WildCmp_fuel fuel' w1 s1 else Some (-1)
            end
      end
  end.

(** The language of a pattern, in the words of the description: [?]
    matches exactly one character, [*] matches any possibly empty run,
    every other character matches itself, and both strings end together. *)
Inductive wild_match : string -> string -> Prop :=
| wm_end : wild_match "" ""
| wm_any w s c :
    wild_match w s -> wild_match (String "?" w) (String c s)
| wm_star w run s :
    wild_match w s -> wild_match (String "*" w) (run ++ s)
| wm_lit w s c :
    c <> "*"%char -> c <> "?"%char ->
    wild_match w s -> wild_match (String c w) (String c s).

(** ** Machine integers

    [int] is 32 bits and [int64_t] 64 bits, two's complement; unsigned
    64-bit arithmetic is modulo [2^64]. *)

Definition wrap_signed (bits x : Z) : Z :=
  (x + 2 ^ (bits - 1)) mod 2 ^ bits - 2 ^ (bits - 1).

Definition int32 (x : Z) : Z := wrap_signed 32 x.
Definition int64 (x : Z) : Z := wrap_signed 64 x.
Definition uint64 (x : Z) : Z := x mod 2 ^ 64.

(** A [char] promoted to [int] (plain [char] is signed). *)
Definition char_val (c : ascii) : Z :=
  let n := Z.of_N (N_of_ascii c) in
  if n <? 128 then n else n - 256.

(** ** The ignore list: [Node], [List], [shash], [AddList] *)

Definition HSIZE : Z := 16384.
Definition HMASK : Z := HSIZE - 1.

Record Node := mkNode { no_Name : string; no_Value : Z }.

(** [li_Hash]: bucket index to hash chain, head first.  [InitList] and
    [ResetList] leave every bucket empty. *)
Abbreviation IgnList := (gmap Z (list Node)).

Definition InitList : IgnList := ∅.
Definition ResetList (lst : IgnList) : IgnList := InitList.

Definition li_Hash (lst : IgnList) (hv : Z) : list Node :=
  default [] (lst !! hv).

Definition is_wild_char (c : ascii) : bool :=
  Ascii.eqb c "*" || Ascii.eqb c "?" ||
  Ascii.eqb c "{" || Ascii.eqb c "}" ||
  Ascii.eqb c "[" || Ascii.eqb c "]" ||
  Ascii.eqb c "|".

Fixpoint shash_loop (s : string) (hv : Z) : Z :=
  match s with
  | EmptyString => Z.land (Z.lxor (Z.shiftr hv 16) hv) HMASK
  | String c s' =>
      if is_wild_char c then 0
      else shash_loop s'
             (Z.lxor (Z.lxor (int32 (Z.shiftl hv 5)) (char_val c))
                     (Z.shiftr hv 23))
  end.

Definition shash (s : string) : Z := shash_loop s (int32 0xA4FB3255).

(** [AddList(list, name, n)]: the value of the first node that matches
    [name], or [n] after inserting a new node for [name].  Bucket 0 is
    scanned first, with wildcards honoured when [n != 1] and the node's
    value is 1; then the bucket of [name] is scanned for equality. *)
Definition AddList (lst : IgnList) (name : string) (n : Z) : Z * IgnList :=
  let hv := shash name in
  match List.find
          (fun node =>
             String.eqb name (no_Name node) ||
             (negb (n =? 1) && (no_Value node =? 1) &&
              (WildCmp (no_Name node) name =? 0)))
          (li_Hash lst 0) with
  | Some node => (no_Value node, lst)
  | None =>
      match List.find (fun node => String.eqb name (no_Name node))
                      (li_Hash lst hv) with
      | Some node => (no_Value node, lst)
      | None =>
          (n, <[hv := mkNode name n :: li_Hash lst hv]> lst)
      end
  end.

(** ** The hardlink table: [hltlookup], [hltadd], [hltdelete] *)

Definition HLSIZE : Z := 8192.
Definition HLMASK : Z := HLSIZE - 1.

Record hlink := mkhlink {
  hl_ino : Z;        (* ino *)
  hl_dino : Z;       (* dino *)
  hl_nlinked : Z;    (* nlinked *)
  hl_name : string   (* name *)
}.

(** [hltable]: bucket index to chain, head first. *)
Abbreviation hltab := (gmap Z (list hlink)).

Definition hl_chain (t : hltab) (n : Z) : list hlink := default [] (t !! n).

Definition hltlookup_ino (ino : Z) (t : hltab) : option hlink :=
  List.find (fun hl => hl_ino hl =? ino) (hl_chain t (Z.land ino HLMASK)).

Definition hltadd_ino (ino : Z) (path : string) (t : hltab) : hltab :=
  let n := Z.land ino HLMASK in
  <[n := mkhlink ino 0 1 path :: hl_chain t n]> t.

(** A [struct hlink *] held by [DoCopy] always points at the first node
    of its chain carrying its inode number (it comes from [hltlookup] or
    from [hltadd], and nothing is added in between), so the pointer is
    represented by that inode number. *)
Fixpoint chain_unlink (ino : Z) (l : list hlink) : list hlink :=
  match l with
  | [] => []
  | hl :: l' => if hl_ino hl =? ino then l' else hl :: chain_unlink ino l'
  end.

Fixpoint chain_modify (ino : Z) (f : hlink -> hlink) (l : list hlink)
  : list hlink :=
  match l with
  | [] => []
  | hl :: l' =>
      if hl_ino hl =? ino then f hl :: l' else hl :: chain_modify ino f l'
  end.

Definition hltdelete_ino (ino : Z) (t : hltab) : hltab :=
  let n := Z.land ino HLMASK in
  <[n := chain_unlink ino (hl_chain t n)]> t.

Definition hlt_modify (ino : Z) (f : hlink -> hlink) (t : hltab) : hltab :=
  let n := Z.land ino HLMASK in
  <[n := chain_modify ino f (hl_chain t n)]> t.

(** Modelled from the spec: [nlink_t] of [<sys/types.h>], which is not
    part of the sources; the type of [nlinked] and of [st_nlink], an
    unsigned 32-bit integer on the system the program is written for. *)
Definition nlink_t (x : Z) : Z := x mod 2 ^ 32.

(** [hln->nlinked++] *)
Definition hl_incr (hl : hlink) : hlink :=
  mkhlink (hl_ino hl) (hl_dino hl) (nlink_t (hl_nlinked hl + 1)) (hl_name hl).

Definition hl_set_dino (dino : Z) (hl : hlink) : hlink :=
  mkhlink (hl_ino hl) dino (hl_nlinked hl) (hl_name hl).

(** ** File status

    [struct stat], with the fields the program reads.  The build has both
    [st_flags] and [st_fsmid]. *)

Record stat := mkstat {
  st_mode : Z; st_flags : Z; st_ino : Z; st_dev : Z; st_nlink : Z;
  st_uid : Z; st_gid : Z; st_size : Z; st_mtime : Z; st_blocks : Z;
  st_rdev : Z; st_fsmid : Z
}.

Definition stat_eqb (a b : stat) : bool :=
  (st_mode a =? st_mode b) && (st_flags a =? st_flags b) &&
  (st_ino a =? st_ino b) && (st_dev a =? st_dev b) &&
  (st_nlink a =? st_nlink b) && (st_uid a =? st_uid b) &&
  (st_gid a =? st_gid b) && (st_size a =? st_size b) &&
  (st_mtime a =? st_mtime b) && (st_blocks a =? st_blocks b) &&
  (st_rdev a =? st_rdev b) && (st_fsmid a =? st_fsmid b).

(** Modelled from the spec: the file-kind macros of [<sys/stat.h>], which
    is not part of the sources ("Kind is derived from mode"), with their
    usual values. *)
Definition S_IFMT : Z := 0xF000.
Definition S_IFDIR : Z := 0x4000.
Definition S_IFCHR : Z := 0x2000.
Definition S_IFBLK : Z := 0x6000.
Definition S_IFREG : Z := 0x8000.
Definition S_IFLNK : Z := 0xA000.

Definition S_ISDIR (m : Z) : bool := Z.land m S_IFMT =? S_IFDIR.
Definition S_ISCHR (m : Z) : bool := Z.land m S_IFMT =? S_IFCHR.
Definition S_ISBLK (m : Z) : bool := Z.land m S_IFMT =? S_IFBLK.
Definition S_ISREG (m : Z) : bool := Z.land m S_IFMT =? S_IFREG.
Definition S_ISLNK (m : Z) : bool := Z.land m S_IFMT =? S_IFLNK.

(** Modelled from the spec: constants of [<errno.h>] and [<fcntl.h>],
    which are not part of the sources. *)
Definition EMLINK : Z := 31.
Definition O_RDONLY : Z := 0x0000.
Definition O_WRONLY : Z := 0x0001.
Definition O_CREAT : Z := 0x0200.
Definition O_TRUNC : Z := 0x0400.
Definition O_EXCL : Z := 0x0800.

(** [(dev_t)-1], the "no device yet" value passed by [main]; [dev_t] is
    32 bits wide and the program tests [(int)devNo]. *)
Definition dev_none : Z := 2 ^ 32 - 1.

(** ** Mode flags and counters (the globals of cpdup.c) *)

Record Options := mkOptions {
  AskConfirmation : Z;
  SafetyOpt : Z;
  ForceOpt : Z;
  VerboseOpt : Z;
  QuietOpt : Z;
  NoRemoveOpt : Z;
  UseMD5Opt : Z;
  UseFSMIDOpt : Z;
  SummaryOpt : Z;
  DstBaseLen : nat;
  UseCpFile : option string;
  UseHLPath : option string;
  MD5CacheFile : string;
  FSMIDCacheFile : string
}.

Record Counters := mkCounters {
  CountSourceBytes : Z;
  CountSourceItems : Z;
  CountCopiedItems : Z;
  CountReadBytes : Z;
  CountWriteBytes : Z;
  CountRemovedItems : Z
}.

(** ** The host interface *)

Inductive hostid := SrcHost | DstHost.

(** The calls that return an [int] status and may change a filesystem. *)
Inductive syscall :=
| sys_remove (h : hostid) (path : string)
| sys_rmdir (h : hostid) (path : string)
| sys_mkdir (h : hostid) (path : string) (mode : Z)
| sys_chown (h : hostid) (path : string) (uid gid : Z)
| sys_lchown (h : hostid) (path : string) (uid gid : Z)
| sys_chmod (h : hostid) (path : string) (mode : Z)
| sys_chflags (h : hostid) (path : string) (flags : Z)
| sys_utimes (h : hostid) (path : string) (atime mtime : Z)
| sys_umask (h : hostid) (mask : Z)
| sys_rename (h : hostid) (from to : string)
| sys_link (h : hostid) (from to : string)
| sys_symlink (h : hostid) (target path : string)
| sys_mknod (path : string) (mode rdev : Z)
| sys_open (h : hostid) (path : string) (flags mode : Z)
| sys_write (h : hostid) (fd : Z) (data : string)
| sys_close (h : hostid) (fd : Z).

(** Modelled from the spec: the host-handle operations of hcproto.c, the
    digest and content-id checks of md5.c and fsmid.c and the C library
    calls, none of which is part of the sources.  Each call "mirrors a
    POSIX-style call", "returns a negative value on failure and sets an
    errno-like field".  [world] is the state of both hosts and of the
    caches.  Looking at a host does not change it; a directory stream is
    the list of names [readdir] hands out after [opendir]; [os_fgets] is
    the sequence of buffers [fgets] returns for a file.  [os_sys] returns
    the status and the error number of a failure. *)
Record HostOps (world : Type) := mkHostOps {
  os_lstat : hostid -> string -> world -> option stat;
  os_stat : hostid -> string -> world -> option stat;
  os_readlink : hostid -> string -> world -> option string;
  os_opendir : hostid -> string -> world -> option (list string);
  os_fgets : string -> world -> option (list string);
  os_sys : syscall -> world -> Z * Z * world;
  os_read : hostid -> Z -> Z -> world -> Z * string * world;
  os_md5_check : string -> option string -> world -> Z * world;
  os_fsmid_check : Z -> string -> world -> Z * world;
  os_flush : world -> world
}.

Arguments os_lstat {world}.
Arguments os_stat {world}.
Arguments os_readlink {world}.
Arguments os_opendir {world}.
Arguments os_fgets {world}.
Arguments os_sys {world}.
Arguments os_read {world}.
Arguments os_md5_check {world}.
Arguments os_fsmid_check {world}.
Arguments os_flush {world}.

(** An argument of a log line: a string, a number, or [strerror(errno)]. *)
Inductive logarg :=
| AStr (s : string)
| AInt (n : Z)
| AErr (errno : Z).

(** What the program does to its surroundings, in order. *)
Inductive event :=
| EvLstat (h : hostid) (path : string) (r : option stat)
| EvStat (h : hostid) (path : string) (r : option stat)
| EvReadlink (h : hostid) (path : string) (r : option string)
| EvOpendir (h : hostid) (path : string) (r : option (list string))
| EvFgets (path : string) (r : option (list string))
| EvSys (c : syscall) (r : Z)
| EvRead (h : hostid) (fd : Z) (n : Z)
| EvMd5 (spath : string) (dpath : option string) (r : Z)
| EvFsmid (fsmid : Z) (dpath : string) (r : Z)
| EvYesNo (path : string) (answer : bool)
| EvLogStd (fmt : string) (args : list logarg)
| EvLogErr (fmt : string) (args : list logarg).

(** ** Program state and the monad of the program

    The state of a run: the hosts, [errno], the hardlink table, the
    counters, what is left of standard input, and the calls made so far.
    A computation has no result ([None]) when it runs out of fuel, or
    when it reaches a call whose behaviour C leaves undefined. *)

Record state (W : Type) := mkstate {
  world : W;
  errno : Z;
  hltable : hltab;
  counts : Counters;
  stdin : list ascii;
  events : list event
}.

Arguments mkstate {W}.
Arguments world {W}.
Arguments errno {W}.
Arguments hltable {W}.
Arguments counts {W}.
Arguments stdin {W}.
Arguments events {W}.

Definition M (W A : Type) : Type := state W -> option (A * state W).

Definition ret {W A : Type} (a : A) : M W A := fun s => Some (a, s).

Definition bind {W A B : Type} (m : M W A) (k : A -> M W B) : M W B :=
  fun s => match m s with
           | None => None
           | Some (a, s') => k a s'
           end.

Definition out_of_fuel {W A : Type} : M W A := fun _ => None.

(** A call with undefined behaviour: nothing is known of the run from
    there on. *)
Definition undefined {W A : Type} : M W A := fun _ => None.

Notation "x <- c1 ;; c2" := (bind c1 (fun x => c2))
  (at level 100, c1 at next level, right associativity).
Notation "c1 ;; c2" := (bind c1 (fun _ => c2))
  (at level 100, right associativity).

Definition add_event {W : Type} (e : event) (s : state W) : state W :=
  mkstate (world s) (errno s) (hltable s) (counts s) (stdin s)
          (events s ++ [e]).

Definition emit {W : Type} (e : event) : M W unit :=
  fun s => Some (tt, add_event e s).

Definition upd_errno {W : Type} (e : Z) (s : state W) : state W :=
  mkstate (world s) e (hltable s) (counts s) (stdin s) (events s).

Definition upd_hltable {W : Type} (f : hltab -> hltab) (s : state W)
  : state W :=
  mkstate (world s) (errno s) (f (hltable s)) (counts s) (stdin s)
          (events s).

Definition upd_counts {W : Type} (f : Counters -> Counters) (s : state W)
  : state W :=
  mkstate (world s) (errno s) (hltable s) (f (counts s)) (stdin s)
          (events s).

Definition get_errno {W : Type} : M W Z := fun s => Some (errno s, s).

Definition set_errno {W : Type} (e : Z) : M W unit :=
  fun s => Some (tt, upd_errno e s).

Definition get_hltable {W : Type} : M W hltab := fun s => Some (hltable s, s).

Definition modify_hltable {W : Type} (f : hltab -> hltab) : M W unit :=
  fun s => Some (tt, upd_hltable f s).

Definition count {W : Type} (f : Counters -> Counters) : M W unit :=
  fun s => Some (tt, upd_counts f s).

Definition logstd {W : Type} (fmt : string) (args : list logarg) : M W unit :=
  emit (EvLogStd fmt args).
Definition logerr {W : Type} (fmt : string) (args : list logarg) : M W unit :=
  emit (EvLogErr fmt args).

Definition when {W : Type} (b : bool) (m : M W unit) : M W unit :=
  if b then m else ret tt.

(** [x != 0] as a C truth value. *)
Definition truthy (x : Z) : bool := negb (x =? 0).

(** Counter updates: [Count... += n] on [int64_t]. *)
Definition add_SourceBytes (n : Z) (c : Counters) : Counters :=
  mkCounters (int64 (CountSourceBytes c + n)) (CountSourceItems c)
    (CountCopiedItems c) (CountReadBytes c) (CountWriteBytes c)
    (CountRemovedItems c).
Definition add_SourceItems (n : Z) (c : Counters) : Counters :=
  mkCounters (CountSourceBytes c) (int64 (CountSourceItems c + n))
    (CountCopiedItems c) (CountReadBytes c) (CountWriteBytes c)
    (CountRemovedItems c).
Definition add_CopiedItems (n : Z) (c : Counters) : Counters :=
  mkCounters (CountSourceBytes c) (CountSourceItems c)
    (int64 (CountCopiedItems c + n)) (CountReadBytes c) (CountWriteBytes c)
    (CountRemovedItems c).
Definition add_ReadBytes (n : Z) (c : Counters) : Counters :=
  mkCounters (CountSourceBytes c) (CountSourceItems c)
    (CountCopiedItems c) (int64 (CountReadBytes c + n)) (CountWriteBytes c)
    (CountRemovedItems c).
Definition add_WriteBytes (n : Z) (c : Counters) : Counters :=
  mkCounters (CountSourceBytes c) (CountSourceItems c)
    (CountCopiedItems c) (CountReadBytes c) (int64 (CountWriteBytes c + n))
    (CountRemovedItems c).
Definition add_RemovedItems (n : Z) (c : Counters) : Counters :=
  mkCounters (CountSourceBytes c) (CountSourceItems c)
    (CountCopiedItems c) (CountReadBytes c) (CountWriteBytes c)
    (int64 (CountRemovedItems c + n)).

(** String helpers of the C library, on the representation above. *)
Definition zlen (s : string) : Z := Z.of_nat (String.length s).

(** [strrchr(s, '/') + 1]; the program only applies it to a path that
    contains a slash. *)
Fixpoint has_slash (s : string) : bool :=
  match s with
  | EmptyString => false
  | String c s' => Ascii.eqb c "/" || has_slash s'
  end.

Fixpoint after_last_slash (s : string) : string :=
  match s with
  | EmptyString => EmptyString
  | String c s' =>
      if has_slash s' then after_last_slash s'
      else if Ascii.eqb c "/" then s'
      else String c s'
  end.

(** Every run of [m] relates the state before to the state after. *)
Definition keeps {W A : Type} (R : state W -> state W -> Prop) (m : M W A)
  : Prop :=
  forall s a s', m s = Some (a, s') -> R s s'.

(** The record of calls only grows. *)
Definition extends {W : Type} (s s' : state W) : Prop :=
  exists evs, events s' = (events s ++ evs)%list.

(** The hardlink table is not touched (and the record only grows). *)
Definition same_table {W : Type} (s s' : state W) : Prop :=
  hltable s' = hltable s /\ extends s s'.

(** A file of a hardlink group is in the table at most once. *)
Definition hlt_wf (t : hltab) : Prop :=
  forall n, List.NoDup (List.map hl_ino (hl_chain t n)).







(** ** The engine *)

(** A phase of [DoCopy] either leaves the function with a return value
    or hands its local variables to the next phase. *)
Inductive outcome (A : Type) :=
| Return (r : Z)
| Continue (a : A).

Arguments Return {A}.
Arguments Continue {A}.

Section Engine.

Context {W : Type}.
Variable os : HostOps W.
Variable opt : Options.

(** The indeterminate contents of an uninitialised [struct stat]. *)
Variable junk : stat.

Local Abbreviation M := (M W).

(** *** Host calls *)

Definition hc_lstat (h : hostid) (path : string) : M (option stat) :=
  fun s => let r := os_lstat os h path (world s) in
           Some (r, add_event (EvLstat h path r) s).

Definition hc_stat (h : hostid) (path : string) : M (option stat) :=
  fun s => let r := os_stat os h path (world s) in
           Some (r, add_event (EvStat h path r) s).

Definition hc_readlink (h : hostid) (path : string) : M (option string) :=
  fun s => let r := os_readlink os h path (world s) in
           Some (r, add_event (EvReadlink h path r) s).

Definition hc_opendir (h : hostid) (path : string)
  : M (option (list string)) :=
  fun s => let r := os_opendir os h path (world s) in
           Some (r, add_event (EvOpendir h path r) s).

Definition hc_fgets (path : string) : M (option (list string)) :=
  fun s => let r := os_fgets os path (world s) in
           Some (r, add_event (EvFgets path r) s).

(** A status-returning call: the world moves on, [errno] is set when the
    call fails. *)
Definition sys (c : syscall) : M Z :=
  fun s =>
    let '(r, e, w) := os_sys os c (world s) in
    Some (r, mkstate w (if r <? 0 then e else errno s) (hltable s)
                     (counts s) (stdin s) (events s ++ [EvSys c r])).

Definition hc_remove h path := sys (sys_remove h path).
Definition hc_rmdir h path := sys (sys_rmdir h path).
Definition hc_mkdir h path mode := sys (sys_mkdir h path mode).
Definition hc_chown h path uid gid := sys (sys_chown h path uid gid).
Definition hc_lchown h path uid gid := sys (sys_lchown h path uid gid).
Definition hc_chmod h path mode := sys (sys_chmod h path mode).
Definition hc_chflags h path flags := sys (sys_chflags h path flags).
Definition hc_utimes h path atime mtime := sys (sys_utimes h path atime mtime).
Definition hc_umask h mask := sys (sys_umask h mask).
Definition hc_rename h from to := sys (sys_rename h from to).
Definition hc_link h from to := sys (sys_link h from to).
Definition hc_symlink h target path := sys (sys_symlink h target path).
Definition mknod path mode rdev := sys (sys_mknod path mode rdev).
Definition hc_open h path flags mode := sys (sys_open h path flags mode).
Definition hc_write h fd data := sys (sys_write h fd data).
Definition hc_close h fd := sys (sys_close h fd).

(** [hc_read]: the count returned and the bytes placed in the buffer. *)
Definition hc_read (h : hostid) (fd nbytes : Z) : M (Z * string) :=
  fun s =>
    let '(n, data, w) := os_read os h fd nbytes (world s) in
    Some ((n, data), mkstate w (errno s) (hltable s) (counts s) (stdin s)
                             (events s ++ [EvRead h fd n])).

Definition md5_check (spath : string) (dpath : option string) : M Z :=
  fun s =>
    let '(r, w) := os_md5_check os spath dpath (world s) in
    Some (r, mkstate w (errno s) (hltable s) (counts s) (stdin s)
                     (events s ++ [EvMd5 spath dpath r])).

Definition fsmid_check (fsmid : Z) (dpath : string) : M Z :=
  fun s =>
    let '(r, w) := os_fsmid_check os fsmid dpath (world s) in
    Some (r, mkstate w (errno s) (hltable s) (counts s) (stdin s)
                     (events s ++ [EvFsmid fsmid dpath r])).

(** The first [n] bytes of a buffer. *)
Definition buf_prefix (n : Z) (data : string) : string :=
  substring 0 (Z.to_nat n) data.

(** *** YesNo *)

Fixpoint skip_line (input : list ascii) : list ascii :=
  match input with
  | [] => []
  | c :: rest => if Ascii.eqb c "010" then rest else skip_line rest
  end.

Definition YesNo (path : string) : M bool :=
  fun s =>
    let answer :=
      match stdin s with
      | [] => false
      | first :: _ => Ascii.eqb first "y" || Ascii.eqb first "Y"
      end in
    Some (answer, mkstate (world s) (errno s) (hltable s) (counts s)
                          (skip_line (stdin s))
                          (events s ++ [EvYesNo path answer])).

(** *** RemoveRecur *)

Fixpoint for_each {A : Type} (f : A -> M unit) (l : list A) : M unit :=
  match l with
  | [] => ret tt
  | x :: l' => f x ;; for_each f l'
  end.

Definition is_dot (name : string) : bool :=
  String.eqb name "." || String.eqb name "..".

Fixpoint RemoveRecur (fuel : nat) (dpath : string) (devNo : Z) : M unit :=
  match fuel with
  | O => out_of_fuel
  | S fuel' =>
      r <- hc_lstat DstHost dpath ;;
      match r with
      | None => ret tt
      | Some st =>
          let devNo := if int32 devNo <? 0 then st_dev st else devNo in
          if st_dev st =? devNo then
            if S_ISDIR (st_mode st) then
              (dir <- hc_opendir DstHost dpath ;;
               match dir with
               | Some ents =>
                   for_each
                     (fun name =>
                        if is_dot name then ret tt
                        else RemoveRecur fuel' (dpath ++ "/" ++ name) devNo)
                     ents
               | None => ret tt
               end) ;;
              if truthy (AskConfirmation opt) && (NoRemoveOpt opt =? 0) then
                yes <- YesNo dpath ;;
                if yes : bool then
                  (rc <- hc_rmdir DstHost dpath ;;
                   e <- get_errno ;;
                   when (rc <? 0)
                     (logerr "%-32s rmdir failed: %s\n" [AStr dpath; AErr e])) ;;
                  count (add_RemovedItems 1)
                else ret tt
              else if truthy (NoRemoveOpt opt) then
                when (truthy (VerboseOpt opt))
                  (logstd "%-32s not-removed\n" [AStr dpath])
              else
                rc <- hc_rmdir DstHost dpath ;;
                if rc =? 0 then
                  when (truthy (VerboseOpt opt))
                    (logstd "%-32s rmdir-ok\n" [AStr dpath]) ;;
                  count (add_RemovedItems 1)
                else
                  e <- get_errno ;;
                  logerr "%-32s rmdir failed: %s\n" [AStr dpath; AErr e]
            else
              if truthy (AskConfirmation opt) && (NoRemoveOpt opt =? 0) then
                yes <- YesNo dpath ;;
                if yes : bool then
                  (rc <- hc_remove DstHost dpath ;;
                   e <- get_errno ;;
                   when (rc <? 0)
                     (logerr "%-32s remove failed: %s\n" [AStr dpath; AErr e])) ;;
                  count (add_RemovedItems 1)
                else ret tt
              else if truthy (NoRemoveOpt opt) then
                when (truthy (VerboseOpt opt))
                  (logstd "%-32s not-removed\n" [AStr dpath])
              else
                rc <- hc_remove DstHost dpath ;;
                if rc =? 0 then
                  when (truthy (VerboseOpt opt))
                    (logstd "%-32s remove-ok\n" [AStr dpath]) ;;
                  count (add_RemovedItems 1)
                else
                  e <- get_errno ;;
                  logerr "%-32s remove failed: %s\n" [AStr dpath; AErr e]
          else ret tt
      end
  end.

(** *** xrename and xlink: rename and link with flag override *)

Definition xrename (src dst : string) (flags : Z) : M Z :=
  r <- hc_rename DstHost src dst ;;
  if r <? 0 then
    hc_chflags DstHost dst 0 ;;
    r <- hc_rename DstHost src dst ;;
    (if r <? 0 then hc_chflags DstHost dst flags ;; ret tt else ret tt) ;;
    ret r
  else ret r.

Definition xlink (src dst : string) (flags : Z) : M Z :=
  r <- hc_link DstHost src dst ;;
  if r <? 0 then
    hc_chflags DstHost src 0 ;;
    r <- hc_link DstHost src dst ;;
    e <- get_errno ;;
    hc_chflags DstHost src flags ;;
    set_errno e ;;
    ret r
  else ret r.

(** *** checkHLPath: the -H path to hardlink from, or NULL *)

Fixpoint compare_loop (fuel : nat) (fd1 fd2 : Z) : M Z :=
  match fuel with
  | O => out_of_fuel
  | S fuel' =>
      rd <- hc_read SrcHost fd1 65536 ;;
      let '(n, buf1) := rd in
      if 0 <? n then
        rd2 <- hc_read DstHost fd2 65536 ;;
        let '(m, buf2) := rd2 in
        if negb (m =? n) then ret n
        else if negb (String.eqb (buf_prefix n buf1) (buf_prefix n buf2))
        then ret n
        else compare_loop fuel' fd1 fd2
      else ret n
  end.

Definition checkHLPath (fuel : nat) (hlbase : string) (st1 : stat)
    (spath dpath : string) : M (option string) :=
  let hpath := hlbase ++ str_drop (DstBaseLen opt) dpath in
  r <- hc_stat DstHost hpath ;;
  match r with
  | None => ret None
  | Some sthl =>
      if negb (st_size st1 =? st_size sthl) ||
         negb (st_uid st1 =? st_uid sthl) ||
         negb (st_gid st1 =? st_gid sthl) ||
         negb (st_mtime st1 =? st_mtime sthl)
      then ret None
      else if truthy (ForceOpt opt) then
        fd1 <- hc_open SrcHost spath O_RDONLY 0 ;;
        fd2 <- hc_open DstHost hpath O_RDONLY 0 ;;
        good <- (if (0 <=? fd1) && (0 <=? fd2) then
                   n <- compare_loop fuel fd1 fd2 ;;
                   ret (n =? 0)
                 else ret false) ;;
        (if 0 <=? fd1 then hc_close SrcHost fd1 ;; ret tt else ret tt) ;;
        (if 0 <=? fd2 then hc_close DstHost fd2 ;; ret tt else ret tt) ;;
        ret (if good : bool then Some hpath else None)
      else ret (Some hpath)
  end.

(** *** The phases of DoCopy *)

(** [(dpath) ? dpath : spath] *)
Definition path_of (dpath : option string) (spath : string) : string :=
  match dpath with
  | Some d => d
  | None => spath
  end.

(** "Handle hardlinks".  The result carries [r] and [hln]; [relink] is
    the target of [goto relink]. *)
Definition relink (st1 : stat) (dp : string) (r : Z)
  : M (outcome (Z * option Z)) :=
  modify_hltable (hltadd_ino (st_ino st1) dp) ;;
  ret (Continue (r, Some (st_ino st1))).

Definition hardlink_probe (spath : string) (dpath : option string)
    (st1 st2 : stat) (st2Valid : bool) (r : Z)
  : M (outcome (Z * option Z)) :=
  match dpath with
  | Some dp =>
      if S_ISREG (st_mode st1) && (1 <? st_nlink st1) then
        t <- get_hltable ;;
        match hltlookup_ino (st_ino st1) t with
        | Some found =>
            let hln := hl_ino found in
            modify_hltable (hlt_modify hln hl_incr) ;;
            let hl := hl_incr found in
            if st2Valid && (st_ino st2 =? hl_dino hl) then
              (* hard link is already correct, nothing to do *)
              when (3 <=? VerboseOpt opt)
                (logstd "%-32s nochange\n" [AStr (path_of dpath spath)]) ;;
              when (hl_nlinked hl =? st_nlink st1)
                (modify_hltable (hltdelete_ino hln)) ;;
              count (add_SourceItems 1) ;;
              ret (Return 0)
            else
              (* hard link is not correct, attempt to unlink it *)
              rm <- (if st2Valid then hc_remove DstHost dp else ret 0) ;;
              if rm <? 0 then
                e <- get_errno ;;
                logerr "%-32s hardlink: unable to unlink: %s\n"
                       [AStr (path_of dpath spath); AErr e] ;;
                modify_hltable (hltdelete_ino hln) ;;
                ret (Return (int32 (r + 1)))
              else
                lk <- xlink (hl_name hl) dp (st_flags st1) ;;
                if lk <? 0 then
                  e <- get_errno ;;
                  let tryrelink := e =? EMLINK in
                  logerr "%-32s hardlink: unable to link to %s: %s\n"
                         [AStr (path_of dpath spath); AStr (hl_name hl);
                          AErr e] ;;
                  modify_hltable (hltdelete_ino hln) ;;
                  if tryrelink then
                    (* logerr("%-20s hardlink: will attempt to copy
                       normally\n") is called without the argument its
                       format reads; [goto relink] comes after it *)
                    undefined
                  else ret (Continue (int32 (r + 1), None))
                else
                  let last := hl_nlinked hl =? st_nlink st1 in
                  when last (modify_hltable (hltdelete_ino hln)) ;;
                  if r =? 0 then
                    when (truthy (VerboseOpt opt))
                      (logstd "%-32s hardlink: %s\n"
                         [AStr (path_of dpath spath);
                          AStr (if st2Valid then "relinked" else "linked")]) ;;
                    count (add_SourceItems 1) ;;
                    count (add_CopiedItems 1) ;;
                    ret (Return 0)
                  else ret (Continue (r, if last then None else Some hln))
        | None =>
            (* first instance of hardlink must be copied normally *)
            relink st1 dp r
        end
      else ret (Continue (r, None))
  | None => ret (Continue (r, None))
  end.


(** "Do we need to copy the file/dir/link/whatever?"  The result carries
    [mres] and [fres]. *)
Definition nochange_check (spath : string) (dpath : option string)
    (st1 st2 : stat) (st2Valid : bool) (hln : option Z) (size : Z)
  : M (outcome (Z * Z)) :=
  let dp := path_of dpath spath in
  if st2Valid && (st_mode st1 =? st_mode st2) &&
     (st_flags st1 =? st_flags st2) then
    if S_ISLNK (st_mode st1) || S_ISDIR (st_mode st1) then
      if (ForceOpt opt =? 0) && truthy (UseFSMIDOpt opt) then
        fres <- fsmid_check (st_fsmid st1) dp ;;
        if fres =? 0 then
          when (3 <=? VerboseOpt opt)
            (if truthy (UseFSMIDOpt opt)
             then logstd "%-32s fsmid-nochange\n" [AStr dp]
             else logstd "%-32s nochange\n" [AStr dp]) ;;
          ret (Return 0)
        else ret (Continue (0, fres))
      else ret (Continue (0, 0))
    else
      if (ForceOpt opt =? 0) &&
         (st_size st1 =? st_size st2) &&
         (st_uid st1 =? st_uid st2) &&
         (st_gid st1 =? st_gid st2) &&
         (st_mtime st1 =? st_mtime st2) then
        mres <- (if UseMD5Opt opt =? 0 then ret 0
                 else md5_check spath dpath) ;;
        if mres =? 0 then
          fres <- (if UseFSMIDOpt opt =? 0 then ret 0
                   else fsmid_check (st_fsmid st1) dp) ;;
          if fres =? 0 then
            match hln with
            | Some h => modify_hltable (hlt_modify h (hl_set_dino (st_ino st2)))
            | None => ret tt
            end ;;
            when (3 <=? VerboseOpt opt)
              (if truthy (UseMD5Opt opt)
               then logstd "%-32s md5-nochange\n" [AStr dp]
               else if truthy (UseFSMIDOpt opt)
               then logstd "%-32s fsmid-nochange\n" [AStr dp]
               else logstd "%-32s nochange\n" [AStr dp]) ;;
            count (add_SourceBytes size) ;;
            count (add_SourceItems 1) ;;
            ret (Return 0)
          else ret (Continue (mres, fres))
        else ret (Continue (mres, 0))
      else ret (Continue (0, 0))
  else ret (Continue (0, 0)).

(** The world after the digest check and after the content-id check of
    the no-change test, when each is enabled. *)
Definition after_md5 (spath dp : string) (w : W) : W :=
  if UseMD5Opt opt =? 0 then w
  else snd (os_md5_check os spath (Some dp) w).

Definition after_checks (spath dp : string) (st1 : stat) (w : W) : W :=
  if UseFSMIDOpt opt =? 0 then after_md5 spath dp w
  else snd (os_fsmid_check os (st_fsmid st1) dp (after_md5 spath dp w)).

(** "File-over-directory conflict": the SAFETY refusal, or the removal
    of the destination tree. *)
Definition conflict_check (fuel : nat) (spath : string)
    (dpath : option string) (st1 st2 : stat) (st2Valid : bool)
    (ddevNo : Z) (r : Z) : M (outcome Z) :=
  if st2Valid && negb (S_ISDIR (st_mode st1)) && S_ISDIR (st_mode st2) then
    if truthy (SafetyOpt opt) then
      logerr "%-32s SAFETY - refusing to copy file over directory\n"
             [AStr (path_of dpath spath)] ;;
      let r := int32 (r + 1) in      (* ++r, XXX *)
      ret (Return 0)                 (* continue with the cpdup anyway *)
    else
      when ((QuietOpt opt =? 0) || truthy (AskConfirmation opt))
        (logstd ("%-32s WARNING: non-directory source will blow away\n" ++
                 "%-32s preexisting dest directory, continuing anyway!\n")
                [AStr (path_of dpath spath); AStr ""]) ;;
      match dpath with
      | Some dp => RemoveRecur fuel dp ddevNo
      | None => ret tt
      end ;;
      ret (Continue r)
  else ret (Continue r).

(** *** Directories *)

Definition set_st_mode (m : Z) (st : stat) : stat :=
  mkstat m (st_flags st) (st_ino st) (st_dev st) (st_nlink st) (st_uid st)
         (st_gid st) (st_size st) (st_mtime st) (st_blocks st) (st_rdev st)
         (st_fsmid st).

(** Make sure the destination is a directory that can be scanned; the
    result carries [st2], [r] and [noLoop]. *)
Definition dir_prepare (spath : string) (dpath : option string)
    (st1 st2 : stat) (r : Z) : M (stat * Z * Z) :=
  match dpath with
  | Some dp =>
      if negb (S_ISDIR (st_mode st2)) then
        hc_remove DstHost dp ;;
        mk <- hc_mkdir DstHost dp (Z.lor (st_mode st1) 0x1C0) ;;
        rn <- (if negb (mk =? 0) then
                 e <- get_errno ;;
                 logerr "%s: mkdir failed: %s\n"
                        [AStr (path_of dpath spath); AErr e] ;;
                 ret (1, 1)
               else ret (r, 0)) ;;
        l2 <- hc_lstat DstHost dp ;;
        let st2 := match l2 with Some st => st | None => st2 end in
        hc_chown DstHost dp (st_uid st1) (st_gid st1) ;;
        count (add_CopiedItems 1) ;;
        ret (st2, fst rn, snd rn)
      else
        st2 <- (if negb (Z.land (st_mode st2) 0x1C0 =? 0x1C0) then
                  hc_chmod DstHost dp (Z.lor (st_mode st2) 0x1C0) ;;
                  ret (set_st_mode (Z.lor (st_mode st2) 0x1C0) st2)
                else ret st2) ;;
        when (2 <=? VerboseOpt opt)
          (logstd "%s\n" [AStr (path_of dpath spath)]) ;;
        ret (st2, r, 0)
  | None => ret (st2, r, 0)
  end.

(** One line of the exclusion file, as [fgets] returned it. *)
Definition strip_newline (buf : string) : string :=
  match String.length buf with
  | O => buf
  | S k =>
      match String.get k buf with
      | Some c => if Ascii.eqb c "010" then substring 0 k buf else buf
      | None => buf
      end
  end.

Definition cpignore_line (lst : IgnList) (buf : string) : M IgnList :=
  count (add_ReadBytes (int32 (zlen buf))) ;;
  let line := strip_newline buf in
  match line with
  | EmptyString => ret lst
  | String c _ =>
      if Ascii.eqb c "#" then ret lst
      else ret (snd (AddList lst line 1))
  end.

Fixpoint cpignore_lines (lst : IgnList) (bufs : list string) : M IgnList :=
  match bufs with
  | [] => ret lst
  | buf :: rest =>
      lst' <- cpignore_line lst buf ;;
      cpignore_lines lst' rest
  end.

(** "scan .cpignore file for files/directories to ignore", then the
    automatic exclusion of the two cache files. *)
Definition load_ignores (spath : string) (lst : IgnList) : M IgnList :=
  lst1 <- match UseCpFile opt with
          | Some cp =>
              let fpath :=
                match cp with
                | String "/" _ => cp
                | _ => spath ++ "/" ++ cp
                end in
              let lst0 := snd (AddList lst (after_last_slash fpath) 1) in
              fi <- hc_fgets fpath ;;
              match fi with
              | Some bufs => cpignore_lines lst0 bufs
              | None => ret lst0
              end
          | None => ret lst
          end ;;
  let lst2 := if truthy (UseMD5Opt opt)
              then snd (AddList lst1 (MD5CacheFile opt) 1) else lst1 in
  let lst3 := if truthy (UseFSMIDOpt opt)
              then snd (AddList lst2 (FSMIDCacheFile opt) 1) else lst2 in
  ret lst3.

Definition child (dir name : string) : string := dir ++ "/" ++ name.

(** The loop over the source directory; [rec] is [DoCopy]. *)
Fixpoint src_loop (rec : string -> option string -> Z -> Z -> M Z)
    (spath : string) (dpath : option string) (sdevNo ddevNo : Z)
    (ents : list string) (lst : IgnList) (r : Z) : M (IgnList * Z) :=
  match ents with
  | [] => ret (lst, r)
  | name :: rest =>
      if is_dot name then
        src_loop rec spath dpath sdevNo ddevNo rest lst r
      else
        let '(v, lst') := AddList lst name 0 in
        if v =? 1 then            (* ignore if on .cpignore list *)
          src_loop rec spath dpath sdevNo ddevNo rest lst' r
        else
          x <- rec (child spath name)
                   (match dpath with
                    | Some dp => Some (child dp name)
                    | None => None
                    end)
                   sdevNo ddevNo ;;
          src_loop rec spath dpath sdevNo ddevNo rest lst' (int32 (r + x))
  end.

(** The loop over the destination directory; [prune] is [RemoveRecur]. *)
Fixpoint dst_loop (prune : string -> Z -> M unit) (dp : string)
    (ddevNo : Z) (ents : list string) (lst : IgnList) : M IgnList :=
  match ents with
  | [] => ret lst
  | name :: rest =>
      if is_dot name then dst_loop prune dp ddevNo rest lst
      else
        let '(v, lst') := AddList lst name 3 in
        (if v =? 3 then prune (child dp name) ddevNo else ret tt) ;;
        dst_loop prune dp ddevNo rest lst'
  end.

(** Reapply owner, mode and flags to the destination directory. *)
Definition dir_fixup (dp : string) (st1 st2 : stat) (st2Valid : bool)
  : M unit :=
  (if truthy (ForceOpt opt) || negb st2Valid ||
      negb (st_uid st1 =? st_uid st2) || negb (st_gid st1 =? st_gid st2)
   then hc_chown DstHost dp (st_uid st1) (st_gid st1) ;; ret tt
   else ret tt) ;;
  (if negb st2Valid || negb (st_mode st1 =? st_mode st2)
   then hc_chmod DstHost dp (st_mode st1) ;; ret tt
   else ret tt) ;;
  (if negb st2Valid || negb (st_flags st1 =? st_flags st2)
   then hc_chflags DstHost dp (st_flags st1) ;; ret tt
   else ret tt).

Definition copy_directory (rec : string -> option string -> Z -> Z -> M Z)
    (prune : string -> Z -> M unit)
    (spath : string) (dpath : option string) (sdevNo ddevNo : Z)
    (st1 st2 : stat) (st2Valid : bool) (r fres : Z) (lst : IgnList)
  : M Z :=
  when (fres <? 0)
    (logerr "%-32s/ fsmid-CHECK-FAILED\n" [AStr (path_of dpath spath)]) ;;
  dir <- hc_opendir SrcHost spath ;;
  match dir with
  | Some ents =>
      prep <- dir_prepare spath dpath st1 st2 r ;;
      let '(st2, r, noLoop) := prep in
      let '(noLoop, sdevNo) :=
        if (0 <=? int32 sdevNo) && negb (st_dev st1 =? sdevNo)
        then (1, sdevNo) else (noLoop, st_dev st1) in
      let '(noLoop, ddevNo) :=
        if (0 <=? int32 ddevNo) && negb (st_dev st2 =? ddevNo)
        then (1, ddevNo) else (noLoop, st_dev st2) in
      lst <- load_ignores spath lst ;;
      lr <- (if noLoop =? 0
             then src_loop rec spath dpath sdevNo ddevNo ents lst r
             else ret (lst, r)) ;;
      let '(lst, r) := lr in
      match dpath with
      | Some dp =>
          ddir <- hc_opendir DstHost dp ;;
          match ddir with
          | Some dents =>
              (if noLoop =? 0
               then dst_loop prune dp ddevNo dents lst ;; ret tt
               else ret tt)
          | None => ret tt
          end ;;
          dir_fixup dp st1 st2 st2Valid
      | None => ret tt
      end ;;
      ret r
  | None => ret r
  end.

(** *** Regular files *)

(** The copy loop; the result is the last [n] and the name of the
    operation that ended the loop. *)
Fixpoint copy_loop (fuel : nat) (fd1 fd2 : Z) : M (Z * string) :=
  match fuel with
  | O => out_of_fuel
  | S fuel' =>
      rd <- hc_read SrcHost fd1 65536 ;;
      let '(n, buf) := rd in
      if 0 <? n then
        wr <- hc_write DstHost fd2 (buf_prefix n buf) ;;
        if negb (wr =? n) then ret (n, "write")
        else copy_loop fuel' fd1 fd2
      else ret (n, "read")
  end.

(** From the opening of the source file to [skip_copy]. *)
Definition copy_contents (fuel : nat) (spath dp : string)
    (st1 st2 : stat) (size r : Z) : M Z :=
  let path := dp ++ ".tmp" in
  fd1 <- hc_open SrcHost spath O_RDONLY 0 ;;
  if 0 <=? fd1 then
    fd2 <- hc_open DstHost path (Z.lor (Z.lor O_WRONLY O_CREAT) O_EXCL) 0x180 ;;
    fd2 <- (if fd2 <? 0 then
              (* a .tmp file from a previously interrupted run *)
              hc_chflags DstHost path 0 ;;
              hc_remove DstHost path ;;
              hc_open DstHost path
                (Z.lor (Z.lor (Z.lor O_WRONLY O_CREAT) O_EXCL) O_TRUNC) 0x180
            else ret fd2) ;;
    r <- (if 0 <=? fd2 then
            lp <- copy_loop fuel fd1 fd2 ;;
            let '(n, op) := lp in
            hc_close DstHost fd2 ;;
            if n =? 0 then
              hc_utimes DstHost path (st_mtime st1) (st_mtime st1) ;;
              hc_chown DstHost path (st_uid st1) (st_gid st1) ;;
              hc_chmod DstHost path (st_mode st1) ;;
              rn <- xrename path dp (st_flags st2) ;;
              r <- (if negb (rn =? 0) then
                      e <- get_errno ;;
                      logerr "%-32s rename-after-copy failed: %s\n"
                             [AStr dp; AErr e] ;;
                      ret (int32 (r + 1))
                    else
                      when (truthy (VerboseOpt opt))
                        (logstd "%-32s copy-ok\n" [AStr dp]) ;;
                      (if truthy (st_flags st1)
                       then hc_chflags DstHost dp (st_flags st1) ;; ret tt
                       else ret tt) ;;
                      ret r) ;;
              count (add_ReadBytes size) ;;
              count (add_WriteBytes size) ;;
              count (add_SourceBytes size) ;;
              count (add_SourceItems 1) ;;
              count (add_CopiedItems 1) ;;
              ret r
            else
              e <- get_errno ;;
              logerr "%-32s %s failed: %s\n" [AStr dp; AStr op; AErr e] ;;
              hc_remove DstHost path ;;
              ret (int32 (r + 1))
          else
            e <- get_errno ;;
            logerr "%-32s create (uid %d, euid %d) failed: %s\n"
                   [AStr dp; AErr e] ;;
            ret (int32 (r + 1))) ;;
    hc_close SrcHost fd1 ;;
    ret r
  else
    e <- get_errno ;;
    logerr "%-32s copy: open failed: %s\n" [AStr dp; AErr e] ;;
    ret (int32 (r + 1)).

Definition copy_regular (fuel : nat) (spath dp : string)
    (st1 st2 : stat) (size r mres fres : Z) (hln : option Z) : M Z :=
  (if mres <? 0 then logerr "%-32s md5-CHECK-FAILED\n" [AStr dp]
   else if fres <? 0 then logerr "%-32s fsmid-CHECK-FAILED\n" [AStr dp]
   else ret tt) ;;
  linked <- match UseHLPath opt with
            | Some hlbase =>
                hp <- checkHLPath fuel hlbase st1 spath dp ;;
                match hp with
                | Some hpath =>
                    lk <- hc_link DstHost hpath dp ;;
                    if lk =? 0 then
                      when (truthy (VerboseOpt opt))
                        (logstd "%-32s hardlinked(-H)\n" [AStr dp]) ;;
                      ret true
                    else ret false
                | None => ret false
                end
            | None => ret false
            end ;;
  r <- (if linked : bool then ret r
        else copy_contents fuel spath dp st1 st2 size r) ;;
  (* skip_copy: *)
  match hln with
  | Some h =>
      (if r =? 0 then
         stp <- hc_stat DstHost dp ;;
         match stp with
         | Some st => modify_hltable (hlt_modify h (hl_set_dino (st_ino st)))
         | None => modify_hltable (hltdelete_ino h)
         end
       else modify_hltable (hltdelete_ino h))
  | None => ret tt
  end ;;
  ret r.

(** *** Symbolic links and device nodes *)

(** [readlink] into a buffer of [bufsiz] bytes: the count and the bytes. *)
Definition readlink_buf (h : hostid) (path : string) (bufsiz : nat)
  : M (Z * string) :=
  r <- hc_readlink h path ;;
  match r with
  | Some target =>
      let got := substring 0 bufsiz target in
      ret (zlen got, got)
  | None => ret (-1, "")
  end.

(** [snprintf(path, sizeof(path), "%s.tmp", dpath)] with [char path[2048]]. *)
Definition tmp_path_2048 (dp : string) : string :=
  substring 0 2047 (dp ++ ".tmp").

Definition copy_symlink (spath dp : string) (st1 st2 : stat) (r : Z) : M Z :=
  let path := tmp_path_2048 dp in
  l1 <- readlink_buf SrcHost spath 1023 ;;
  l2 <- readlink_buf DstHost dp 1023 ;;
  let '(n1, link1) := l1 in
  let '(n2, link2) := l2 in
  if 0 <=? n1 then
    r <- (if truthy (ForceOpt opt) || negb (n1 =? n2) ||
             negb (String.eqb link1 link2) then
            hc_umask DstHost (Z.lnot (st_mode st1)) ;;
            hc_remove DstHost path ;;
            sl <- hc_symlink DstHost link1 path ;;
            if sl <? 0 then
              e <- get_errno ;;
              logerr "%-32s symlink (%s->%s) failed: %s\n"
                     [AStr dp; AStr link1; AStr path; AErr e] ;;
              ret (int32 (r + 1))
            else
              hc_lchown DstHost path (st_uid st1) (st_gid st1) ;;
              rn <- xrename path dp (st_flags st2) ;;
              (if negb (rn =? 0) then
                 e <- get_errno ;;
                 logerr "%-32s rename softlink (%s->%s) failed: %s\n"
                        [AStr dp; AStr path; AStr dp; AErr e]
               else when (truthy (VerboseOpt opt))
                      (logstd "%-32s softlink-ok\n" [AStr dp])) ;;
              hc_umask DstHost 0 ;;
              count (add_WriteBytes n1) ;;
              count (add_CopiedItems 1) ;;
              ret r
          else
            when (3 <=? VerboseOpt opt) (logstd "%-32s nochange\n" [AStr dp]) ;;
            ret r) ;;
    count (add_SourceBytes n1) ;;
    count (add_ReadBytes n1) ;;
    when (0 <? n2) (count (add_ReadBytes n2)) ;;
    count (add_SourceItems 1) ;;
    ret r
  else
    logerr "%-32s softlink-failed\n" [AStr dp] ;;
    ret 1.

Definition copy_device (dp : string) (st1 st2 : stat) (st2Valid : bool)
    (r : Z) : M Z :=
  r <- (if truthy (ForceOpt opt) || negb st2Valid ||
           negb (st_mode st1 =? st_mode st2) ||
           negb (st_rdev st1 =? st_rdev st2) ||
           negb (st_uid st1 =? st_uid st2) ||
           negb (st_gid st1 =? st_gid st2) then
          let path := tmp_path_2048 dp in
          hc_remove DstHost path ;;
          mk <- mknod path (st_mode st1) (st_rdev st1) ;;
          if mk =? 0 then
            hc_chmod DstHost path (st_mode st1) ;;
            hc_chown DstHost path (st_uid st1) (st_gid st1) ;;
            hc_remove DstHost dp ;;
            rn <- xrename path dp (st_flags st2) ;;
            (if negb (rn =? 0) then
               e <- get_errno ;;
               logerr "%-32s dev-rename-after-create failed: %s\n"
                      [AStr dp; AErr e]
             else when (truthy (VerboseOpt opt))
                    (logstd "%-32s dev-ok\n" [AStr dp])) ;;
            count (add_CopiedItems 1) ;;
            ret r
          else
            e <- get_errno ;;
            logerr "%-32s dev failed: %s\n" [AStr dp; AErr e] ;;
            ret 1
        else
          when (3 <=? VerboseOpt opt) (logstd "%-32s nochange\n" [AStr dp]) ;;
          ret r) ;;
  count (add_SourceItems 1) ;;
  ret r.

(** "If dpath is NULL, we are just updating the MD5". *)
Definition md5_refresh (spath : string) (st1 : stat) : M unit :=
  if truthy (UseMD5Opt opt) && S_ISREG (st_mode st1) then
    mres <- md5_check spath None ;;
    if 1 <? VerboseOpt opt then
      if mres <? 0 then logstd "%-32s md5-update\n" [AStr spath]
      else logstd "%-32s md5-ok\n" [AStr spath]
    else
      when ((QuietOpt opt =? 0) && (mres <? 0))
        (logstd "%-32s md5-update\n" [AStr spath])
  else ret tt.

(** *** DoCopy *)

(** [size]: the space the file takes, for the summary. *)
Definition file_size (st1 : stat) : Z :=
  if S_ISREG (st_mode st1) then
    let size := uint64 (st_blocks st1 * 512) in
    if truthy (Z.rem (st_size st1) 512)
    then uint64 (size + (Z.rem (st_size st1) 512 - 512))
    else size
  else 0.

(** [st2] before the destination is looked at: mode and flags are
    cleared "in case lstat fails", the rest is whatever was there. *)
Definition st2_initial : stat :=
  mkstat 0 0 (st_ino junk) (st_dev junk) (st_nlink junk) (st_uid junk)
         (st_gid junk) (st_size junk) (st_mtime junk) (st_blocks junk)
         (st_rdev junk) (st_fsmid junk).

(** "The various comparisons failed, copy it." *)
Definition dispatch (fuel : nat)
    (rec : string -> option string -> Z -> Z -> M Z)
    (spath : string) (dpath : option string) (sdevNo ddevNo : Z)
    (st1 st2 : stat) (st2Valid : bool) (size r mres fres : Z)
    (hln : option Z) (lst : IgnList) : M Z :=
  if S_ISDIR (st_mode st1) then
    copy_directory rec (RemoveRecur fuel) spath dpath sdevNo ddevNo
                   st1 st2 st2Valid r fres lst
  else
    match dpath with
    | None => md5_refresh spath st1 ;; ret r
    | Some dp =>
        if S_ISREG (st_mode st1) then
          copy_regular fuel spath dp st1 st2 size r mres fres hln
        else if S_ISLNK (st_mode st1) then
          copy_symlink spath dp st1 st2 r
        else if S_ISCHR (st_mode st1) || S_ISBLK (st_mode st1) then
          copy_device dp st1 st2 st2Valid r
        else ret r
    end.

(** Everything after the hardlink phase, given its [r] and [hln]. *)
Definition DoCopy_tail (fuel : nat)
    (rec : string -> option string -> Z -> Z -> M Z)
    (spath : string) (dpath : option string) (sdevNo ddevNo : Z)
    (st1 st2 : stat) (st2Valid : bool) (r : Z) (hln : option Z) : M Z :=
  nc <- nochange_check spath dpath st1 st2 st2Valid hln (file_size st1) ;;
  match nc with
  | Return v => ret v
  | Continue (mres, fres) =>
      cc <- conflict_check fuel spath dpath st1 st2 st2Valid ddevNo r ;;
      match cc with
      | Return v => ret v
      | Continue r =>
          dispatch fuel rec spath dpath sdevNo ddevNo st1 st2 st2Valid
                   (file_size st1) r mres fres hln InitList
      end
  end.

(** Both sides are looked at; the result is [st1], [st2], [st2Valid], or
    nothing when the source has vanished. *)
Definition stat_both (spath : string) (dpath : option string)
  : M (option (stat * stat * bool)) :=
  l1 <- hc_lstat SrcHost spath ;;
  match l1 with
  | None => ret None
  | Some st1 =>
      match dpath with
      | Some dp =>
          l2 <- hc_lstat DstHost dp ;;
          match l2 with
          | Some st2 => ret (Some (st1, st2, true))
          | None => ret (Some (st1, st2_initial, false))
          end
      | None => ret (Some (st1, st2_initial, false))
      end
  end.

Fixpoint DoCopy (fuel : nat) (spath : string) (dpath : option string)
    (sdevNo ddevNo : Z) : M Z :=
  match fuel with
  | O => out_of_fuel
  | S fuel' =>
      sb <- stat_both spath dpath ;;
      match sb with
      | None => ret 0
      | Some (st1, st2, st2Valid) =>
          hp <- hardlink_probe spath dpath st1 st2 st2Valid 0 ;;
          match hp with
          | Return v => ret v
          | Continue (r, hln) =>
              DoCopy_tail fuel' (DoCopy fuel') spath dpath sdevNo ddevNo
                          st1 st2 st2Valid r hln
          end
      end
  end.

End Engine.

(** ** main, from the call of DoCopy to the exit code

    Option parsing and the connection to remote hosts come before; the
    timing figures of the summary are left out. *)

Definition with_DstBaseLen (n : nat) (o : Options) : Options :=
  mkOptions (AskConfirmation o) (SafetyOpt o) (ForceOpt o) (VerboseOpt o)
    (QuietOpt o) (NoRemoveOpt o) (UseMD5Opt o) (UseFSMIDOpt o)
    (SummaryOpt o) n (UseCpFile o) (UseHLPath o) (MD5CacheFile o)
    (FSMIDCacheFile o).

Definition flush {W : Type} (os : HostOps W) : M W unit :=
  fun s => Some (tt, mkstate (os_flush os (world s)) (errno s) (hltable s)
                             (counts s) (stdin s) (events s)).

Definition summary (sizeof_stat : Z) (c : Counters) : Counters :=
  let c1 := add_SourceBytes (sizeof_stat * CountSourceItems c) c in
  let c2 := add_ReadBytes (sizeof_stat * CountSourceItems c1) c1 in
  let c3 := add_WriteBytes (sizeof_stat * CountCopiedItems c2) c2 in
  add_WriteBytes (sizeof_stat * CountRemovedItems c3) c3.

(** The exit code of the run.  [fatal] ends the run with code 1. *)
Definition cpdup_main {W : Type} (os : HostOps W) (opt : Options)
    (junk : stat) (sizeof_stat : Z) (fuel : nat)
    (src : string) (dst : option string) : M W Z :=
  match dst with
  | None =>
      if UseMD5Opt opt =? 0 then ret 1
      else
        i <- DoCopy os opt junk fuel src None dev_none dev_none ;;
        flush os ;;
        (if truthy (SummaryOpt opt) && (i =? 0) then
           count (summary sizeof_stat) ;;
           logstd "cpdup completed successfully\n" []
         else ret tt) ;;
        ret (if i =? 0 then 0 else 1)
  | Some d =>
      let opt' := with_DstBaseLen (String.length d) opt in
      i <- DoCopy os opt' junk fuel src (Some d) dev_none dev_none ;;
      flush os ;;
      (if truthy (SummaryOpt opt) && (i =? 0) then
         count (summary sizeof_stat) ;;
         logstd "cpdup completed successfully\n" []
       else ret tt) ;;
      ret (if i =? 0 then 0 else 1)
  end.



(** ** Reading the record of calls *)

(** A call made to write the destination: a call through the
    destination host handle, or [mknod], a call of the local system that
    the program only issues on the temporary of a destination path. *)
Definition sys_on_dst (c : syscall) : bool :=
  match c with
  | sys_remove DstHost _ | sys_rmdir DstHost _ | sys_mkdir DstHost _ _
  | sys_chown DstHost _ _ _ | sys_lchown DstHost _ _ _
  | sys_chmod DstHost _ _ | sys_chflags DstHost _ _
  | sys_utimes DstHost _ _ _ | sys_umask DstHost _
  | sys_rename DstHost _ _ | sys_link DstHost _ _
  | sys_symlink DstHost _ _ | sys_mknod _ _ _
  | sys_open DstHost _ _ _ | sys_write DstHost _ _
  | sys_close DstHost _ => true
  | _ => false
  end.

(** A status-returning call, as opposed to a look or a log line. *)
Definition is_sys (e : event) : bool :=
  match e with
  | EvSys _ _ => true
  | _ => false
  end.

(** An event that may change the destination: a call on it, or an update
    of the content-id cache kept there. *)
Definition dst_mutation (e : event) : bool :=
  match e with
  | EvSys c _ => sys_on_dst c
  | EvFsmid _ _ _ => true
  | _ => false
  end.

(** The computation runs to its end from every state (it does not run
    out of fuel). *)
Definition runs {W A : Type} (m : M W A) : Prop := forall s, m s <> None.

(** The record grows by events that all satisfy [P]. *)
Definition logs {W : Type} (P : event -> Prop) (s s' : state W) : Prop :=
  exists evs, events s' = (events s ++ evs)%list /\ Forall P evs.

(** A question put to the user. *)
Definition is_prompt (e : event) : bool :=
  match e with
  | EvYesNo _ _ => true
  | _ => false
  end.

(** The computation has only looked and logged: the hosts, the input and
    the removed-items counter are as they were, and the record has grown
    by events that are neither calls nor prompts. *)
Definition looks_only {W : Type} (s s' : state W) : Prop :=
  world s' = world s /\
  stdin s' = stdin s /\
  CountRemovedItems (counts s') = CountRemovedItems (counts s) /\
  logs (fun e => is_sys e = false /\ is_prompt e = false) s s'.

(** The path that a removal call on the destination host names. *)
Definition removal_path (c : syscall) : option string :=
  match c with
  | sys_remove DstHost p | sys_rmdir DstHost p => Some p
  | _ => None
  end.

(** A scan of a record: every status-returning call in it is a removal
    on the destination host that comes directly after a yes to the prompt
    for the path it names.  [last] is the path of the prompt just answered
    with yes, if the previous event was one. *)
Fixpoint asked (last : option string) (evs : list event) : bool :=
  match evs with
  | [] => true
  | e :: rest =>
      match e with
      | EvSys c _ =>
          match removal_path c, last with
          | Some q, Some p => String.eqb p q && asked None rest
          | _, _ => false
          end
      | EvYesNo p true => asked (Some p) rest
      | _ => asked None rest
      end
  end.

(** The record grows by events in which every call has been asked for
    first. *)
Definition confirms {W : Type} (s s' : state W) : Prop :=
  exists evs, events s' = (events s ++ evs)%list /\ asked None evs = true.

(** The removed-items counter after a record, starting from [c]: one
    more (on [int64_t]) for every call that returned 0. *)
Fixpoint tally (evs : list event) (c : Z) : Z :=
  match evs with
  | [] => c
  | EvSys _ r :: rest => tally rest (if r =? 0 then int64 (c + 1) else c)
  | _ :: rest => tally rest c
  end.

(** The removed-items counter has kept step with the record. *)
Definition counts_removals {W : Type} (s s' : state W) : Prop :=
  exists evs,
    events s' = (events s ++ evs)%list /\
    CountRemovedItems (counts s') = tally evs (CountRemovedItems (counts s)).

(** The host handle that a status-returning call goes through.  [mknod]
    is a call of the local system and goes through none. *)
Definition sys_host (c : syscall) : option hostid :=
  match c with
  | sys_mknod _ _ _ => None
  | sys_remove h _ | sys_rmdir h _ | sys_mkdir h _ _ | sys_chown h _ _ _
  | sys_lchown h _ _ _ | sys_chmod h _ _ | sys_chflags h _ _
  | sys_utimes h _ _ _ | sys_umask h _ | sys_rename h _ _ | sys_link h _ _
  | sys_symlink h _ _ | sys_open h _ _ _ | sys_write h _ _
  | sys_close h _ => Some h
  end.

(** An event that is not a change made through the source host handle.
    A status-returning call through that handle is accepted only when it
    opens a file for reading or closes a descriptor.  A digest check,
    which rewrites the cache file beside the source, is not accepted.
    Looks, reads, log lines, calls through the destination handle and
    [mknod] are not made through the source handle. *)
Definition src_handle_reads (e : event) : bool :=
  match e with
  | EvSys c _ =>
      match sys_host c with
      | Some SrcHost =>
          match c with
          | sys_open _ _ flags _ => flags =? O_RDONLY
          | sys_close _ _ => true
          | _ => false
          end
      | _ => true
      end
  | EvMd5 _ _ _ => false
  | _ => true
  end.

(** The calls that the copy of a regular file to [dp] may issue: the
    source is opened and closed; on the destination host everything is
    done to the temporary [dp.tmp], which is then renamed to [dp]; [dp]
    itself is only named by that rename and by [chflags]. *)
Definition via_temp (dp : string) (e : event) : bool :=
  match e with
  | EvSys c _ =>
      match c with
      | sys_open SrcHost _ _ _ | sys_close _ _ | sys_write DstHost _ _ => true
      | sys_open DstHost p _ _ | sys_remove DstHost p
      | sys_utimes DstHost p _ _ | sys_chown DstHost p _ _
      | sys_chmod DstHost p _ => String.eqb p (dp ++ ".tmp")
      | sys_rename DstHost a b =>
          String.eqb a (dp ++ ".tmp") && String.eqb b dp
      | sys_chflags DstHost p _ =>
          String.eqb p (dp ++ ".tmp") || String.eqb p dp
      | _ => false
      end
  | _ => true
  end.

(** ** The two directory loops, read as list functions *)

(** The ignore list after every entry of a directory listing has been
    passed to [AddList] with tag [n]. *)
Fixpoint tag_all (n : Z) (ents : list string) (lst : IgnList) : IgnList :=
  match ents with
  | [] => lst
  | name :: rest =>
      if is_dot name then tag_all n rest lst
      else tag_all n rest (snd (AddList lst name n))
  end.

(** The entries whose [AddList] call with tag [n] returned a value that
    [keep] accepts. *)
Fixpoint picked (n : Z) (keep : Z -> bool) (ents : list string)
    (lst : IgnList) : list string :=
  match ents with
  | [] => []
  | name :: rest =>
      if is_dot name then picked n keep rest lst
      else if keep (fst (AddList lst name n))
           then name :: picked n keep rest (snd (AddList lst name n))
           else picked n keep rest (snd (AddList lst name n))
  end.

(** [DoCopy] on each of the given children in turn, adding up the
    failure counts. *)
Fixpoint copy_each {W : Type}
    (rec : string -> option string -> Z -> Z -> M W Z)
    (spath : string) (dpath : option string) (sdevNo ddevNo : Z)
    (names : list string) (r : Z) : M W Z :=
  match names with
  | [] => ret r
  | name :: rest =>
      x <- rec (child spath name)
               (match dpath with
                | Some dp => Some (child dp name)
                | None => None
                end)
               sdevNo ddevNo ;;
      copy_each rec spath dpath sdevNo ddevNo rest (int32 (r + x))
  end.

(** The search that [AddList] makes, without the insertion. *)
Definition find_tag (lst : IgnList) (name : string) (n : Z) : option Z :=
  match List.find
          (fun node =>
             String.eqb name (no_Name node) ||
             (negb (n =? 1) && (no_Value node =? 1) &&
              (WildCmp (no_Name node) name =? 0)))
          (li_Hash lst 0) with
  | Some node => Some (no_Value node)
  | None =>
      match List.find (fun node => String.eqb name (no_Name node))
                      (li_Hash lst (shash name)) with
      | Some node => Some (no_Value node)
      | None => None
      end
  end.

(** A name is known to the list: looking it up finds a node whose tag
    is not 3. *)
Definition known (lst : IgnList) (name : string) : Prop :=
  exists v, find_tag lst name 3 = Some v /\ v <> 3.

(** No node of the list carries the tag 3. *)
Definition no_tag3 (lst : IgnList) : Prop :=
  forall hv node, In node (li_Hash lst hv) -> no_Value node <> 3.








(** A log line. *)
Definition is_log (e : event) : bool :=
  match e with
  | EvLogStd _ _ | EvLogErr _ _ => true
  | _ => false
  end.

(** What follows the look at a path that is on the device, by the mode
    of the run.  In batch mode: the one removal call [c], then log lines.
    With the no-remove option: log lines only.  In interactive mode: the
    question, and after a yes the call and log lines. *)
Definition removal_tail (opt : Options) (c : syscall) (path : string)
    (tl : list event) : Prop :=
  if truthy (AskConfirmation opt) && (NoRemoveOpt opt =? 0) then
    tl = [EvYesNo path false] \/
    exists rc lines,
      tl = EvYesNo path true :: EvSys c rc :: lines /\
      forallb is_log lines = true
  else if truthy (NoRemoveOpt opt) then forallb is_log tl = true
  else
    exists rc lines,
      tl = EvSys c rc :: lines /\ forallb is_log lines = true.

(** The record of a pruning, in the words of the description: removal
    is bounded by the device of the call site; a directory has its
    contents pruned and then is removed with [rmdir]; a file is
    unlinked. *)
Inductive pruned (opt : Options) (devNo : Z) : string -> list event -> Prop :=
| pruned_vanished p :
    pruned opt devNo p [EvLstat DstHost p None]
| pruned_other_device p st :
    st_dev st <> devNo ->
    pruned opt devNo p [EvLstat DstHost p (Some st)]
| pruned_file p st tl :
    st_dev st = devNo ->
    S_ISDIR (st_mode st) = false ->
    removal_tail opt (sys_remove DstHost p) p tl ->
    pruned opt devNo p (EvLstat DstHost p (Some st) :: tl)
| pruned_dir p st dir inner tl :
    st_dev st = devNo ->
    S_ISDIR (st_mode st) = true ->
    pruned_children opt devNo p
      (match dir with Some ents => ents | None => [] end) inner ->
    removal_tail opt (sys_rmdir DstHost p) p tl ->
    pruned opt devNo p
      (EvLstat DstHost p (Some st) :: EvOpendir DstHost p dir :: inner ++ tl)
with pruned_children (opt : Options) (devNo : Z)
  : string -> list string -> list event -> Prop :=
| pruned_none p :
    pruned_children opt devNo p [] []
| pruned_skip_dot p name rest evs :
    is_dot name = true ->
    pruned_children opt devNo p rest evs ->
    pruned_children opt devNo p (name :: rest) evs
| pruned_child p name rest evs1 evs2 :
    is_dot name = false ->
    pruned opt devNo (p ++ "/" ++ name) evs1 ->
    pruned_children opt devNo p rest evs2 ->
    pruned_children opt devNo p (name :: rest) (evs1 ++ evs2).

Scheme pruned_mind := Minimality for pruned Sort Prop
  with pruned_children_mind := Minimality for pruned_children Sort Prop.

(** Every removal call in a record follows a look at the same path that
    found it on the device [devNo]. *)
Definition removals_on_device (devNo : Z) (evs : list event) : Prop :=
  forall c r,
    In (EvSys c r) evs ->
    exists q st,
      (c = sys_remove DstHost q \/ c = sys_rmdir DstHost q) /\
      In (EvLstat DstHost q (Some st)) evs /\
      st_dev st = devNo.

(** The destination hierarchy, as [rank] measures it, has not grown. *)
Definition shrinks {W : Type} (rank : W -> string -> nat) (s s' : state W)
  : Prop :=
  forall q, (rank (world s') q <= rank (world s) q)%nat.

(** ** A run without a destination *)

(** What a digest refresh may do to the state, for a measure [rank] of
    the source hierarchy: the hierarchy does not grow and nothing
    recorded touches the destination. *)
Definition refreshes {W : Type} (rank : W -> string -> nat)
    (s s' : state W) : Prop :=
  (forall p, (rank (world s') p <= rank (world s) p)%nat) /\
  exists evs, events s' = (events s ++ evs)%list /\
              Forall (fun e => dst_mutation e = false) evs.

(** ** A destination that mirrors the source *)

(** What a run that finds nothing to do leaves behind: the hosts are as
    they were, no item is counted as copied or removed, and no
    status-returning call has been issued. *)
Definition quiet {W : Type} (s s' : state W) : Prop :=
  world s' = world s /\
  CountCopiedItems (counts s') = CountCopiedItems (counts s) /\
  CountRemovedItems (counts s') = CountRemovedItems (counts s) /\
  exists evs, events s' = (events s ++ evs)%list /\
              Forall (fun e => is_sys e = false) evs.

(** The same, and the hardlink table is as it was. *)
Definition idle {W : Type} (s s' : state W) : Prop :=
  quiet s s' /\ hltable s' = hltable s.

(** Every entry of the hardlink table records, for its source inode, the
    destination inode that [dino] names. *)
Definition paired (dino : Z -> Z) (t : hltab) : Prop :=
  hlt_wf t /\
  forall i e, hltlookup_ino i t = Some e -> hl_dino e = dino i.

(** The destination path [dp] mirrors the source path [sp] in the world
    [w], down to a depth below [n]: both exist with the same mode, flags,
    owner and group; a directory can be scanned, every entry of the
    destination directory is an entry of the source directory, and every
    entry of the source directory is mirrored; a regular file has the
    same size and time, and the names of a multiply-linked source inode
    are names of the one destination inode [dino] gives; a symbolic link
    has the same target (as far as the buffer of [DoCopy] holds it); a
    device node has the same device number. *)
Fixpoint mirrors {W : Type} (os : HostOps W) (w : W) (dino : Z -> Z)
    (n : nat) (sp dp : string) : bool :=
  match n with
  | O => false
  | S n' =>
      match os_lstat os SrcHost sp w, os_lstat os DstHost dp w with
      | Some st1, Some st2 =>
          (st_mode st1 =? st_mode st2) && (st_flags st1 =? st_flags st2) &&
          (st_uid st1 =? st_uid st2) && (st_gid st1 =? st_gid st2) &&
          (if S_ISDIR (st_mode st1) then
             (Z.land (st_mode st2) 0x1C0 =? 0x1C0) &&
             match os_opendir os SrcHost sp w, os_opendir os DstHost dp w with
             | Some ents, Some dents =>
                 forallb (fun name =>
                            is_dot name || existsb (String.eqb name) ents)
                         dents &&
                 forallb (fun name =>
                            is_dot name ||
                            mirrors os w dino n' (child sp name)
                                    (child dp name))
                         ents
             | _, _ => false
             end
           else if S_ISREG (st_mode st1) then
             (st_size st1 =? st_size st2) && (st_mtime st1 =? st_mtime st2) &&
             (negb (1 <? st_nlink st1) || (st_ino st2 =? dino (st_ino st1)))
           else if S_ISLNK (st_mode st1) then
             match os_readlink os SrcHost sp w, os_readlink os DstHost dp w with
             | Some t1, Some t2 =>
                 String.eqb (substring 0 1023 t1) (substring 0 1023 t2)
             | _, _ => false
             end
           else if S_ISCHR (st_mode st1) || S_ISBLK (st_mode st1) then
             st_rdev st1 =? st_rdev st2
           else true)
      | _, _ => false
      end
  end.

(** ** Patterns and names *)

(** A pattern without [*] and [?]: every character stands for itself. *)
Fixpoint plain (w : string) : bool :=
  match w with
  | EmptyString => true
  | String c w' =>
      negb (Ascii.eqb c "*") && negb (Ascii.eqb c "?") && plain w'
  end.

(** A name that holds one of the characters [shash] stops at. *)
Fixpoint has_wild (s : string) : bool :=
  match s with
  | EmptyString => false
  | String c s' => is_wild_char c || has_wild s'
  end.

(** ** A small in-memory pair of hosts

    Modelled from the spec: a concrete instance of the host interface of
    hcproto.c (which is not part of the sources), used to run the engine
    on explicit trees.  A host is a table from path to node; a directory
    lists the paths directly below it, in table order; a call named in
    [faults] fails with the given error number.  A new entry needs its
    parent directory, and only an empty directory can be removed.  The
    names of one file are separate entries that carry the same inode
    number; link counts and permissions are not maintained. *)

Module MemFS.

Record node := mknode {
  n_stat : stat;
  n_data : string;      (* contents of a regular file *)
  n_target : string     (* target of a symbolic link *)
}.

Record hosts := mkhosts {
  src_fs : list (string * node);
  dst_fs : list (string * node);
  fds : list (Z * (hostid * string * nat));   (* fd: host, path, offset *)
  next_fd : Z;
  next_ino : Z;
  faults : list (string * string * Z);        (* call, path, errno *)
  md5_answer : Z;
  fsmid_answer : Z
}.

Definition ENOENT : Z := 2.
Definition EBADF : Z := 9.
Definition EPERM : Z := 1.
Definition EEXIST : Z := 17.
Definition ENOTDIR : Z := 20.
Definition EISDIR : Z := 21.
Definition ENOTEMPTY : Z := 66.

Definition get_fs (h : hostid) (w : hosts) : list (string * node) :=
  match h with
  | SrcHost => src_fs w
  | DstHost => dst_fs w
  end.

Definition set_fs (h : hostid) (fs : list (string * node)) (w : hosts)
  : hosts :=
  match h with
  | SrcHost => mkhosts fs (dst_fs w) (fds w) (next_fd w) (next_ino w)
                       (faults w) (md5_answer w) (fsmid_answer w)
  | DstHost => mkhosts (src_fs w) fs (fds w) (next_fd w) (next_ino w)
                       (faults w) (md5_answer w) (fsmid_answer w)
  end.

Fixpoint lookup (p : string) (fs : list (string * node)) : option node :=
  match fs with
  | [] => None
  | (k, n) :: fs' => if String.eqb k p then Some n else lookup p fs'
  end.

Fixpoint erase (p : string) (fs : list (string * node))
  : list (string * node) :=
  match fs with
  | [] => []
  | (k, n) :: fs' => if String.eqb k p then erase p fs'
                     else (k, n) :: erase p fs'
  end.

Fixpoint store (p : string) (n : node) (fs : list (string * node))
  : list (string * node) :=
  match fs with
  | [] => [(p, n)]
  | (k, m) :: fs' => if String.eqb k p then (k, n) :: fs'
                     else (k, m) :: store p n fs'
  end.

Fixpoint strip_prefix (pre s : string) : option string :=
  match pre, s with
  | EmptyString, _ => Some s
  | String a pre', String b s' =>
      if Ascii.eqb a b then strip_prefix pre' s' else None
  | String _ _, EmptyString => None
  end.

Definition entries (p : string) (fs : list (string * node)) : list string :=
  flat_map (fun kn =>
              match strip_prefix (p ++ "/") (fst kn) with
              | Some rest => if has_slash rest then [] else [rest]
              | None => []
              end) fs.

(** The buffers [fgets] returns: lines with their newline. *)
Fixpoint lines_from (cur : string) (s : string) : list string :=
  match s with
  | EmptyString =>
      match cur with
      | EmptyString => []
      | _ => [cur]
      end
  | String c s' =>
      if Ascii.eqb c "010" then (cur ++ String c "") :: lines_from "" s'
      else lines_from (cur ++ String c "") s'
  end.

Definition with_stat (f : stat -> stat) (n : node) : node :=
  mknode (f (n_stat n)) (n_data n) (n_target n).

Definition new_stat (mode ino size : Z) : stat :=
  mkstat mode 0 ino 1 1 0 0 size 0 0 0 0.

Definition set_owner (uid gid : Z) (st : stat) : stat :=
  mkstat (st_mode st) (st_flags st) (st_ino st) (st_dev st) (st_nlink st)
         uid gid (st_size st) (st_mtime st) (st_blocks st) (st_rdev st)
         (st_fsmid st).
Definition set_perm (mode : Z) (st : stat) : stat :=
  set_st_mode (Z.lor (Z.land (st_mode st) S_IFMT) (Z.land mode 0xFFF)) st.
Definition set_flags (flags : Z) (st : stat) : stat :=
  mkstat (st_mode st) flags (st_ino st) (st_dev st) (st_nlink st)
         (st_uid st) (st_gid st) (st_size st) (st_mtime st) (st_blocks st)
         (st_rdev st) (st_fsmid st).
Definition set_mtime (t : Z) (st : stat) : stat :=
  mkstat (st_mode st) (st_flags st) (st_ino st) (st_dev st) (st_nlink st)
         (st_uid st) (st_gid st) (st_size st) t (st_blocks st) (st_rdev st)
         (st_fsmid st).
Definition set_size (n : Z) (st : stat) : stat :=
  mkstat (st_mode st) (st_flags st) (st_ino st) (st_dev st) (st_nlink st)
         (st_uid st) (st_gid st) n (st_mtime st) (st_blocks st) (st_rdev st)
         (st_fsmid st).
Definition set_rdev (n : Z) (st : stat) : stat :=
  mkstat (st_mode st) (st_flags st) (st_ino st) (st_dev st) (st_nlink st)
         (st_uid st) (st_gid st) (st_size st) (st_mtime st) (st_blocks st) n
         (st_fsmid st).

Definition sys_name (c : syscall) : string :=
  match c with
  | sys_remove _ _ => "remove" | sys_rmdir _ _ => "rmdir"
  | sys_mkdir _ _ _ => "mkdir" | sys_chown _ _ _ _ => "chown"
  | sys_lchown _ _ _ _ => "lchown" | sys_chmod _ _ _ => "chmod"
  | sys_chflags _ _ _ => "chflags" | sys_utimes _ _ _ _ => "utimes"
  | sys_umask _ _ => "umask" | sys_rename _ _ _ => "rename"
  | sys_link _ _ _ => "link" | sys_symlink _ _ _ => "symlink"
  | sys_mknod _ _ _ => "mknod" | sys_open _ _ _ _ => "open"
  | sys_write _ _ _ => "write" | sys_close _ _ => "close"
  end.

Definition sys_target (c : syscall) : string :=
  match c with
  | sys_remove _ p | sys_rmdir _ p | sys_mkdir _ p _ | sys_chown _ p _ _
  | sys_lchown _ p _ _ | sys_chmod _ p _ | sys_chflags _ p _
  | sys_utimes _ p _ _ | sys_rename _ _ p | sys_link _ _ p
  | sys_symlink _ _ p | sys_mknod p _ _ | sys_open _ p _ _ => p
  | sys_umask _ _ | sys_write _ _ _ | sys_close _ _ => ""
  end.

Fixpoint fault_of (name path : string) (l : list (string * string * Z))
  : option Z :=
  match l with
  | [] => None
  | (n, p, e) :: l' =>
      if String.eqb n name && String.eqb p path then Some e
      else fault_of name path l'
  end.

Definition bump_ino (w : hosts) : hosts :=
  mkhosts (src_fs w) (dst_fs w) (fds w) (next_fd w) (next_ino w + 1)
          (faults w) (md5_answer w) (fsmid_answer w).

Definition set_fds (l : list (Z * (hostid * string * nat))) (nfd : Z)
    (w : hosts) : hosts :=
  mkhosts (src_fs w) (dst_fs w) l nfd (next_ino w)
          (faults w) (md5_answer w) (fsmid_answer w).

Definition ok (w : hosts) : Z * Z * hosts := (0, 0, w).
Definition fail (e : Z) (w : hosts) : Z * Z * hosts := (-1, e, w).

(** Change the node at [p], or fail with ENOENT. *)
Definition on_node (h : hostid) (p : string) (f : stat -> stat) (w : hosts)
  : Z * Z * hosts :=
  match lookup p (get_fs h w) with
  | Some n => ok (set_fs h (store p (with_stat f n) (get_fs h w)) w)
  | None => fail ENOENT w
  end.

(** The directory part of a path; a path without a slash is relative to
    the working directory, which is always there. *)
Fixpoint dirname (s : string) : string :=
  match s with
  | EmptyString => EmptyString
  | String c s' => if has_slash s' then String c (dirname s')
                   else EmptyString
  end.

Definition is_dir (n : node) : bool := S_ISDIR (st_mode (n_stat n)).

(** Why nothing can be made at [p], if so. *)
Definition parent_error (p : string) (fs : list (string * node))
  : option Z :=
  if has_slash p then
    match lookup (dirname p) fs with
    | Some n => if is_dir n then None else Some ENOTDIR
    | None => Some ENOENT
    end
  else None.

Definition is_empty (p : string) (fs : list (string * node)) : bool :=
  match entries p fs with
  | [] => true
  | _ => false
  end.

Definition create (h : hostid) (p : string) (mode size : Z)
    (data target : string) (rdev : Z) (w : hosts) : Z * Z * hosts :=
  match lookup p (get_fs h w) with
  | Some _ => fail EEXIST w
  | None =>
      match parent_error p (get_fs h w) with
      | Some e => fail e w
      | None =>
          let st := set_rdev rdev (new_stat mode (next_ino w) size) in
          ok (bump_ino
                (set_fs h (store p (mknode st data target) (get_fs h w)) w))
      end
  end.

(** The path of an entry after the directory [from] has become [to]. *)
Definition rebase (from to k : string) : string :=
  match strip_prefix (from ++ "/") k with
  | Some rest => to ++ "/" ++ rest
  | None => k
  end.

Definition unlink_entry (h : hostid) (p : string) (w : hosts)
  : Z * Z * hosts :=
  ok (set_fs h (erase p (get_fs h w)) w).

Definition remove_dir (h : hostid) (p : string) (w : hosts)
  : Z * Z * hosts :=
  if is_empty p (get_fs h w) then unlink_entry h p w else fail ENOTEMPTY w.

Fixpoint fd_lookup (fd : Z) (l : list (Z * (hostid * string * nat)))
  : option (hostid * string * nat) :=
  match l with
  | [] => None
  | (k, v) :: l' => if k =? fd then Some v else fd_lookup fd l'
  end.

Definition open_fd (h : hostid) (p : string) (w : hosts) : Z * Z * hosts :=
  (next_fd w, 0, set_fds ((next_fd w, (h, p, O)) :: fds w) (next_fd w + 1) w).

(** [mknod] is a call of the local system; the destination is taken
    to be local. *)
Definition exec (c : syscall) (w : hosts) : Z * Z * hosts :=
  match c with
  | sys_remove h p =>
      match lookup p (get_fs h w) with
      | Some n => if is_dir n then remove_dir h p w else unlink_entry h p w
      | None => fail ENOENT w
      end
  | sys_rmdir h p =>
      match lookup p (get_fs h w) with
      | Some n => if is_dir n then remove_dir h p w else fail ENOTDIR w
      | None => fail ENOENT w
      end
  | sys_mkdir h p mode =>
      create h p (Z.lor S_IFDIR (Z.land mode 0xFFF)) 0 "" "" 0 w
  | sys_chown h p uid gid | sys_lchown h p uid gid =>
      on_node h p (set_owner uid gid) w
  | sys_chmod h p mode => on_node h p (set_perm mode) w
  | sys_chflags h p flags => on_node h p (set_flags flags) w
  | sys_utimes h p _ mtime => on_node h p (set_mtime mtime) w
  | sys_umask _ _ => ok w
  | sys_rename h from to =>
      let fs := get_fs h w in
      match lookup from fs with
      | Some n =>
          match parent_error to fs with
          | Some e => fail e w
          | None =>
              let blocked :=
                match lookup to fs with
                | Some m =>
                    if is_dir m then
                      if is_dir n then
                        if is_empty to fs then None else Some ENOTEMPTY
                      else Some EISDIR
                    else if is_dir n then Some ENOTDIR else None
                | None => None
                end in
              match blocked with
              | Some e => fail e w
              | None =>
                  let moved := erase from (store to n fs) in
                  ok (set_fs h
                        (if is_dir n
                         then List.map (fun kn => (rebase from to (fst kn),
                                                   snd kn)) moved
                         else moved) w)
              end
          end
      | None => fail ENOENT w
      end
  | sys_link h from to =>
      let fs := get_fs h w in
      match lookup from fs, lookup to fs with
      | Some n, None =>
          if is_dir n then fail EPERM w
          else match parent_error to fs with
               | Some e => fail e w
               | None => ok (set_fs h (store to n fs) w)
               end
      | Some _, Some _ => fail EEXIST w
      | None, _ => fail ENOENT w
      end
  | sys_symlink h target p =>
      create h p (Z.lor S_IFLNK 0x1ED) (zlen target) "" target 0 w
  | sys_mknod p mode rdev => create DstHost p mode 0 "" "" rdev w
  | sys_open h p flags mode =>
      if Z.land flags O_CREAT =? 0 then
        match lookup p (get_fs h w) with
        | Some _ => open_fd h p w
        | None => fail ENOENT w
        end
      else
        match create h p (Z.lor S_IFREG (Z.land mode 0xFFF)) 0 "" "" 0 w with
        | (0, _, w') => open_fd h p w'
        | r => r
        end
  | sys_write h fd data =>
      match fd_lookup fd (fds w) with
      | Some (_, p, _) =>
          match lookup p (get_fs h w) with
          | Some n =>
              let d := n_data n ++ data in
              (zlen data, 0,
               set_fs h (store p (mknode (set_size (zlen d) (n_stat n)) d
                                         (n_target n)) (get_fs h w)) w)
          | None => fail EBADF w
          end
      | None => fail EBADF w
      end
  | sys_close h fd =>
      ok (set_fds (List.filter (fun kv => negb (fst kv =? fd)) (fds w))
                  (next_fd w) w)
  end.

Definition m_sys (c : syscall) (w : hosts) : Z * Z * hosts :=
  match fault_of (sys_name c) (sys_target c) (faults w) with
  | Some e => fail e w
  | None => exec c w
  end.

Definition m_lstat (h : hostid) (p : string) (w : hosts) : option stat :=
  match lookup p (get_fs h w) with
  | Some n => Some (n_stat n)
  | None => None
  end.

Definition m_readlink (h : hostid) (p : string) (w : hosts) : option string :=
  match lookup p (get_fs h w) with
  | Some n => if S_ISLNK (st_mode (n_stat n)) then Some (n_target n) else None
  | None => None
  end.

Definition m_opendir (h : hostid) (p : string) (w : hosts)
  : option (list string) :=
  match lookup p (get_fs h w) with
  | Some n => if S_ISDIR (st_mode (n_stat n))
              then Some (entries p (get_fs h w)) else None
  | None => None
  end.

Definition m_fgets (p : string) (w : hosts) : option (list string) :=
  match lookup p (src_fs w) with
  | Some n => Some (lines_from "" (n_data n))
  | None => None
  end.

Definition m_read (h : hostid) (fd nbytes : Z) (w : hosts)
  : Z * string * hosts :=
  match fd_lookup fd (fds w) with
  | Some (_, p, off) =>
      match lookup p (get_fs h w) with
      | Some n =>
          let chunk := substring off (Z.to_nat nbytes) (n_data n) in
          (zlen chunk, chunk,
           set_fds ((fd, (h, p, (off + String.length chunk)%nat))
                    :: List.filter (fun kv => negb (fst kv =? fd)) (fds w))
                   (next_fd w) w)
      | None => (-1, "", w)
      end
  | None => (-1, "", w)
  end.

(** How far below [p] the source table can still reach. *)
Fixpoint longest (fs : list (string * node)) : nat :=
  match fs with
  | [] => O
  | (k, _) :: fs' => Nat.max (String.length k) (longest fs')
  end.

Definition depth_left (w : hosts) (p : string) : nat :=
  (S (longest (src_fs w)) - String.length p)%nat.

(** The same for the destination table. *)
Definition dst_depth_left (w : hosts) (p : string) : nat :=
  (S (longest (dst_fs w)) - String.length p)%nat.

Definition ops : HostOps hosts :=
  mkHostOps hosts m_lstat m_lstat m_readlink m_opendir m_fgets m_sys m_read
            (fun _ _ w => (md5_answer w, w))
            (fun _ _ w => (fsmid_answer w, w))
            (fun w => w).

(** A run starts with [errno] clear, an empty hardlink table, zeroed
    counters and nothing done yet. *)
Definition start (w : hosts) (input : list ascii) : state hosts :=
  mkstate w 0 ∅ (mkCounters 0 0 0 0 0 0) input [].

Definition defaults : Options :=
  mkOptions 1 1 0 0 0 0 0 0 0 O None None ".MD5.CHECKSUMS" ".FSMID.CHECK".

Definition no_junk : stat := mkstat 0 0 0 0 0 0 0 0 0 0 0 0.

Definition file (ino nlink size mtime : Z) (data : string) : node :=
  mknode (mkstat (Z.lor S_IFREG 0x1A4) 0 ino 1 nlink 0 0 size mtime 1 0 0)
         data "".
Definition dir (ino : Z) : node :=
  mknode (mkstat (Z.lor S_IFDIR 0x1ED) 0 ino 1 2 0 0 0 0 0 0 0) "" "".
Definition symlink (ino : Z) (target : string) : node :=
  mknode (mkstat (Z.lor S_IFLNK 0x1ED) 0 ino 1 1 0 0 (zlen target) 0 0 0 0)
         "" target.

Definition on_dev (d : Z) (n : node) : node :=
  mknode (mkstat (st_mode (n_stat n)) (st_flags (n_stat n))
                 (st_ino (n_stat n)) d (st_nlink (n_stat n))
                 (st_uid (n_stat n)) (st_gid (n_stat n))
                 (st_size (n_stat n)) (st_mtime (n_stat n))
                 (st_blocks (n_stat n)) (st_rdev (n_stat n))
                 (st_fsmid (n_stat n)))
         (n_data n) (n_target n).

Definition mk (src dst : list (string * node))
    (flt : list (string * string * Z)) : hosts :=
  mkhosts src dst [] 3 1000 flt 0 0.

End MemFS.

(** ** Example trees *)

Module Scenarios.
Import MemFS.

(** A regular file at the source, a directory of the same name at the
    destination. *)
Definition file_over_dir : hosts :=
  mk [("s", file 2 1 5 100 "hello")] [("d", dir 7)] [].

(** A small source tree, for a digest refresh. *)
Definition refresh_tree : hosts :=
  mk [("s", dir 1); ("s/a", file 2 1 5 100 "hello"); ("s/d", dir 4);
      ("s/d/e", file 5 1 3 50 "xyz")] [] [].

Definition refresh_options : Options :=
  mkOptions 1 1 0 0 0 0 1 0 0 O None None ".MD5.CHECKSUMS" ".FSMID.CHECK".

(** A destination directory with a file and a mount point below it. *)
Definition with_mount : hosts :=
  mk [] [("d", dir 1); ("d/x", dir 2); ("d/x/f", file 3 1 1 0 "f");
         ("d/x/m", on_dev 2 (dir 4)); ("d/x/m/g", on_dev 2 (file 5 1 1 0 "g"))]
     [].

Definition batch_options : Options :=
  mkOptions 0 1 0 0 0 0 0 0 0 O None None ".MD5.CHECKSUMS" ".FSMID.CHECK".

(** A source directory with two files, a destination that holds one of
    them and a stale file. *)
Definition stale_entry : hosts :=
  mk [("s", dir 1); ("s/a", file 2 1 5 100 "hello");
      ("s/b", file 3 1 3 50 "xyz")]
     [("d", dir 7); ("d/a", file 8 1 5 100 "hello");
      ("d/x", file 9 1 1 10 "x")] [].

(** Two names of one source file whose destination copies are separate
    files with the same attributes; the first name has been handled and
    is in the hardlink table with the inode of its destination. *)
Definition split_pair : hosts :=
  mk [("s", dir 1); ("s/a", file 2 2 5 100 "hello");
      ("s/b", file 2 2 5 100 "hello")]
     [("d", dir 7); ("d/a", file 8 2 5 100 "hello");
      ("d/b", file 9 2 5 100 "hello")] [].

Definition second_sighting (w : hosts) : state hosts :=
  mkstate w 0 (hlt_modify 2 (hl_set_dino 8) (hltadd_ino 2 "d/a" ∅))
          (mkCounters 0 0 0 0 0 0) [] [].

(** Two names of one source file; the first is at the destination and
    in the hardlink table, the second is not there yet and the link call
    for it is made to fail with the given error number. *)
Definition link_fails (e : Z) : hosts :=
  mk [("s", dir 1); ("s/a", file 2 2 5 100 "hello");
      ("s/b", file 2 2 5 100 "hello")]
     [("d", dir 7); ("d/a", file 8 2 5 100 "hello")]
     [("link", "d/b", e)].

(** The same with a separate copy of the second name already at the
    destination. *)
Definition link_fails_stale (e : Z) : hosts :=
  mk [("s", dir 1); ("s/a", file 2 2 5 100 "hello");
      ("s/b", file 2 2 5 100 "hello")]
     [("d", dir 7); ("d/a", file 8 2 5 100 "hello");
      ("d/b", file 9 2 5 100 "hello")]
     [("link", "d/b", e)].



(** A destination [d] beside an older copy [h] of the same tree, for
    the -H option. *)
Definition beside_older_copy : hosts :=
  mk [("s", dir 1); ("s/a", file 2 1 5 100 "hello")]
     [("d", dir 7); ("h", dir 8); ("h/a", file 9 1 5 100 "hello")] [].

Definition with_base : Options :=
  mkOptions 0 1 0 0 0 0 0 0 0 1 None (Some "h") ".MD5.CHECKSUMS"
            ".FSMID.CHECK".

(** A source tree with another file system mounted on [s/m]. *)
Definition source_mount : hosts :=
  mk [("s", dir 1); ("s/m", on_dev 2 (dir 3));
      ("s/m/f", on_dev 2 (file 4 1 1 0 "f"))]
     [("d", dir 7)] [].

(** A source directory with an exclusion file: a pattern, a comment, an
    empty line and a plain name. *)
Definition nl : string := String "010" EmptyString.

Definition ignore_file : hosts :=
  mk [("s", dir 1);
      ("s/.cpignore",
       file 2 1 14 0 ("*.o" ++ nl ++ "#x" ++ nl ++ nl ++ "core" ++ nl));
      ("s/a.c", file 3 1 1 0 "c"); ("s/a.o", file 4 1 1 0 "o")]
     [("d", dir 7)] [].

Definition ignoring : Options :=
  mkOptions 0 1 0 0 0 0 0 0 0 O (Some ".cpignore") None ".MD5.CHECKSUMS"
            ".FSMID.CHECK".

(** Batch mode with the no-remove option. *)
Definition no_remove : Options :=
  mkOptions 0 1 0 1 0 1 0 0 0 O None None ".MD5.CHECKSUMS" ".FSMID.CHECK".

(** A source directory that lists [a.tmp] before [a]; nothing at the
    destination. *)
Definition shadowed_temporary : hosts :=
  mk [("s", dir 1); ("s/a.tmp", file 2 1 3 50 "xyz");
      ("s/a", file 3 1 5 100 "hello")] [] [].

(** A source tree with a pair of names of one file, a symbolic link and
    a directory below. *)
Definition mixed_tree : hosts :=
  mk [("s", dir 1); ("s/a", file 2 2 5 100 "hello");
      ("s/b", file 2 2 5 100 "hello"); ("s/c", symlink 3 "a");
      ("s/d", dir 4); ("s/d/e", file 5 1 3 50 "xyz")] [] [].

(** The same source tree and an empty destination directory. *)
Definition mixed_tree_empty_dir : hosts :=
  mk (src_fs mixed_tree) [("d", dir 7)] [].

(** One run of the program on [s] and [d] with the given options, from a
    fresh start in the world [w]; and a run in the world another run
    has left behind. *)
Definition run (opt : Options) (w : hosts) : option (Z * state hosts) :=
  cpdup_main ops opt no_junk 120 10 "s" (Some "d") (start w []).

Definition rerun (opt : Options) (r : option (Z * state hosts))
  : option (Z * state hosts) :=
  match r with
  | Some (_, s) => run opt (world s)
  | None => None
  end.

Definition forced : Options :=
  mkOptions 1 1 1 0 0 0 0 0 0 O None None ".MD5.CHECKSUMS" ".FSMID.CHECK".

(** The world after one run on [mixed_tree]. *)
Definition mixed_mirror : hosts :=
  match run defaults mixed_tree with
  | Some (_, s) => world s
  | None => mixed_tree
  end.

End Scenarios.

(** * Properties *)

(** ** The wildcard matcher *)

Example WildCmp_ex1 : WildCmp "*.o" "foo.o" = 0.
Proof. reflexivity. Qed.
Example WildCmp_ex2 : WildCmp "*.o" "foo.c" = -1.
Proof. reflexivity. Qed.
Example WildCmp_ex3 : WildCmp "a?c*" "abcdef" = 0.
Proof. reflexivity. Qed.
Example WildCmp_ex4 : WildCmp "a*b*c" "axxbyy" = -1.
Proof. reflexivity. Qed.

Lemma WildCmp_star_eq (w1 s : string) :
  WildCmp (String "*" w1) s =
  match w1 with
  | EmptyString => 0
  | String _ _ => star_scan w1 s
  end.
Proof.
  destruct w1 as [|a w2]; [reflexivity|].
  induction s as [|d s IH].
  - reflexivity.
  - change (WildCmp (String "*" (String a w2)) (String d s))
      with (if WildCmp (String a w2) (String d s) =? 0 then 0
            else WildCmp (String "*" (String a w2)) s).
    rewrite IH. reflexivity.
Qed.

Lemma WildCmp_any_eq (w1 s : string) :
  WildCmp (String "?" w1) s =
  match s with
  | EmptyString => -1
  | String _ s1 => WildCmp w1 s1
  end.
Proof. reflexivity. Qed.

Lemma WildCmp_lit_eq (c : ascii) (w1 s : string) :
  c <> "*"%char -> c <> "?"%char ->
  WildCmp (String c w1) s =
  match s with
  | EmptyString => -1
  | String d s1 => if Ascii.eqb c d then WildCmp w1 s1 else -1
  end.
Proof.
  intros H1 H2. cbn [WildCmp].
  apply Ascii.eqb_neq in H1, H2. rewrite H1, H2. reflexivity.
Qed.

Lemma str_app_nil_l (t : string) : "" ++ t = t.
Proof. reflexivity. Qed.

Lemma str_app_cons (c : ascii) (a b : string) :
  String c a ++ b = String c (a ++ b).
Proof. reflexivity. Qed.

Lemma str_app_nil_r (t : string) : t ++ "" = t.
Proof.
  induction t as [|c t IH]; [reflexivity|].
  rewrite str_app_cons, IH. reflexivity.
Qed.

Lemma star_scan_hit (w1 run t : string) :
  WildCmp w1 t = 0 -> star_scan w1 (run ++ t) = 0.
Proof.
  intros Ht. induction run as [|c run IH].
  - rewrite str_app_nil_l. destruct t; cbn [star_scan]; rewrite Ht; reflexivity.
  - rewrite str_app_cons. cbn [star_scan]. rewrite IH.
    destruct (_ =? 0); reflexivity.
Qed.

Lemma star_scan_inv (w1 t : string) :
  star_scan w1 t = 0 -> exists run t2, t = run ++ t2 /\ WildCmp w1 t2 = 0.
Proof.
  induction t as [|c t IH]; cbn [star_scan].
  - destruct (WildCmp w1 "" =? 0) eqn:E; [|discriminate].
    intros _. exists "", "". split; [reflexivity|]. now apply Z.eqb_eq.
  - destruct (WildCmp w1 (String c t) =? 0) eqn:E.
    + intros _. exists "", (String c t). split; [reflexivity|]. now apply Z.eqb_eq.
    + intros H. destruct (IH H) as (run & t2 & -> & H2).
      exists (String c run), t2. split; [reflexivity|exact H2].
Qed.

Lemma wild_match_sound (w s : string) : wild_match w s -> WildCmp w s = 0.
Proof.
  induction 1 as [|w s c _ IH|w run s _ IH|w s c H1 H2 _ IH].
  - reflexivity.
  - rewrite WildCmp_any_eq. exact IH.
  - rewrite WildCmp_star_eq. destruct w; [reflexivity|].
    now apply star_scan_hit.
  - rewrite WildCmp_lit_eq by assumption. rewrite Ascii.eqb_refl. exact IH.
Qed.

Lemma wild_match_complete (w : string) :
  forall s, WildCmp w s = 0 -> wild_match w s.
Proof.
  induction w as [|c w1 IH]; intros s H.
  - destruct s; [constructor|discriminate].
  - destruct (Ascii.eqb_spec c "*") as [->|Hs].
    + rewrite WildCmp_star_eq in H. destruct w1 as [|a w2].
      * rewrite <- (str_app_nil_r s). apply wm_star. constructor.
      * destruct (star_scan_inv _ _ H) as (run & t2 & -> & H2).
        apply wm_star. now apply IH.
    + destruct (Ascii.eqb_spec c "?") as [->|Hq].
      * rewrite WildCmp_any_eq in H. destruct s as [|d s1]; [discriminate|].
        apply wm_any. now apply IH.
      * rewrite WildCmp_lit_eq in H by assumption.
        destruct s as [|d s1]; [discriminate|].
        destruct (Ascii.eqb_spec c d) as [->|]; [|discriminate].
        apply wm_lit; auto.
Qed.

(** C7: [WildCmp w s] returns 0 exactly when [s] is in the language of the
    pattern [w]: [?] stands for one character, [*] for any possibly empty
    run, any other character for itself, and both strings are exhausted
    together. *)
Theorem WildCmp_iff_wild_match (w s : string) :
  WildCmp w s = 0 <-> wild_match w s.
Proof.
  split; [apply wild_match_complete | apply wild_match_sound].
Qed.

Lemma WildCmp_fuel_enough (fuel : nat) :
  forall w s, (strlen w < fuel)%nat -> WildCmp_fuel fuel w s = Some (WildCmp w s).
Proof.
  induction fuel as [|fuel IH]; intros w s Hlt; [lia|].
  destruct w as [|c w1]; [destruct s; reflexivity|].
  cbn [strlen String.length] in Hlt.
  assert (Hw1 : (strlen w1 < fuel)%nat) by (unfold strlen; lia).
  destruct (Ascii.eqb_spec c "*") as [->|Hs].
  - rewrite WildCmp_star_eq. destruct w1 as [|a w2]; [reflexivity|].
    induction s as [|d s IHs].
    + change (WildCmp_fuel (S fuel) (String "*" (String a w2)) "")
        with (match WildCmp_fuel fuel (String a w2) "" with
              | None => None
              | Some r => if r =? 0 then Some 0 else Some (-1)
              end).
      rewrite (IH _ _ Hw1). cbn [star_scan].
      destruct (WildCmp (String a w2) "" =? 0); reflexivity.
    + change (WildCmp_fuel (S fuel) (String "*" (String a w2)) (String d s))
        with (match WildCmp_fuel fuel (String a w2) (String d s) with
              | None => None
              | Some r => if r =? 0 then Some 0
                          else WildCmp_fuel (S fuel) (String "*" (String a w2)) s
              end).
      rewrite (IH _ _ Hw1), IHs. cbn [star_scan].
      destruct (WildCmp (String a w2) (String d s) =? 0); reflexivity.
  - destruct (Ascii.eqb_spec c "?") as [->|Hq].
    + destruct s as [|d s1]; [reflexivity|].
      rewrite WildCmp_any_eq.
      change (WildCmp_fuel (S fuel) (String "?" w1) (String d s1))
        with (WildCmp_fuel fuel w1 s1).
      now apply IH.
    + rewrite WildCmp_lit_eq by assumption.
      cbn [WildCmp_fuel]. apply Ascii.eqb_neq in Hs, Hq. rewrite Hs, Hq.
      destruct s as [|d s1]; [reflexivity|].
      destruct (Ascii.eqb c d); [now apply IH|reflexivity].
Qed.

(** C9: [WildCmp] terminates on every pair of strings.  Charging one unit
    of fuel per loop iteration and per recursive call, a budget one above
    the length of the pattern is always enough, whatever the subject:
    each recursive call made for [*] is on a strictly shorter pattern.
    The result is the one the total function [WildCmp] computes. *)
Theorem WildCmp_terminates (w s : string) (extra : nat) :
  WildCmp_fuel (S (strlen w) + extra) w s = Some (WildCmp w s).
Proof.
  apply WildCmp_fuel_enough. lia.
Qed.


(** ** Running the phases of DoCopy *)

Section EngineFacts.

Context {W : Type}.
Variable os : HostOps W.
Variable opt : Options.
Variable junk : stat.

Lemma bind_run {A B : Type} (m : M W A) (k : A -> M W B) (s : state W) :
  bind m k s = match m s with
               | None => None
               | Some (a, s') => k a s'
               end.
Proof. reflexivity. Qed.

Lemma S_ISDIR_mode_neq (m1 m2 : Z) :
  S_ISDIR m1 = false -> S_ISDIR m2 = true -> (m1 =? m2) = false.
Proof.
  intros H1 H2. apply Z.eqb_neq. intros ->. congruence.
Qed.

Lemma truthy_true (x : Z) : x <> 0 -> truthy x = true.
Proof.
  intros H. unfold truthy. apply negb_true_iff. now apply Z.eqb_neq.
Qed.

Lemma stat_both_valid (spath dp : string) (s : state W) (st1 st2 : stat) :
  os_lstat os SrcHost spath (world s) = Some st1 ->
  os_lstat os DstHost dp (world s) = Some st2 ->
  stat_both os junk spath (Some dp) s =
  Some (Some (st1, st2, true),
        add_event (EvLstat DstHost dp (Some st2))
          (add_event (EvLstat SrcHost spath (Some st1)) s)).
Proof.
  intros H1 H2. unfold stat_both. rewrite bind_run.
  unfold hc_lstat at 1. rewrite H1. rewrite bind_run.
  unfold hc_lstat. cbn [world add_event]. rewrite H2. reflexivity.
Qed.


Lemma stat_both_null (spath : string) (s : state W) :
  stat_both os junk spath None s =
  Some (match os_lstat os SrcHost spath (world s) with
        | Some st1 => Some (st1, st2_initial junk, false)
        | None => None
        end,
        add_event (EvLstat SrcHost spath (os_lstat os SrcHost spath (world s)))
                  s).
Proof.
  unfold stat_both. rewrite bind_run. unfold hc_lstat.
  destruct (os_lstat os SrcHost spath (world s)); reflexivity.
Qed.

(** The hardlink phase when the file is not a later member of a group:
    a multiply-linked regular file is entered in the table, anything
    else passes through. *)
Lemma hardlink_probe_first (spath dp : string) (st1 st2 : stat)
    (st2Valid : bool) (r : Z) (s : state W) :
  (S_ISREG (st_mode st1) && (1 <? st_nlink st1) = true ->
   hltlookup_ino (st_ino st1) (hltable s) = None) ->
  hardlink_probe os opt spath (Some dp) st1 st2 st2Valid r s =
  if S_ISREG (st_mode st1) && (1 <? st_nlink st1)
  then Some (Continue (r, Some (st_ino st1)),
             upd_hltable (hltadd_ino (st_ino st1) dp) s)
  else Some (Continue (r, None), s).
Proof.
  intros H. unfold hardlink_probe.
  destruct (S_ISREG (st_mode st1) && (1 <? st_nlink st1)); [|reflexivity].
  rewrite bind_run. cbn [get_hltable]. rewrite (H eq_refl). reflexivity.
Qed.

Lemma nochange_check_mode_differs (spath : string) (dpath : option string)
    (st1 st2 : stat) (st2Valid : bool) (hln : option Z) (size : Z)
    (s : state W) :
  (st_mode st1 =? st_mode st2) = false ->
  nochange_check os opt spath dpath st1 st2 st2Valid hln size s =
  Some (Continue (0, 0), s).
Proof.
  intros H. unfold nochange_check. rewrite H, andb_false_r. reflexivity.
Qed.

Lemma conflict_check_refuses (fuel : nat) (spath : string)
    (dpath : option string) (st1 st2 : stat) (ddevNo r : Z) (s : state W) :
  S_ISDIR (st_mode st1) = false ->
  S_ISDIR (st_mode st2) = true ->
  SafetyOpt opt <> 0 ->
  conflict_check os opt fuel spath dpath st1 st2 true ddevNo r s =
  Some (Return 0,
        add_event
          (EvLogErr "%-32s SAFETY - refusing to copy file over directory\n"
                    [AStr (path_of dpath spath)]) s).
Proof.
  intros H1 H2 H3. unfold conflict_check.
  rewrite H1, H2, (truthy_true _ H3). reflexivity.
Qed.

Lemma safety_refusal_DoCopy (fuel : nat) (spath dp : string)
    (sdevNo ddevNo : Z) (s : state W) (st1 st2 : stat) :
  os_lstat os SrcHost spath (world s) = Some st1 ->
  os_lstat os DstHost dp (world s) = Some st2 ->
  S_ISDIR (st_mode st1) = false ->
  S_ISDIR (st_mode st2) = true ->
  SafetyOpt opt <> 0 ->
  (S_ISREG (st_mode st1) && (1 <? st_nlink st1) = true ->
   hltlookup_ino (st_ino st1) (hltable s) = None) ->
  exists s',
    DoCopy os opt junk (S fuel) spath (Some dp) sdevNo ddevNo s = Some (0, s') /\
    world s' = world s /\
    counts s' = counts s /\
    events s' = (events s ++
      [EvLstat SrcHost spath (Some st1); EvLstat DstHost dp (Some st2);
       EvLogErr "%-32s SAFETY - refusing to copy file over directory\n"
                [AStr dp]])%list.
Proof.
  intros H1 H2 Hd1 Hd2 Hsafe Hhl.
  cbn [DoCopy]. rewrite bind_run, (stat_both_valid _ _ _ _ _ H1 H2).
  rewrite bind_run, hardlink_probe_first by exact Hhl.
  destruct (S_ISREG (st_mode st1) && (1 <? st_nlink st1));
    unfold DoCopy_tail;
    rewrite bind_run, nochange_check_mode_differs
      by (now apply S_ISDIR_mode_neq);
    rewrite bind_run, conflict_check_refuses by assumption;
    (eexists; split; [reflexivity|]);
    cbn [world counts events add_event upd_hltable path_of];
    rewrite <- !app_assoc; repeat split; reflexivity.
Qed.

End EngineFacts.

(** ** The SAFETY refusal *)

(** C1, as stated, fails: with the safety flag set, a regular file at the
    source and a directory at the destination, the run logs the refusal
    and exits with code 0, not 1. *)
Lemma safety_refusal_exit_code_counterexample :
  option_map fst
    (cpdup_main MemFS.ops MemFS.defaults MemFS.no_junk 120 5 "s" (Some "d")
                (MemFS.start Scenarios.file_over_dir [])) = Some 0 /\
  option_map fst
    (cpdup_main MemFS.ops MemFS.defaults MemFS.no_junk 120 5 "s" (Some "d")
                (MemFS.start Scenarios.file_over_dir [])) <> Some 1.
Proof.
  assert (E : option_map fst
    (cpdup_main MemFS.ops MemFS.defaults MemFS.no_junk 120 5 "s" (Some "d")
                (MemFS.start Scenarios.file_over_dir [])) = Some 0)
    by (vm_compute; reflexivity).
  rewrite E. split; [reflexivity|discriminate].
Qed.

(** C1, amended: when the destination is a directory, the source exists
    and is not a directory, the safety flag is set and the source is not
    a later member of a hardlink group already in the table, [DoCopy]
    leaves both hosts and the counters as they are, logs the refusal and
    returns 0: the refusal is not part of the failure count, and a run
    made of such a call exits with code 0. *)
Theorem safety_refusal_returns_zero {W : Type} (os : HostOps W)
    (opt : Options) (junk : stat) (sizeof_stat : Z) (fuel : nat)
    (spath dp : string) (sdevNo ddevNo : Z) (s : state W) (st1 st2 : stat) :
  os_lstat os SrcHost spath (world s) = Some st1 ->
  os_lstat os DstHost dp (world s) = Some st2 ->
  S_ISDIR (st_mode st1) = false ->
  S_ISDIR (st_mode st2) = true ->
  SafetyOpt opt <> 0 ->
  (S_ISREG (st_mode st1) && (1 <? st_nlink st1) = true ->
   hltlookup_ino (st_ino st1) (hltable s) = None) ->
  (exists s',
     DoCopy os opt junk (S fuel) spath (Some dp) sdevNo ddevNo s
       = Some (0, s') /\
     world s' = world s /\
     counts s' = counts s /\
     events s' = (events s ++
       [EvLstat SrcHost spath (Some st1); EvLstat DstHost dp (Some st2);
        EvLogErr "%-32s SAFETY - refusing to copy file over directory\n"
                 [AStr dp]])%list) /\
  (exists s',
     cpdup_main os opt junk sizeof_stat (S fuel) spath (Some dp) s
       = Some (0, s')).
Proof.
  intros H1 H2 Hd1 Hd2 Hsafe Hhl. split.
  - now apply safety_refusal_DoCopy.
  - unfold cpdup_main. rewrite bind_run.
    destruct (safety_refusal_DoCopy os
                (with_DstBaseLen (String.length dp) opt) junk fuel spath dp
                dev_none dev_none s st1 st2 H1 H2 Hd1 Hd2 Hsafe Hhl)
      as (s1 & E & _).
    rewrite E. rewrite bind_run. cbn [flush].
    rewrite bind_run.
    destruct (truthy (SummaryOpt opt) && (0 =? 0)); eexists; reflexivity.
Qed.

Lemma safety_refusal_returns_zero_witness :
  (exists s',
     DoCopy MemFS.ops MemFS.defaults MemFS.no_junk 1 "s" (Some "d")
            dev_none dev_none (MemFS.start Scenarios.file_over_dir [])
       = Some (0, s') /\
     world s' = Scenarios.file_over_dir /\
     counts s' = mkCounters 0 0 0 0 0 0 /\
     events s' =
       [EvLstat SrcHost "s" (Some (MemFS.n_stat (MemFS.file 2 1 5 100 "hello")));
        EvLstat DstHost "d" (Some (MemFS.n_stat (MemFS.dir 7)));
        EvLogErr "%-32s SAFETY - refusing to copy file over directory\n"
                 [AStr "d"]]) /\
  (exists s',
     cpdup_main MemFS.ops MemFS.defaults MemFS.no_junk 120 1 "s" (Some "d")
                (MemFS.start Scenarios.file_over_dir [])
       = Some (0, s')).
Proof.
  apply (safety_refusal_returns_zero MemFS.ops MemFS.defaults MemFS.no_junk
           120 0 "s" "d" dev_none dev_none
           (MemFS.start Scenarios.file_over_dir [])
           (MemFS.n_stat (MemFS.file 2 1 5 100 "hello"))
           (MemFS.n_stat (MemFS.dir 7))).
  - reflexivity.
  - reflexivity.
  - reflexivity.
  - reflexivity.
  - discriminate.
  - discriminate.
Defined.

(** ** Digest-refresh mode: no destination path *)

Section NullDestination.

Context {W : Type}.
Variable os : HostOps W.
Variable opt : Options.
Variable junk : stat.

(** A measure of the source hierarchy: entering a directory decreases
    it, and updating the digest cache does not increase it. *)
Variable rank : W -> string -> nat.
Hypothesis rank_child :
  forall w p names name,
    os_opendir os SrcHost p w = Some names ->
    In name names -> is_dot name = false ->
    (rank w (child p name) < rank w p)%nat.
Hypothesis rank_md5 :
  forall w sp p, (rank (snd (os_md5_check os sp None w)) p <= rank w p)%nat.

Local Abbreviation refreshes := (refreshes rank).

Lemma refreshes_refl (s : state W) : refreshes s s.
Proof.
  split; [intros; lia|]. exists []. split; [now rewrite app_nil_r|constructor].
Qed.

Lemma refreshes_trans (s1 s2 s3 : state W) :
  refreshes s1 s2 -> refreshes s2 s3 -> refreshes s1 s3.
Proof.
  intros [Hr1 (e1 & E1 & F1)] [Hr2 (e2 & E2 & F2)]. split.
  - intros p. specialize (Hr1 p). specialize (Hr2 p). lia.
  - exists (e1 ++ e2)%list. split.
    + now rewrite E2, E1, app_assoc.
    + now apply Forall_app.
Qed.

Lemma refreshes_event (e : event) (s : state W) :
  dst_mutation e = false -> refreshes s (add_event e s).
Proof.
  intros H. split; [intros; cbn; lia|].
  exists [e]. split; [reflexivity|]. now constructor.
Qed.

Lemma refreshes_counts (f : Counters -> Counters) (s : state W) :
  refreshes s (upd_counts f s).
Proof.
  split; [intros; cbn; lia|]. exists []. split; [cbn; now rewrite app_nil_r|constructor].
Qed.

Local Ltac chain :=
  solve [ eauto 6 using refreshes_refl, refreshes_trans, refreshes_event ].

Lemma cpignore_lines_refreshes (bufs : list string) :
  forall lst s, exists lst' s',
    cpignore_lines lst bufs s = Some (lst', s') /\ refreshes s s'.
Proof.
  induction bufs as [|buf rest IH]; intros lst s.
  - exists lst, s. split; [reflexivity|apply refreshes_refl].
  - cbn [cpignore_lines]. rewrite bind_run.
    unfold cpignore_line. rewrite bind_run. cbn [count].
    assert (Hc := refreshes_counts (add_ReadBytes (int32 (zlen buf))) s).
    destruct (strip_newline buf) as [|c line'].
    + cbn [ret]. destruct (IH lst (upd_counts (add_ReadBytes (int32 (zlen buf))) s))
        as (l' & s' & E & R).
      exists l', s'. split; [exact E|]. chain.
    + destruct (Ascii.eqb c "#"); cbn [ret];
        match goal with
        | |- context [cpignore_lines ?l rest ?st] =>
            destruct (IH l st) as (l' & s' & E & R)
        end;
        exists l', s'; (split; [exact E|]);
        chain.
Qed.

Lemma load_ignores_refreshes (spath : string) (lst : IgnList) (s : state W) :
  exists lst' s',
    load_ignores os opt spath lst s = Some (lst', s') /\ refreshes s s'.
Proof.
  unfold load_ignores. rewrite bind_run.
  destruct (UseCpFile opt) as [cp|].
  - rewrite bind_run. unfold hc_fgets.
    match goal with
    | |- context [add_event ?e s] =>
        assert (He := refreshes_event e s eq_refl)
    end.
    match goal with
    | |- context [os_fgets os ?f (world s)] =>
        destruct (os_fgets os f (world s)) as [bufs|]
    end.
    + match goal with
      | |- context [cpignore_lines ?l bufs ?st] =>
          destruct (cpignore_lines_refreshes bufs l st) as (l' & s' & E & R)
      end.
      rewrite E. eexists _, s'. split; [reflexivity|].
      chain.
    + eexists _, _. split; [reflexivity|exact He].
  - eexists _, s. split; [reflexivity|apply refreshes_refl].
Qed.

Lemma md5_refresh_refreshes (spath : string) (st1 : stat) (s : state W) :
  exists s', md5_refresh os opt spath st1 s = Some (tt, s') /\ refreshes s s'.
Proof.
  unfold md5_refresh.
  destruct (truthy (UseMD5Opt opt) && S_ISREG (st_mode st1)).
  - rewrite bind_run. unfold md5_check.
    pose proof (rank_md5 (world s) spath) as Hrk.
    destruct (os_md5_check os spath None (world s)) as [mres w'] eqn:E.
    cbn [snd] in Hrk.
    set (s1 := mkstate w' (errno s) (hltable s) (counts s) (stdin s)
                       (events s ++ [EvMd5 spath None mres])).
    assert (R1 : refreshes s s1).
    { split; [exact Hrk|]. exists [EvMd5 spath None mres].
      split; [reflexivity|]. now constructor. }
    destruct (1 <? VerboseOpt opt).
    + destruct (mres <? 0); eexists; (split; [reflexivity|]);
        chain.
    + unfold when. destruct ((QuietOpt opt =? 0) && (mres <? 0)).
      * eexists; (split; [reflexivity|]);
          chain.
      * exists s1. split; [reflexivity|exact R1].
  - exists s. split; [reflexivity|apply refreshes_refl].
Qed.

Lemma src_loop_null (fuel : nat) (spath : string) (sdevNo ddevNo : Z) :
  (forall sp sd dd s,
      (rank (world s) sp < fuel)%nat ->
      exists s', DoCopy os opt junk fuel sp None sd dd s = Some (0, s') /\
                 refreshes s s') ->
  forall ents lst s,
    (forall name, In name ents -> is_dot name = false ->
                  (rank (world s) (child spath name) < fuel)%nat) ->
    exists lst' s',
      src_loop (DoCopy os opt junk fuel) spath None sdevNo ddevNo ents lst 0 s
        = Some ((lst', 0), s') /\
      refreshes s s'.
Proof.
  intros IH. induction ents as [|name rest IHe]; intros lst s Hrk.
  - exists lst, s. split; [reflexivity|apply refreshes_refl].
  - cbn [src_loop].
    assert (Hrest : forall n, In n rest -> is_dot n = false ->
                              (rank (world s) (child spath n) < fuel)%nat)
      by (intros n Hn; apply Hrk; now right).
    destruct (is_dot name) eqn:Edot; [now apply IHe|].
    destruct (AddList lst name 0) as [v lst1].
    destruct (v =? 1); [now apply IHe|].
    rewrite bind_run.
    destruct (IH (child spath name) sdevNo ddevNo s
                 (Hrk name (or_introl eq_refl) Edot)) as (s1 & E1 & R1).
    rewrite E1. change (int32 (0 + 0)) with 0.
    destruct (IHe lst1 s1) as (l' & s' & E & R).
    { intros n Hn Hd. destruct R1 as [Hle _].
      specialize (Hle (child spath n)). specialize (Hrest n Hn Hd). lia. }
    exists l', s'. split; [exact E|]. chain.
Qed.

Lemma DoCopy_null_refreshes (fuel : nat) :
  forall spath sdevNo ddevNo s,
    (rank (world s) spath < fuel)%nat ->
    exists s',
      DoCopy os opt junk fuel spath None sdevNo ddevNo s = Some (0, s') /\
      refreshes s s'.
Proof.
  induction fuel as [|fuel IH]; intros spath sdevNo ddevNo s Hrk; [lia|].
  cbn [DoCopy]. rewrite bind_run, stat_both_null.
  set (s0 := add_event _ s).
  assert (R0 : refreshes s s0) by (now apply refreshes_event).
  destruct (os_lstat os SrcHost spath (world s)) as [st1|].
  2:{ exists s0. split; [reflexivity|exact R0]. }
  rewrite bind_run. cbn [hardlink_probe ret].
  unfold DoCopy_tail. rewrite bind_run.
  unfold nochange_check. cbn [andb ret].
  rewrite bind_run. unfold conflict_check. cbn [andb ret].
  unfold dispatch.
  destruct (S_ISDIR (st_mode st1)).
  - unfold copy_directory. rewrite bind_run.
    change (0 <? 0) with false. cbn [when ret].
    rewrite bind_run. unfold hc_opendir.
    set (s1 := add_event _ s0).
    assert (R1 : refreshes s s1).
    { eapply refreshes_trans; [exact R0|]. now apply refreshes_event. }
    destruct (os_opendir os SrcHost spath (world s0)) as [ents|] eqn:Eo.
    2:{ exists s1. split; [reflexivity|exact R1]. }
    rewrite bind_run. cbn [dir_prepare ret].
    destruct ((0 <=? int32 sdevNo) && negb (st_dev st1 =? sdevNo)).
    + (* the source crosses a device: no loop *)
      destruct ((0 <=? int32 ddevNo) &&
                negb (st_dev (st2_initial junk) =? ddevNo));
        rewrite bind_run;
        destruct (load_ignores_refreshes spath InitList s1)
          as (l1 & s2 & E2 & R2);
        rewrite E2; rewrite bind_run; change (1 =? 0) with false; cbn [ret];
        (exists s2; split; [reflexivity|]);
        chain.
    + destruct ((0 <=? int32 ddevNo) &&
                negb (st_dev (st2_initial junk) =? ddevNo));
        rewrite bind_run;
        destruct (load_ignores_refreshes spath InitList s1)
          as (l1 & s2 & E2 & R2);
        rewrite E2; rewrite bind_run.
      * change (1 =? 0) with false. cbn [ret].
        exists s2. split; [reflexivity|].
        chain.
      * change (0 =? 0) with true. cbv iota.
        match goal with
        | |- context [src_loop ?rec spath None ?sd ?dd ents l1 0 s2] =>
            destruct (src_loop_null fuel spath sd dd IH ents l1 s2)
              as (l3 & s3 & E3 & R3)
        end.
        { intros name Hin Hd.
          assert (Hc : (rank (world s0) (child spath name)
                        < rank (world s0) spath)%nat)
            by (eapply rank_child; eassumption).
          assert (R02 : refreshes s0 s2).
          { eapply refreshes_trans; [|exact R2]. now apply refreshes_event. }
          destruct R02 as [Hle _]. specialize (Hle (child spath name)).
          destruct R0 as [Hle0 _]. specialize (Hle0 spath). lia. }
        rewrite E3. cbn [ret].
        exists s3. split; [reflexivity|].
        eapply refreshes_trans; [exact R1|].
        chain.
  - rewrite bind_run.
    destruct (md5_refresh_refreshes spath st1 s0) as (s1 & E1 & R1).
    rewrite E1. exists s1. split; [reflexivity|].
    chain.
Qed.

End NullDestination.

(** C10: with a null destination path [DoCopy] returns 0 (given fuel
    above the height of the source hierarchy) and nothing it does, in
    the call or in the calls it makes on the children, acts on the
    destination host: no remove, mkdir, rename, link, symlink, write,
    chown, chmod or chflags, nor any other call there. *)
Theorem DoCopy_null_destination_is_read_only {W : Type} (os : HostOps W)
    (opt : Options) (junk : stat) (rank : W -> string -> nat) :
  (forall w p names name,
      os_opendir os SrcHost p w = Some names ->
      In name names -> is_dot name = false ->
      (rank w (child p name) < rank w p)%nat) ->
  (forall w sp p,
      (rank (snd (os_md5_check os sp None w)) p <= rank w p)%nat) ->
  forall (fuel : nat) (spath : string) (sdevNo ddevNo : Z) (s : state W),
    (rank (world s) spath < fuel)%nat ->
    exists s' evs,
      DoCopy os opt junk fuel spath None sdevNo ddevNo s = Some (0, s') /\
      events s' = (events s ++ evs)%list /\
      Forall (fun e => dst_mutation e = false) evs.
Proof.
  intros Hc Hm fuel spath sdevNo ddevNo s Hrk.
  destruct (DoCopy_null_refreshes os opt junk rank Hc Hm fuel spath
              sdevNo ddevNo s Hrk) as (s' & E & _ & evs & Ev & Hq).
  exists s', evs. auto.
Qed.

Lemma str_length_app (a b : string) :
  String.length (a ++ b) = (String.length a + String.length b)%nat.
Proof.
  induction a as [|c a IH]; [reflexivity|].
  rewrite str_app_cons. cbn [String.length]. now rewrite IH.
Qed.

Lemma MemFS_lookup_longest (p : string) (fs : list (string * MemFS.node))
    (n : MemFS.node) :
  MemFS.lookup p fs = Some n -> (String.length p <= MemFS.longest fs)%nat.
Proof.
  induction fs as [|[k m] fs IH]; cbn [MemFS.lookup MemFS.longest];
    [discriminate|].
  destruct (String.eqb_spec k p) as [->|_]; intros H; [lia|].
  specialize (IH H). lia.
Qed.

Lemma MemFS_depth_child (w : MemFS.hosts) (p : string) (names : list string)
    (name : string) :
  os_opendir MemFS.ops SrcHost p w = Some names ->
  In name names -> is_dot name = false ->
  (MemFS.depth_left w (child p name) < MemFS.depth_left w p)%nat.
Proof.
  cbn [os_opendir MemFS.ops]. unfold MemFS.m_opendir.
  cbn [MemFS.get_fs]. intros H _ _.
  destruct (MemFS.lookup p (MemFS.src_fs w)) as [n|] eqn:E; [|discriminate].
  apply MemFS_lookup_longest in E.
  unfold MemFS.depth_left, child. rewrite !str_length_app.
  cbn [String.length]. lia.
Qed.

Lemma DoCopy_null_destination_witness :
  exists s' evs,
    DoCopy MemFS.ops Scenarios.refresh_options MemFS.no_junk 8 "s" None
           dev_none dev_none (MemFS.start Scenarios.refresh_tree [])
      = Some (0, s') /\
    events s' = ([] ++ evs)%list /\
    Forall (fun e => dst_mutation e = false) evs.
Proof.
  apply (DoCopy_null_destination_is_read_only MemFS.ops
           Scenarios.refresh_options MemFS.no_junk MemFS.depth_left
           MemFS_depth_child (fun w sp p => le_n _)
           8 "s" dev_none dev_none (MemFS.start Scenarios.refresh_tree [])).
  vm_compute. lia.
Defined.

(** ** The pruner *)

Section Pruner.

Context {W : Type}.
Variable os : HostOps W.
Variable opt : Options.

Lemma sys_run (c : syscall) (s : state W) :
  sys os c s =
  Some (fst (fst (os_sys os c (world s))),
        mkstate (snd (os_sys os c (world s)))
                (if fst (fst (os_sys os c (world s))) <? 0
                 then snd (fst (os_sys os c (world s))) else errno s)
                (hltable s) (counts s) (stdin s)
                (events s ++ [EvSys c (fst (fst (os_sys os c (world s))))])).
Proof.
  unfold sys. destruct (os_sys os c (world s)) as [[r e] w]. reflexivity.
Qed.

Lemma RemoveRecur_other_device (fuel : nat) (dpath : string) (devNo : Z)
    (s : state W) (st : stat) :
  os_lstat os DstHost dpath (world s) = Some st ->
  0 <= int32 devNo ->
  st_dev st <> devNo ->
  RemoveRecur os opt (S fuel) dpath devNo s =
  Some (tt, add_event (EvLstat DstHost dpath (Some st)) s).
Proof.
  intros H Hd Hne. cbn [RemoveRecur]. rewrite bind_run.
  unfold hc_lstat. rewrite H.
  destruct (int32 devNo <? 0) eqn:E; [apply Z.ltb_lt in E; lia|].
  apply Z.eqb_neq in Hne. rewrite Hne. reflexivity.
Qed.

Variable rank : W -> string -> nat.

Hypothesis rank_child :
  forall w p names name,
    os_opendir os DstHost p w = Some names ->
    In name names -> is_dot name = false ->
    (rank w (p ++ "/" ++ name) < rank w p)%nat.

Hypothesis rank_removal :
  forall c w q,
    removal_path c <> None ->
    (rank (snd (os_sys os c w)) q <= rank w q)%nat.

Lemma shrinks_refl (s : state W) : shrinks rank s s.
Proof. intros q. apply le_n. Qed.

Lemma shrinks_trans (s1 s2 s3 : state W) :
  shrinks rank s1 s2 -> shrinks rank s2 s3 -> shrinks rank s1 s3.
Proof. intros H1 H2 q. specialize (H1 q). specialize (H2 q). lia. Qed.

(** The last part of a removal: the confirmation, the call, the logs. *)
Local Ltac tail_run H :=
  repeat first
    [ rewrite bind_run in H
    | rewrite sys_run in H
    | progress unfold hc_rmdir, hc_remove, YesNo, when, count, get_errno,
        logstd, logerr, emit, ret in H
    | progress cbv zeta in H
    | match type of H with
      | context [if ?b then _ else _] => destruct b eqn:?
      end ].

Local Ltac tail_shape :=
  cbn [events add_event upd_counts world andb];
  rewrite <- ?app_assoc;
  first [ exists []; split; [symmetry; apply app_nil_r|]
        | eexists; split; [reflexivity|] ];
  split;
  [ first [ reflexivity
          | left; reflexivity
          | right; eexists _, _; split; reflexivity
          | eexists _, _; split; reflexivity ]
  | intros q; cbn [world];
    first [ apply le_n | apply rank_removal; discriminate ] ].

Lemma rmdir_tail (dpath : string) (s s' : state W) :
  (if truthy (AskConfirmation opt) && (NoRemoveOpt opt =? 0) then
     yes <- YesNo dpath ;;
     if yes : bool then
       (rc <- hc_rmdir os DstHost dpath ;;
        e <- get_errno ;;
        when (rc <? 0)
          (logerr "%-32s rmdir failed: %s\n" [AStr dpath; AErr e])) ;;
       count (add_RemovedItems 1)
     else ret tt
   else if truthy (NoRemoveOpt opt) then
     when (truthy (VerboseOpt opt))
       (logstd "%-32s not-removed\n" [AStr dpath])
   else
     rc <- hc_rmdir os DstHost dpath ;;
     if rc =? 0 then
       when (truthy (VerboseOpt opt))
         (logstd "%-32s rmdir-ok\n" [AStr dpath]) ;;
       count (add_RemovedItems 1)
     else
       e <- get_errno ;;
       logerr "%-32s rmdir failed: %s\n" [AStr dpath; AErr e]) s
  = Some (tt, s') ->
  exists tl,
    events s' = (events s ++ tl)%list /\
    removal_tail opt (sys_rmdir DstHost dpath) dpath tl /\
    shrinks rank s s'.
Proof.
  intros H. unfold removal_tail.
  tail_run H; injection H as <-; tail_shape.
Qed.

Lemma remove_tail (dpath : string) (s s' : state W) :
  (if truthy (AskConfirmation opt) && (NoRemoveOpt opt =? 0) then
     yes <- YesNo dpath ;;
     if yes : bool then
       (rc <- hc_remove os DstHost dpath ;;
        e <- get_errno ;;
        when (rc <? 0)
          (logerr "%-32s remove failed: %s\n" [AStr dpath; AErr e])) ;;
       count (add_RemovedItems 1)
     else ret tt
   else if truthy (NoRemoveOpt opt) then
     when (truthy (VerboseOpt opt))
       (logstd "%-32s not-removed\n" [AStr dpath])
   else
     rc <- hc_remove os DstHost dpath ;;
     if rc =? 0 then
       when (truthy (VerboseOpt opt))
         (logstd "%-32s remove-ok\n" [AStr dpath]) ;;
       count (add_RemovedItems 1)
     else
       e <- get_errno ;;
       logerr "%-32s remove failed: %s\n" [AStr dpath; AErr e]) s
  = Some (tt, s') ->
  exists tl,
    events s' = (events s ++ tl)%list /\
    removal_tail opt (sys_remove DstHost dpath) dpath tl /\
    shrinks rank s s'.
Proof.
  intros H. unfold removal_tail.
  tail_run H; injection H as <-; tail_shape.
Qed.

Lemma rmdir_tail_runs (dpath : string) (s : state W) :
  (if truthy (AskConfirmation opt) && (NoRemoveOpt opt =? 0) then
     yes <- YesNo dpath ;;
     if yes : bool then
       (rc <- hc_rmdir os DstHost dpath ;;
        e <- get_errno ;;
        when (rc <? 0)
          (logerr "%-32s rmdir failed: %s\n" [AStr dpath; AErr e])) ;;
       count (add_RemovedItems 1)
     else ret tt
   else if truthy (NoRemoveOpt opt) then
     when (truthy (VerboseOpt opt))
       (logstd "%-32s not-removed\n" [AStr dpath])
   else
     rc <- hc_rmdir os DstHost dpath ;;
     if rc =? 0 then
       when (truthy (VerboseOpt opt))
         (logstd "%-32s rmdir-ok\n" [AStr dpath]) ;;
       count (add_RemovedItems 1)
     else
       e <- get_errno ;;
       logerr "%-32s rmdir failed: %s\n" [AStr dpath; AErr e]) s
  <> None.
Proof.
  intros H. tail_run H; discriminate.
Qed.

Lemma remove_tail_runs (dpath : string) (s : state W) :
  (if truthy (AskConfirmation opt) && (NoRemoveOpt opt =? 0) then
     yes <- YesNo dpath ;;
     if yes : bool then
       (rc <- hc_remove os DstHost dpath ;;
        e <- get_errno ;;
        when (rc <? 0)
          (logerr "%-32s remove failed: %s\n" [AStr dpath; AErr e])) ;;
       count (add_RemovedItems 1)
     else ret tt
   else if truthy (NoRemoveOpt opt) then
     when (truthy (VerboseOpt opt))
       (logstd "%-32s not-removed\n" [AStr dpath])
   else
     rc <- hc_remove os DstHost dpath ;;
     if rc =? 0 then
       when (truthy (VerboseOpt opt))
         (logstd "%-32s remove-ok\n" [AStr dpath]) ;;
       count (add_RemovedItems 1)
     else
       e <- get_errno ;;
       logerr "%-32s remove failed: %s\n" [AStr dpath; AErr e]) s
  <> None.
Proof.
  intros H. tail_run H; discriminate.
Qed.

Local Abbreviation prunes_at fuel devNo p s :=
  (exists s' evs,
      RemoveRecur os opt fuel p devNo s = Some (tt, s') /\
      events s' = app (events s) evs /\
      pruned opt devNo p evs /\
      shrinks rank s s').

Lemma for_each_prunes (fuel : nat) (dpath : string) (devNo : Z) :
  (forall p s, (rank (world s) p < fuel)%nat -> prunes_at fuel devNo p s) ->
  forall ents s,
    (forall name, In name ents -> is_dot name = false ->
                  (rank (world s) (dpath ++ "/" ++ name) < fuel)%nat) ->
    exists s' evs,
      for_each (fun name => if is_dot name then ret tt
                            else RemoveRecur os opt fuel (dpath ++ "/" ++ name)
                                             devNo) ents s = Some (tt, s') /\
      events s' = (events s ++ evs)%list /\
      pruned_children opt devNo dpath ents evs /\
      shrinks rank s s'.
Proof.
  intros IH. induction ents as [|name rest IHe]; intros s Hrk.
  - exists s, []. split; [reflexivity|]. split; [now rewrite app_nil_r|].
    split; [constructor|apply shrinks_refl].
  - cbn [for_each]. rewrite bind_run.
    destruct (is_dot name) eqn:Edot.
    + cbn [ret].
      destruct (IHe s) as (s' & evs & E & Ev & P & Sh).
      { intros n Hn. apply Hrk. now right. }
      exists s', evs. split; [exact E|]. split; [exact Ev|].
      split; [now apply pruned_skip_dot|exact Sh].
    + destruct (IH (dpath ++ "/" ++ name) s) as (s1 & e1 & E1 & Ev1 & P1 & Sh1).
      { apply Hrk; [now left|exact Edot]. }
      rewrite E1.
      destruct (IHe s1) as (s' & e2 & E2 & Ev2 & P2 & Sh2).
      { intros n Hn Hd. specialize (Hrk n (or_intror Hn) Hd).
        specialize (Sh1 (dpath ++ "/" ++ n)). lia. }
      exists s', (e1 ++ e2)%list. split; [exact E2|].
      split; [now rewrite Ev2, Ev1, app_assoc|].
      split; [now apply pruned_child|].
      eapply shrinks_trans; eassumption.
Qed.

Lemma RemoveRecur_prunes (devNo : Z) :
  0 <= int32 devNo ->
  forall fuel dpath s,
    (rank (world s) dpath < fuel)%nat -> prunes_at fuel devNo dpath s.
Proof.
  intros Hd. induction fuel as [|fuel IH]; intros dpath s Hrk; [lia|].
  cbn [RemoveRecur]. rewrite bind_run. unfold hc_lstat.
  destruct (os_lstat os DstHost dpath (world s)) as [st|] eqn:El.
  2:{ eexists _, _. split; [reflexivity|]. split; [reflexivity|].
      split; [constructor|intros q; apply le_n]. }
  destruct (int32 devNo <? 0) eqn:E; [apply Z.ltb_lt in E; lia|].
  destruct (Z.eqb_spec (st_dev st) devNo) as [Edev|Ndev].
  2:{ eexists _, _. split; [reflexivity|]. split; [reflexivity|].
      split; [now apply pruned_other_device|intros q; apply le_n]. }
  set (s0 := add_event (EvLstat DstHost dpath (Some st)) s).
  destruct (S_ISDIR (st_mode st)) eqn:Edir.
  - rewrite bind_run. rewrite bind_run. unfold hc_opendir.
    set (dir := os_opendir os DstHost dpath (world s0)).
    set (s1 := add_event (EvOpendir DstHost dpath dir) s0).
    assert (Hin : exists s2 inner,
               match dir with
               | Some ents =>
                   for_each
                     (fun name =>
                        if is_dot name then ret tt
                        else RemoveRecur os opt fuel (dpath ++ "/" ++ name)
                                         devNo) ents
               | None => ret tt
               end s1 = Some (tt, s2) /\
               events s2 = (events s1 ++ inner)%list /\
               pruned_children opt devNo dpath
                 (match dir with Some ents => ents | None => [] end) inner /\
               shrinks rank s1 s2).
    { destruct dir as [ents|] eqn:Edr.
      - apply for_each_prunes; [exact IH|].
        intros name Hn Hdot.
        assert (Hc := rank_child (world s0) dpath ents name Edr Hn Hdot).
        change (world s1) with (world s). change (world s0) with (world s) in Hc.
        lia.
      - exists s1, []. split; [reflexivity|].
        split; [now rewrite app_nil_r|]. split; [constructor|].
        apply shrinks_refl. }
    destruct Hin as (s2 & inner & E2 & Ei & Pi & Sh2). rewrite E2.
    match goal with
    | |- exists s' evs, ?m s2 = _ /\ _ =>
        destruct (m s2) as [[[] s3]|] eqn:E3;
          [|exfalso; exact (rmdir_tail_runs dpath s2 E3)]
    end.
    destruct (rmdir_tail dpath s2 s3 E3) as (tl & Et & Pt & Sh3).
    exists s3, (EvLstat DstHost dpath (Some st)
                  :: EvOpendir DstHost dpath dir :: inner ++ tl)%list.
    split; [reflexivity|]. split.
    + rewrite Et, Ei. subst s1 s0. cbn [events add_event].
      rewrite <- !app_assoc. reflexivity.
    + split; [now apply pruned_dir|].
      intros q. specialize (Sh2 q). specialize (Sh3 q).
      change (world s1) with (world s) in Sh2. lia.
  - match goal with
    | |- exists s' evs, ?m s0 = _ /\ _ =>
        destruct (m s0) as [[[] s3]|] eqn:E3;
          [|exfalso; exact (remove_tail_runs dpath s0 E3)]
    end.
    destruct (remove_tail dpath s0 s3 E3) as (tl & Et & Pt & Sh3).
    exists s3, (EvLstat DstHost dpath (Some st) :: tl). split; [reflexivity|].
    split.
    + rewrite Et. subst s0. cbn [events add_event].
      rewrite <- !app_assoc. reflexivity.
    + split; [now apply pruned_file|].
      intros q. specialize (Sh3 q). change (world s0) with (world s) in Sh3.
      exact Sh3.
Qed.

End Pruner.

Lemma removal_tail_sys (opt : Options) (c : syscall) (path : string)
    (tl : list event) (c' : syscall) (r : Z) :
  removal_tail opt c path tl -> In (EvSys c' r) tl -> c' = c.
Proof.
  assert (Hlog : forall lines, forallb is_log lines = true ->
                               In (EvSys c' r) lines -> False).
  { intros lines Hl Hin. rewrite forallb_forall in Hl.
    specialize (Hl _ Hin). discriminate. }
  unfold removal_tail.
  destruct (truthy (AskConfirmation opt) && (NoRemoveOpt opt =? 0)).
  - intros [->|(rc & lines & -> & Hl)] Hin.
    + destruct Hin as [Hin|[]]. discriminate.
    + destruct Hin as [Hin|[Hin|Hin]]; [discriminate| |].
      * now injection Hin as <- _.
      * destruct (Hlog _ Hl Hin).
  - destruct (truthy (NoRemoveOpt opt)).
    + intros Hl Hin. destruct (Hlog _ Hl Hin).
    + intros (rc & lines & -> & Hl) [Hin|Hin].
      * now injection Hin as <- _.
      * destruct (Hlog _ Hl Hin).
Qed.

Lemma pruned_removals_on_device (opt : Options) (devNo : Z) (p : string)
    (evs : list event) :
  pruned opt devNo p evs -> removals_on_device devNo evs.
Proof.
  intros H.
  induction H using pruned_mind
    with (P0 := fun _ _ evs => removals_on_device devNo evs);
    unfold removals_on_device in *; intros c r Hin.
  - destruct Hin as [Hin|[]]. discriminate.
  - destruct Hin as [Hin|[]]. discriminate.
  - destruct Hin as [Hin|Hin]; [discriminate|].
    match goal with
    | Ht : removal_tail _ _ _ _ |- _ =>
        apply (removal_tail_sys _ _ _ _ _ _ Ht) in Hin
    end.
    subst c. exists p, st. split; [now left|]. split; [now left|assumption].
  - destruct Hin as [Hin|[Hin|Hin]]; [discriminate..|].
    apply in_app_or in Hin. destruct Hin as [Hin|Hin].
    + match goal with
      | IH : forall c r, In _ inner -> _ |- _ =>
          destruct (IH _ _ Hin) as (q & st' & Hc & Hl & Hdv)
      end.
      exists q, st'. split; [exact Hc|]. split; [|exact Hdv].
      right. right. apply in_or_app. now left.
    + match goal with
      | Ht : removal_tail _ _ _ _ |- _ =>
          apply (removal_tail_sys _ _ _ _ _ _ Ht) in Hin
      end.
      subst c. exists p, st. split; [now right|]. split; [now left|assumption].
  - destruct Hin.
  - match goal with
    | IH : forall c r, In _ _ -> _ |- _ => exact (IH _ _ Hin)
    end.
  - apply in_app_or in Hin. destruct Hin as [Hin|Hin].
    + match goal with
      | IH : forall c r, In _ evs1 -> _ |- _ =>
          destruct (IH _ _ Hin) as (q & st' & Hc & Hl & Hdv)
      end.
      exists q, st'. split; [exact Hc|]. split; [|exact Hdv].
      apply in_or_app. now left.
    + match goal with
      | IH : forall c r, In _ evs2 -> _ |- _ =>
          destruct (IH _ _ Hin) as (q & st' & Hc & Hl & Hdv)
      end.
      exists q, st'. split; [exact Hc|]. split; [|exact Hdv].
      apply in_or_app. now right.
Qed.

(** C8: when [lstat] reports a device other than the (non-negative)
    device passed in, [RemoveRecur] only looks at the path and removes
    nothing at or below it.  On a destination hierarchy of finite height
    (measured by [rank], which the removal calls do not increase) a call
    with fuel above the height of the path returns, and what it has done
    is a pruning bounded by that device: a directory on the device has
    its contents pruned and then its one [rmdir] call, a file on the
    device its one [remove] call (in interactive mode after a yes to the
    question for that path, and with the no-remove option not at all),
    and every removal call follows a look at the same path that found it
    on that device. *)
Theorem RemoveRecur_stays_on_device {W : Type} (os : HostOps W)
    (opt : Options) (rank : W -> string -> nat) :
  (forall w p names name,
      os_opendir os DstHost p w = Some names ->
      In name names -> is_dot name = false ->
      (rank w (p ++ "/" ++ name) < rank w p)%nat) ->
  (forall c w q,
      removal_path c <> None ->
      (rank (snd (os_sys os c w)) q <= rank w q)%nat) ->
  forall (fuel : nat) (dpath : string) (devNo : Z) (s : state W),
    0 <= int32 devNo ->
    (forall st,
        os_lstat os DstHost dpath (world s) = Some st ->
        st_dev st <> devNo ->
        RemoveRecur os opt (S fuel) dpath devNo s =
        Some (tt, add_event (EvLstat DstHost dpath (Some st)) s)) /\
    ((rank (world s) dpath < fuel)%nat ->
     exists s' evs,
       RemoveRecur os opt fuel dpath devNo s = Some (tt, s') /\
       events s' = (events s ++ evs)%list /\
       pruned opt devNo dpath evs /\
       removals_on_device devNo evs).
Proof.
  intros Hc Hr fuel dpath devNo s Hd. split.
  - intros st H Hne. now apply RemoveRecur_other_device.
  - intros Hrk.
    destruct (RemoveRecur_prunes os opt rank Hc Hr devNo Hd fuel dpath s Hrk)
      as (s' & evs & E & Ev & P & _).
    exists s', evs. split; [exact E|]. split; [exact Ev|]. split; [exact P|].
    eapply pruned_removals_on_device; eassumption.
Qed.

Lemma MemFS_longest_erase (p : string) (fs : list (string * MemFS.node)) :
  (MemFS.longest (MemFS.erase p fs) <= MemFS.longest fs)%nat.
Proof.
  induction fs as [|[k n] fs IH]; [apply le_n|].
  cbn [MemFS.erase MemFS.longest].
  destruct (String.eqb k p); cbn [MemFS.longest]; lia.
Qed.

Lemma MemFS_dst_depth_child (w : MemFS.hosts) (p : string)
    (names : list string) (name : string) :
  os_opendir MemFS.ops DstHost p w = Some names ->
  In name names -> is_dot name = false ->
  (MemFS.dst_depth_left w (p ++ "/" ++ name) < MemFS.dst_depth_left w p)%nat.
Proof.
  cbn [os_opendir MemFS.ops]. unfold MemFS.m_opendir.
  cbn [MemFS.get_fs]. intros H _ _.
  destruct (MemFS.lookup p (MemFS.dst_fs w)) as [n|] eqn:E; [|discriminate].
  apply MemFS_lookup_longest in E.
  unfold MemFS.dst_depth_left. rewrite !str_length_app.
  cbn [String.length]. lia.
Qed.

Lemma MemFS_removal_shrinks (c : syscall) (w : MemFS.hosts) (q : string) :
  removal_path c <> None ->
  (MemFS.dst_depth_left (snd (os_sys MemFS.ops c w)) q
   <= MemFS.dst_depth_left w q)%nat.
Proof.
  intros Hc. cbn [os_sys MemFS.ops]. unfold MemFS.m_sys.
  destruct (MemFS.fault_of _ _ _); [apply le_n|].
  assert (Hu : forall p,
             (MemFS.dst_depth_left (snd (MemFS.unlink_entry DstHost p w)) q
              <= MemFS.dst_depth_left w q)%nat).
  { intros p. unfold MemFS.unlink_entry, MemFS.ok, MemFS.dst_depth_left.
    cbn [snd MemFS.set_fs MemFS.get_fs MemFS.dst_fs].
    pose proof (MemFS_longest_erase p (MemFS.dst_fs w)). lia. }
  assert (Hd : forall p,
             (MemFS.dst_depth_left (snd (MemFS.remove_dir DstHost p w)) q
              <= MemFS.dst_depth_left w q)%nat).
  { intros p. unfold MemFS.remove_dir.
    destruct (MemFS.is_empty _ _); [apply Hu|apply le_n]. }
  destruct c as [h p|h p| | | | | | | | | | | | | |]; try (now destruct Hc);
    destruct h; try (now destruct Hc); cbn [MemFS.exec MemFS.get_fs];
    destruct (MemFS.lookup p (MemFS.dst_fs w)) as [n|]; try apply le_n;
    destruct (MemFS.is_dir n); auto; apply le_n.
Qed.

Lemma RemoveRecur_stays_on_device_witness :
  RemoveRecur MemFS.ops Scenarios.batch_options 1 "d/x/m" 1
              (MemFS.start Scenarios.with_mount []) =
  Some (tt, add_event
              (EvLstat DstHost "d/x/m"
                 (Some (MemFS.n_stat (MemFS.on_dev 2 (MemFS.dir 4)))))
              (MemFS.start Scenarios.with_mount [])) /\
  exists s' evs,
    RemoveRecur MemFS.ops Scenarios.batch_options 8 "d/x" 1
                (MemFS.start Scenarios.with_mount []) = Some (tt, s') /\
    events s' = ([] ++ evs)%list /\
    pruned Scenarios.batch_options 1 "d/x" evs /\
    removals_on_device 1 evs.
Proof.
  split.
  - apply (RemoveRecur_stays_on_device MemFS.ops Scenarios.batch_options
             MemFS.dst_depth_left MemFS_dst_depth_child MemFS_removal_shrinks
             0 "d/x/m" 1 (MemFS.start Scenarios.with_mount [])).
    + vm_compute. discriminate.
    + reflexivity.
    + vm_compute. discriminate.
  - apply (RemoveRecur_stays_on_device MemFS.ops Scenarios.batch_options
             MemFS.dst_depth_left MemFS_dst_depth_child MemFS_removal_shrinks
             8 "d/x" 1 (MemFS.start Scenarios.with_mount [])).
    + vm_compute. discriminate.
    + vm_compute. lia.
Defined.

(** The record of that pruning: the file is removed, the mount point is
    only looked at, and the directory that still holds it is not
    removed. *)
Example pruning_around_a_mount_point :
  option_map (fun r => events (snd r))
    (RemoveRecur MemFS.ops Scenarios.batch_options 8 "d/x" 1
                 (MemFS.start Scenarios.with_mount [])) =
  Some [EvLstat DstHost "d/x" (Some (MemFS.n_stat (MemFS.dir 2)));
        EvOpendir DstHost "d/x" (Some ["f"; "m"]);
        EvLstat DstHost "d/x/f"
          (Some (MemFS.n_stat (MemFS.file 3 1 1 0 "f")));
        EvSys (sys_remove DstHost "d/x/f") 0;
        EvLstat DstHost "d/x/m"
          (Some (MemFS.n_stat (MemFS.on_dev 2 (MemFS.dir 4))));
        EvSys (sys_rmdir DstHost "d/x") (-1);
        EvLogErr "%-32s rmdir failed: %s\n"
                 [AStr "d/x"; AErr MemFS.ENOTEMPTY]].
Proof. vm_compute. reflexivity. Qed.

(** ** The ignore list and the two directory loops *)

Section DirectoryLoops.

Context {W : Type}.

Lemma src_loop_picked (rec : string -> option string -> Z -> Z -> M W Z)
    (spath : string) (dpath : option string) (sdevNo ddevNo : Z)
    (ents : list string) :
  forall lst r s,
    src_loop rec spath dpath sdevNo ddevNo ents lst r s =
    (r' <- copy_each rec spath dpath sdevNo ddevNo
             (picked 0 (fun v => negb (v =? 1)) ents lst) r ;;
     ret (tag_all 0 ents lst, r')) s.
Proof.
  induction ents as [|name rest IH]; intros lst r s; [reflexivity|].
  cbn [src_loop picked tag_all].
  destruct (is_dot name); [apply IH|].
  destruct (AddList lst name 0) as [v lst1]. cbn [fst snd].
  destruct (v =? 1); cbn [negb]; [apply IH|].
  cbn [copy_each]. rewrite !bind_run.
  destruct (rec _ _ sdevNo ddevNo s) as [[x s1]|]; [|reflexivity].
  rewrite IH. reflexivity.
Qed.

Lemma dst_loop_picked (prune : string -> Z -> M W unit) (dp : string)
    (ddevNo : Z) (ents : list string) :
  forall lst s,
    dst_loop prune dp ddevNo ents lst s =
    (for_each (fun name => prune (child dp name) ddevNo)
              (picked 3 (fun v => v =? 3) ents lst) ;;
     ret (tag_all 3 ents lst)) s.
Proof.
  induction ents as [|name rest IH]; intros lst s; [reflexivity|].
  cbn [dst_loop picked tag_all].
  destruct (is_dot name); [apply IH|].
  destruct (AddList lst name 3) as [v lst1]. cbn [fst snd].
  destruct (v =? 3).
  - cbn [for_each]. rewrite !bind_run.
    destruct (prune (child dp name) ddevNo s) as [[[] s1]|]; [|reflexivity].
    rewrite IH. reflexivity.
  - rewrite bind_run. cbn [ret]. apply IH.
Qed.

(** *** AddList as a search followed by an insertion *)

Lemma AddList_find_tag (lst : IgnList) (name : string) (n : Z) :
  AddList lst name n =
  match find_tag lst name n with
  | Some v => (v, lst)
  | None =>
      (n, <[shash name := mkNode name n :: li_Hash lst (shash name)]> lst)
  end.
Proof.
  unfold AddList, find_tag.
  destruct (List.find _ (li_Hash lst 0)); [reflexivity|].
  destruct (List.find _ (li_Hash lst (shash name))); reflexivity.
Qed.

Lemma li_Hash_insert (lst : IgnList) (k j : Z) (l : list Node) :
  li_Hash (<[k := l]> lst) j = if decide (k = j) then l else li_Hash lst j.
Proof.
  unfold li_Hash. rewrite lookup_insert. destruct (decide (k = j)); reflexivity.
Qed.

Lemma find_tag_any_tag (lst : IgnList) (name : string) (n m : Z) :
  n <> 1 -> m <> 1 -> find_tag lst name n = find_tag lst name m.
Proof.
  intros Hn Hm. unfold find_tag.
  apply Z.eqb_neq in Hn, Hm. rewrite Hn, Hm. reflexivity.
Qed.

Lemma find_cons_false {A : Type} (f : A -> bool) (x : A) (l : list A) :
  f x = false -> List.find f (x :: l) = List.find f l.
Proof. intros H. cbn [List.find]. now rewrite H. Qed.

Lemma find_tag_insert_other (lst : IgnList) (name other : string) (v : Z) :
  other <> name -> v <> 1 ->
  find_tag (<[shash other := mkNode other v :: li_Hash lst (shash other)]> lst)
           name 3 =
  find_tag lst name 3.
Proof.
  intros Hne Hv. unfold find_tag. rewrite !li_Hash_insert.
  assert (E : String.eqb name other = false)
    by (apply String.eqb_neq; congruence).
  apply Z.eqb_neq in Hv.
  assert (P1 : (fun node =>
                  String.eqb name (no_Name node) ||
                  (negb (3 =? 1) && (no_Value node =? 1) &&
                   (WildCmp (no_Name node) name =? 0)))
                 (mkNode other v) = false).
  { cbn [no_Name no_Value]. now rewrite E, Hv, andb_false_r. }
  assert (P2 : (fun node => String.eqb name (no_Name node))
                 (mkNode other v) = false) by exact E.
  destruct (decide (shash other = 0)) as [E0|N0].
  - rewrite E0 at 1. rewrite (find_cons_false _ _ _ P1).
    destruct (List.find _ (li_Hash lst 0)); [reflexivity|].
    destruct (decide (shash other = shash name)) as [E1|N1]; [|reflexivity].
    rewrite E1 at 1. now rewrite (find_cons_false _ _ _ P2).
  - destruct (List.find _ (li_Hash lst 0)); [reflexivity|].
    destruct (decide (shash other = shash name)) as [E1|N1]; [|reflexivity].
    rewrite E1 at 1. now rewrite (find_cons_false _ _ _ P2).
Qed.

Lemma find_tag_insert_same (lst : IgnList) (name : string) (v : Z) :
  find_tag lst name 3 = None ->
  find_tag (<[shash name := mkNode name v :: li_Hash lst (shash name)]> lst)
           name 3 = Some v.
Proof.
  unfold find_tag. rewrite !li_Hash_insert. intros H.
  destruct (List.find _ (li_Hash lst 0)) eqn:E0; [discriminate|].
  destruct (decide (shash name = shash name)) as [_|N]; [|congruence].
  destruct (decide (shash name = 0)) as [Z0|N0].
  - cbn [List.find no_Name no_Value]. rewrite String.eqb_refl. reflexivity.
  - rewrite E0. cbn [List.find no_Name no_Value].
    rewrite String.eqb_refl. reflexivity.
Qed.

Lemma known_AddList (lst : IgnList) (name other : string) (n : Z) :
  n <> 1 -> known lst name -> known (snd (AddList lst other n)) name.
Proof.
  intros Hn (v & Hv & Hv3). rewrite AddList_find_tag.
  destruct (find_tag lst other n) as [u|] eqn:Eo; cbn [snd].
  - now exists v.
  - destruct (String.eqb_spec other name) as [->|Hne].
    + rewrite (find_tag_any_tag lst name n 3 Hn) in Eo by discriminate.
      congruence.
    + exists v. split; [|exact Hv3].
      now rewrite find_tag_insert_other.
Qed.

Lemma find_tag_In (lst : IgnList) (name : string) (n v : Z) :
  find_tag lst name n = Some v ->
  exists hv node, In node (li_Hash lst hv) /\ no_Value node = v.
Proof.
  unfold find_tag.
  destruct (List.find _ (li_Hash lst 0)) as [node|] eqn:E0.
  - intros [= <-]. apply List.find_some in E0. exists 0, node. tauto.
  - destruct (List.find _ (li_Hash lst (shash name))) as [node|] eqn:E1;
      [|discriminate].
    intros [= <-]. apply List.find_some in E1. exists (shash name), node. tauto.
Qed.

Lemma no_tag3_AddList (lst : IgnList) (name : string) (n : Z) :
  n <> 3 -> no_tag3 lst -> no_tag3 (snd (AddList lst name n)).
Proof.
  intros Hn H. rewrite AddList_find_tag.
  destruct (find_tag lst name n); cbn [snd]; [exact H|].
  intros hv node. rewrite li_Hash_insert.
  destruct (decide (shash name = hv)) as [<-|_]; [|apply H].
  intros [<-|Hin]; [exact Hn|]. now apply (H (shash name)).
Qed.

Lemma known_after_sighting (lst : IgnList) (name : string) :
  no_tag3 lst -> known (snd (AddList lst name 0)) name.
Proof.
  intros H. rewrite AddList_find_tag.
  destruct (find_tag lst name 0) as [v|] eqn:E; cbn [snd].
  - rewrite (find_tag_any_tag lst name 0 3) in E by discriminate.
    exists v. split; [exact E|].
    destruct (find_tag_In _ _ _ _ E) as (hv & node & Hin & <-).
    now apply (H hv).
  - rewrite (find_tag_any_tag lst name 0 3) in E by discriminate.
    exists 0. split; [now apply find_tag_insert_same|discriminate].
Qed.

Lemma tag_all_known_stays (n : Z) (name : string) (ents : list string) :
  n <> 1 ->
  forall lst, known lst name -> known (tag_all n ents lst) name.
Proof.
  intros Hn. induction ents as [|e rest IH]; intros lst H; [exact H|].
  cbn [tag_all]. destruct (is_dot e); [now apply IH|].
  apply IH. now apply known_AddList.
Qed.

Lemma tag_all_no_tag3 (ents : list string) :
  forall lst, no_tag3 lst -> no_tag3 (tag_all 0 ents lst).
Proof.
  induction ents as [|e rest IH]; intros lst H; [exact H|].
  cbn [tag_all]. destruct (is_dot e); [now apply IH|].
  apply IH. now apply no_tag3_AddList.
Qed.

Lemma tag_all_known (name : string) (ents : list string) :
  forall lst,
    no_tag3 lst -> In name ents -> is_dot name = false ->
    known (tag_all 0 ents lst) name.
Proof.
  induction ents as [|e rest IH]; intros lst H Hin Hdot; [destruct Hin|].
  cbn [tag_all]. destruct Hin as [->|Hin].
  - rewrite Hdot. apply tag_all_known_stays; [discriminate|].
    now apply known_after_sighting.
  - destruct (is_dot e); [now apply IH|].
    apply IH; auto. now apply no_tag3_AddList.
Qed.

Lemma known_not_picked (name : string) (ents : list string) :
  forall lst, known lst name -> ~ In name (picked 3 (fun v => v =? 3) ents lst).
Proof.
  induction ents as [|e rest IH]; intros lst H; [intros []|].
  cbn [picked]. destruct (is_dot e); [now apply IH|].
  assert (Hk : known (snd (AddList lst e 3)) name)
    by (apply known_AddList; [discriminate|exact H]).
  destruct (fst (AddList lst e 3) =? 3) eqn:E; [|now apply IH].
  intros [->|Hin]; [|now apply (IH _ Hk)].
  destruct H as (v & Hv & Hv3).
  rewrite AddList_find_tag, Hv in E. cbn [fst] in E.
  apply Z.eqb_eq in E. contradiction.
Qed.

Lemma InitList_no_tag3 : no_tag3 InitList.
Proof. intros hv node []. Qed.

Lemma cpignore_lines_no_tag3 (bufs : list string) :
  forall (lst lst' : IgnList) (s s' : state W),
    cpignore_lines lst bufs s = Some (lst', s') ->
    no_tag3 lst -> no_tag3 lst'.
Proof.
  induction bufs as [|buf rest IH]; intros lst lst' s s' H Hn.
  - injection H as <- _. exact Hn.
  - cbn [cpignore_lines] in H. rewrite bind_run in H.
    unfold cpignore_line in H. rewrite bind_run in H. cbn [count] in H.
    destruct (strip_newline buf) as [|c line'].
    + cbn [ret] in H. eapply IH; eassumption.
    + destruct (Ascii.eqb c "#"); cbn [ret] in H.
      * eapply IH; eassumption.
      * eapply IH; [eassumption|]. apply no_tag3_AddList; [discriminate|exact Hn].
Qed.

Lemma load_ignores_no_tag3 (os : HostOps W) (opt : Options) (spath : string)
    (lst lst' : IgnList) (s s' : state W) :
  load_ignores os opt spath lst s = Some (lst', s') ->
  no_tag3 lst -> no_tag3 lst'.
Proof.
  unfold load_ignores. rewrite bind_run. intros H Hn.
  assert (H1 : exists l1 s1,
             (match UseCpFile opt with
              | Some cp =>
                  let fpath := match cp with
                               | String "/" _ => cp
                               | _ => spath ++ "/" ++ cp
                               end in
                  let lst0 := snd (AddList lst (after_last_slash fpath) 1) in
                  fi <- hc_fgets os fpath ;;
                  match fi with
                  | Some bufs => cpignore_lines lst0 bufs
                  | None => ret lst0
                  end
              | None => ret lst
              end) s = Some (l1, s1) /\ no_tag3 l1 /\
             lst' = (if truthy (UseFSMIDOpt opt)
                     then snd (AddList
                                 (if truthy (UseMD5Opt opt)
                                  then snd (AddList l1 (MD5CacheFile opt) 1)
                                  else l1) (FSMIDCacheFile opt) 1)
                     else if truthy (UseMD5Opt opt)
                          then snd (AddList l1 (MD5CacheFile opt) 1)
                          else l1)).
  { destruct (UseCpFile opt) as [cp|].
    - cbv zeta in H |- *. rewrite bind_run in H |- *. unfold hc_fgets in H |- *.
      match type of H with
      | context [os_fgets os ?f (world s)] =>
          destruct (os_fgets os f (world s)) as [bufs|]
      end.
      + match type of H with
        | context [cpignore_lines ?l bufs ?st] =>
            destruct (cpignore_lines l bufs st) as [[l1 s1]|] eqn:E;
              [|discriminate]
        end.
        exists l1, s1. split; [reflexivity|]. split.
        * eapply cpignore_lines_no_tag3; [exact E|].
          apply no_tag3_AddList; [discriminate|exact Hn].
        * cbn [ret] in H. now injection H as <- _.
      + cbn [ret] in H |- *. eexists _, _. split; [reflexivity|]. split.
        * apply no_tag3_AddList; [discriminate|exact Hn].
        * now injection H as <- _.
    - cbn [ret] in H |- *. exists lst, s. split; [reflexivity|].
      split; [exact Hn|]. now injection H as <- _. }
  destruct H1 as (l1 & s1 & _ & Hn1 & ->).
  destruct (truthy (UseFSMIDOpt opt)), (truthy (UseMD5Opt opt));
    repeat (apply no_tag3_AddList; [discriminate|]); exact Hn1.
Qed.

End DirectoryLoops.


(** *** The ignore list as a set of patterns and a set of tagged names *)









(** A name that gets a node of its own. *)
Local Abbreviation tagging T name k :=
  (fun n : string => if String.eqb n name then Some k else T n).



Section Loading.

Context {W : Type}.
Variable os : HostOps W.
Variable opt : Options.

Local Abbreviation none := (fun _ : string => @None Z).



End Loading.






(** ** The no-change check *)

Section NoChange.

Context {W : Type}.
Variable os : HostOps W.
Variable opt : Options.
Variable junk : stat.

Lemma S_ISREG_not_dir_link (m : Z) :
  S_ISREG m = true -> S_ISLNK m = false /\ S_ISDIR m = false.
Proof.
  unfold S_ISREG, S_ISLNK, S_ISDIR. intros H. apply Z.eqb_eq in H.
  rewrite H. split; reflexivity.
Qed.

Lemma nochange_check_unchanged (spath dp : string) (st1 st2 : stat)
    (hln : option Z) (size : Z) (s : state W) :
  S_ISREG (st_mode st1) = true ->
  st_mode st1 = st_mode st2 ->
  st_flags st1 = st_flags st2 ->
  st_size st1 = st_size st2 ->
  st_uid st1 = st_uid st2 ->
  st_gid st1 = st_gid st2 ->
  st_mtime st1 = st_mtime st2 ->
  ForceOpt opt = 0 ->
  (UseMD5Opt opt <> 0 ->
   fst (os_md5_check os spath (Some dp) (world s)) = 0) ->
  (UseFSMIDOpt opt <> 0 ->
   fst (os_fsmid_check os (st_fsmid st1) dp (after_md5 os opt spath dp (world s)))
     = 0) ->
  exists s' evs,
    nochange_check os opt spath (Some dp) st1 st2 true hln size s =
      Some (Return 0, s') /\
    world s' = after_checks os opt spath dp st1 (world s) /\
    hltable s' = match hln with
                 | Some h => hlt_modify h (hl_set_dino (st_ino st2)) (hltable s)
                 | None => hltable s
                 end /\
    counts s' = add_SourceItems 1 (add_SourceBytes size (counts s)) /\
    events s' = (events s ++ evs)%list /\
    Forall (fun e => is_sys e = false) evs.
Proof.
  intros Hreg Hm Hf Hsz Hu Hg Ht Hforce Hmd5 Hfs.
  destruct (S_ISREG_not_dir_link _ Hreg) as [Hl Hd].
  unfold nochange_check, after_checks, after_md5 in *.
  rewrite Hl, Hd, Hforce, <- Hm, <- Hf, <- Hsz, <- Hu, <- Hg, <- Ht.
  rewrite !Z.eqb_refl. cbn [andb orb path_of].
  rewrite bind_run.
  destruct (UseMD5Opt opt =? 0) eqn:Emd5.
  - cbn [ret]. change (0 =? 0) with true. cbv iota. rewrite bind_run.
    destruct (UseFSMIDOpt opt =? 0) eqn:Efs.
    + cbn [ret]. change (0 =? 0) with true. cbv iota.
      unfold truthy. rewrite Emd5, Efs. cbn [negb].
      destruct hln as [h|]; destruct (3 <=? VerboseOpt opt);
        (eexists _, _; split; [reflexivity|]);
        cbn [world hltable counts events upd_hltable upd_counts add_event];
        repeat split; rewrite ?app_nil_r; try reflexivity;
        first [ instantiate (1 := []); now rewrite app_nil_r | idtac ];
        repeat constructor.
    + unfold fsmid_check.
      apply Z.eqb_neq in Efs. specialize (Hfs Efs).
      destruct (os_fsmid_check os (st_fsmid st1) dp (world s))
        as [fres w2] eqn:E2.
      cbn [fst snd] in *. subst fres. change (0 =? 0) with true. cbv iota.
      destruct hln as [h|]; destruct (3 <=? VerboseOpt opt);
        unfold truthy; rewrite Emd5; cbn [negb];
        destruct (negb (UseFSMIDOpt opt =? 0));
        (eexists _, _; split; [reflexivity|]);
        cbn [world hltable counts events upd_hltable upd_counts add_event];
        rewrite <- ?app_assoc;
        repeat split; try reflexivity; repeat constructor.
  - apply Z.eqb_neq in Emd5. specialize (Hmd5 Emd5).
    unfold md5_check.
    destruct (os_md5_check os spath (Some dp) (world s)) as [mres w1] eqn:E1.
    cbn [fst snd] in *. subst mres. change (0 =? 0) with true. cbv iota.
    rewrite bind_run.
    destruct (UseFSMIDOpt opt =? 0) eqn:Efs.
    + cbn [ret]. change (0 =? 0) with true. cbv iota.
      destruct hln as [h|]; destruct (3 <=? VerboseOpt opt);
        destruct (truthy (UseMD5Opt opt)); destruct (truthy (UseFSMIDOpt opt));
        (eexists _, _; split; [reflexivity|]);
        cbn [world hltable counts events upd_hltable upd_counts add_event];
        rewrite <- ?app_assoc;
        repeat split; try reflexivity; repeat constructor.
    + unfold fsmid_check. cbn [world].
      apply Z.eqb_neq in Efs. specialize (Hfs Efs).
      destruct (os_fsmid_check os (st_fsmid st1) dp w1) as [fres w2] eqn:E2.
      cbn [fst snd] in *. subst fres. change (0 =? 0) with true. cbv iota.
      destruct hln as [h|]; destruct (3 <=? VerboseOpt opt);
        destruct (truthy (UseMD5Opt opt)); destruct (truthy (UseFSMIDOpt opt));
        (eexists _, _; split; [reflexivity|]);
        cbn [world hltable counts events upd_hltable upd_counts add_event];
        rewrite <- ?app_assoc;
        repeat split; try reflexivity; repeat constructor.
Qed.

End NoChange.

(** C4, as stated, fails: a regular source file whose destination has the
    same mode, flags, size, owner and time, with force off and no check
    enabled, is still relinked (destination removed, link made, one item
    counted as copied) when its inode is already in the hardlink table
    with another destination inode. *)
Lemma unchanged_file_relinked_counterexample :
  MemFS.m_lstat SrcHost "s/b" Scenarios.split_pair
    = Some (MemFS.n_stat (MemFS.file 2 2 5 100 "hello")) /\
  MemFS.m_lstat DstHost "d/b" Scenarios.split_pair
    = Some (MemFS.n_stat (MemFS.file 9 2 5 100 "hello")) /\
  option_map
    (fun x => (fst x, CountCopiedItems (counts (snd x)),
               List.filter is_sys (events (snd x))))
    (DoCopy MemFS.ops Scenarios.batch_options MemFS.no_junk 3
            "s/b" (Some "d/b") 1 1
            (Scenarios.second_sighting Scenarios.split_pair))
  = Some (0, 1, [EvSys (sys_remove DstHost "d/b") 0;
                 EvSys (sys_link DstHost "d/a" "d/b") 0]).
Proof.
  split; [reflexivity|]. split; [reflexivity|]. vm_compute. reflexivity.
Qed.

(** C4, amended: for a regular source file that is not a later member of
    a hardlink group already in the table, whose destination [lstat]
    succeeded with equal mode and flags: if size, uid, gid and mtime all
    match, force is off and the enabled digest and content-id checks
    report equal, [DoCopy] returns 0 without a single status-returning
    call (nothing is copied, the copied-items counter stands still), and
    the entry just made for a multiply-linked file records the inode of
    the destination. *)
Theorem unchanged_file_is_skipped {W : Type} (os : HostOps W) (opt : Options)
    (junk : stat) (fuel : nat) (spath dp : string) (sdevNo ddevNo : Z)
    (s : state W) (st1 st2 : stat) :
  os_lstat os SrcHost spath (world s) = Some st1 ->
  os_lstat os DstHost dp (world s) = Some st2 ->
  S_ISREG (st_mode st1) = true ->
  st_mode st1 = st_mode st2 ->
  st_flags st1 = st_flags st2 ->
  st_size st1 = st_size st2 ->
  st_uid st1 = st_uid st2 ->
  st_gid st1 = st_gid st2 ->
  st_mtime st1 = st_mtime st2 ->
  ForceOpt opt = 0 ->
  (UseMD5Opt opt <> 0 ->
   fst (os_md5_check os spath (Some dp) (world s)) = 0) ->
  (UseFSMIDOpt opt <> 0 ->
   fst (os_fsmid_check os (st_fsmid st1) dp
          (after_md5 os opt spath dp (world s))) = 0) ->
  ((1 <? st_nlink st1) = true ->
   hltlookup_ino (st_ino st1) (hltable s) = None) ->
  exists s' evs,
    DoCopy os opt junk (S fuel) spath (Some dp) sdevNo ddevNo s
      = Some (0, s') /\
    events s' = (events s ++ evs)%list /\
    Forall (fun e => is_sys e = false) evs /\
    CountCopiedItems (counts s') = CountCopiedItems (counts s) /\
    CountRemovedItems (counts s') = CountRemovedItems (counts s) /\
    world s' = after_checks os opt spath dp st1 (world s) /\
    hltable s' =
      (if 1 <? st_nlink st1
       then hlt_modify (st_ino st1) (hl_set_dino (st_ino st2))
                       (hltadd_ino (st_ino st1) dp (hltable s))
       else hltable s).
Proof.
  intros H1 H2 Hreg Hm Hf Hsz Hu Hg Ht Hforce Hmd5 Hfs Hhl.
  cbn [DoCopy]. rewrite bind_run, (stat_both_valid _ _ _ _ _ _ _ H1 H2).
  rewrite bind_run, hardlink_probe_first
    by (cbn [hltable add_event]; rewrite Hreg; exact Hhl).
  rewrite Hreg. cbn [andb].
  destruct (1 <? st_nlink st1); unfold DoCopy_tail; rewrite bind_run.
  - match goal with
    | |- context [nochange_check os opt spath (Some dp) st1 st2 true ?h ?z ?st] =>
        destruct (nochange_check_unchanged os opt spath dp st1 st2 h z st
                    Hreg Hm Hf Hsz Hu Hg Ht Hforce Hmd5 Hfs)
          as (s' & evs & E & Hw & Hh & Hc & He & Hq)
    end.
    rewrite E. eexists s', _. split; [reflexivity|].
    cbn [world hltable counts events add_event upd_hltable] in *.
    rewrite He, Hc, Hw, Hh, <- !app_assoc.
    repeat split; try reflexivity. repeat constructor. exact Hq.
  - match goal with
    | |- context [nochange_check os opt spath (Some dp) st1 st2 true ?h ?z ?st] =>
        destruct (nochange_check_unchanged os opt spath dp st1 st2 h z st
                    Hreg Hm Hf Hsz Hu Hg Ht Hforce Hmd5 Hfs)
          as (s' & evs & E & Hw & Hh & Hc & He & Hq)
    end.
    rewrite E. eexists s', _. split; [reflexivity|].
    cbn [world hltable counts events add_event upd_hltable] in *.
    rewrite He, Hc, Hw, Hh, <- !app_assoc.
    repeat split; try reflexivity. repeat constructor. exact Hq.
Qed.

Lemma unchanged_file_is_skipped_witness :
  exists s' evs,
    DoCopy MemFS.ops Scenarios.batch_options MemFS.no_junk 1
           "s/a" (Some "d/a") 1 1 (MemFS.start Scenarios.split_pair [])
      = Some (0, s') /\
    events s' = ([] ++ evs)%list /\
    Forall (fun e => is_sys e = false) evs /\
    CountCopiedItems (counts s') = 0 /\
    CountRemovedItems (counts s') = 0 /\
    world s' = Scenarios.split_pair /\
    hltable s' = hlt_modify 2 (hl_set_dino 8) (hltadd_ino 2 "d/a" ∅).
Proof.
  apply (unchanged_file_is_skipped MemFS.ops Scenarios.batch_options
           MemFS.no_junk 0 "s/a" "d/a" 1 1
           (MemFS.start Scenarios.split_pair [])
           (MemFS.n_stat (MemFS.file 2 2 5 100 "hello"))
           (MemFS.n_stat (MemFS.file 8 2 5 100 "hello")));
    reflexivity.
Defined.

(** ** What a computation leaves alone *)

Section Frames.

Context {W : Type}.

Variable R : state W -> state W -> Prop.
Hypothesis R_refl : forall s, R s s.
Hypothesis R_trans : forall s1 s2 s3, R s1 s2 -> R s2 s3 -> R s1 s3.

Lemma keeps_ret {A : Type} (a : A) : keeps R (ret a).
Proof. intros s a' s' [= _ <-]. apply R_refl. Qed.

Lemma keeps_bind {A B : Type} (m : M W A) (k : A -> M W B) :
  keeps R m -> (forall a, keeps R (k a)) -> keeps R (bind m k).
Proof.
  intros Hm Hk s b s' H. rewrite bind_run in H.
  destruct (m s) as [[a s1]|] eqn:E; [|discriminate].
  eapply R_trans; [eapply Hm; exact E|eapply Hk; exact H].
Qed.

Lemma keeps_when (b : bool) (m : M W unit) :
  keeps R m -> keeps R (when b m).
Proof. intros H. destruct b; [exact H|apply keeps_ret]. Qed.

Lemma keeps_out_of_fuel {A : Type} : keeps R (@out_of_fuel W A).
Proof. intros s a s' H. discriminate. Qed.

Lemma keeps_get_errno : keeps R get_errno.
Proof. intros s a s' [= _ <-]. apply R_refl. Qed.

Lemma keeps_get_hltable : keeps R get_hltable.
Proof. intros s a s' [= _ <-]. apply R_refl. Qed.

Lemma keeps_for_each {A : Type} (f : A -> M W unit) (l : list A) :
  (forall x, keeps R (f x)) -> keeps R (for_each f l).
Proof.
  intros Hf. induction l as [|x l IH]; cbn [for_each].
  - apply keeps_ret.
  - apply keeps_bind; [apply Hf|intros _; exact IH].
Qed.

End Frames.

(** ** The hardlink table is only touched by the hardlink code *)

Section TableFrame.

Context {W : Type}.
Variable os : HostOps W.
Variable opt : Options.

Lemma extends_refl (s : state W) : extends s s.
Proof. exists []. now rewrite app_nil_r. Qed.

Lemma extends_trans (s1 s2 s3 : state W) :
  extends s1 s2 -> extends s2 s3 -> extends s1 s3.
Proof.
  intros [e1 E1] [e2 E2]. exists (e1 ++ e2)%list.
  now rewrite E2, E1, app_assoc.
Qed.

Lemma extends_add_event (e : event) (s : state W) :
  extends s (add_event e s).
Proof. now exists [e]. Qed.

Lemma same_table_refl (s : state W) : same_table s s.
Proof. split; [reflexivity|apply extends_refl]. Qed.

Lemma same_table_trans (s1 s2 s3 : state W) :
  same_table s1 s2 -> same_table s2 s3 -> same_table s1 s3.
Proof.
  intros [H1 E1] [H2 E2]. split; [congruence|].
  eapply extends_trans; eassumption.
Qed.

Local Ltac prim :=
  let H := fresh in
  intros ? ? ? H; injection H as _ <-;
  (split; [reflexivity|]);
  first [ apply extends_refl
        | eexists; reflexivity
        | exists []; cbn; symmetry; apply app_nil_r ].

Lemma table_sys (c : syscall) : keeps same_table (sys os c).
Proof. intros s r s' H. rewrite sys_run in H. revert s r s' H. prim. Qed.

Lemma table_lstat h p : keeps same_table (hc_lstat os h p).
Proof. prim. Qed.

Lemma table_stat h p : keeps same_table (hc_stat os h p).
Proof. prim. Qed.

Lemma table_readlink h p : keeps same_table (hc_readlink os h p).
Proof. prim. Qed.

Lemma table_opendir h p : keeps same_table (hc_opendir os h p).
Proof. prim. Qed.

Lemma table_fgets p : keeps same_table (hc_fgets os p).
Proof. prim. Qed.

Lemma table_read h fd n : keeps same_table (hc_read os h fd n).
Proof.
  intros s r s' H. unfold hc_read in H.
  destruct (os_read os h fd n (world s)) as [[k d] w].
  revert s r s' H. prim.
Qed.

Lemma table_md5 sp dp : keeps same_table (md5_check os sp dp).
Proof.
  intros s r s' H. unfold md5_check in H.
  destruct (os_md5_check os sp dp (world s)) as [k w].
  revert s r s' H. prim.
Qed.

Lemma table_fsmid id dp : keeps same_table (fsmid_check os id dp).
Proof.
  intros s r s' H. unfold fsmid_check in H.
  destruct (os_fsmid_check os id dp (world s)) as [k w].
  revert s r s' H. prim.
Qed.

Lemma table_emit e : keeps (W:=W) same_table (emit e).
Proof. prim. Qed.

Lemma table_count f : keeps (W:=W) same_table (count f).
Proof. prim. Qed.

Lemma table_set_errno e : keeps (W:=W) same_table (set_errno e).
Proof. prim. Qed.

Lemma table_YesNo p : keeps (W:=W) same_table (YesNo p).
Proof. prim. Qed.

End TableFrame.

(** Break a computation into its calls and close each with a frame
    lemma. *)
Ltac frame :=
  repeat first
    [ apply (keeps_ret same_table same_table_refl)
    | apply (keeps_out_of_fuel same_table)
    | apply (keeps_get_errno same_table same_table_refl)
    | apply (keeps_get_hltable same_table same_table_refl)
    | apply table_sys | apply table_lstat | apply table_stat
    | apply table_readlink | apply table_opendir | apply table_fgets
    | apply table_read | apply table_md5 | apply table_fsmid
    | apply table_emit | apply table_count | apply table_set_errno
    | apply table_YesNo
    | assumption
    | match goal with
      | H : forall _, _ |- keeps _ _ => apply H
      end
    | apply (keeps_when same_table same_table_refl)
    | apply (keeps_for_each same_table same_table_refl same_table_trans);
      intros ?
    | apply (keeps_bind same_table same_table_trans); [|intros ?]
    | match goal with
      | |- keeps _ (if ?b then _ else _) => destruct b
      | |- keeps _ (match ?x with _ => _ end) => destruct x
      | |- keeps _ (let '(_, _) := ?x in _) => destruct x
      end
    | progress unfold logerr, logstd, hc_remove, hc_rmdir, hc_mkdir,
        hc_chown, hc_lchown, hc_chmod, hc_chflags, hc_utimes, hc_umask,
        hc_rename, hc_link, hc_symlink, mknod, hc_open, hc_write, hc_close ].

Section TableFrames.

Context {W : Type}.
Variable os : HostOps W.
Variable opt : Options.


Lemma table_xrename src dst flags : keeps same_table (xrename os src dst flags).
Proof. unfold xrename. frame. Qed.

Lemma table_RemoveRecur (fuel : nat) :
  forall dpath devNo, keeps same_table (RemoveRecur os opt fuel dpath devNo).
Proof.
  induction fuel as [|fuel IH]; intros dpath devNo; cbn [RemoveRecur].
  - frame.
  - frame.
Qed.

Lemma table_compare_loop (fuel : nat) :
  forall fd1 fd2, keeps same_table (compare_loop os fuel fd1 fd2).
Proof.
  induction fuel as [|fuel IH]; intros fd1 fd2; cbn [compare_loop].
  - frame.
  - frame.
Qed.

Lemma table_copy_loop (fuel : nat) :
  forall fd1 fd2, keeps same_table (copy_loop os fuel fd1 fd2).
Proof.
  induction fuel as [|fuel IH]; intros fd1 fd2; cbn [copy_loop].
  - frame.
  - frame.
Qed.

Lemma table_checkHLPath fuel hlbase st1 spath dpath :
  keeps same_table (checkHLPath os opt fuel hlbase st1 spath dpath).
Proof.
  unfold checkHLPath. pose proof (table_compare_loop fuel) as Hc. frame.
Qed.

Lemma table_copy_contents fuel spath dp st1 st2 size r :
  keeps same_table (copy_contents os opt fuel spath dp st1 st2 size r).
Proof.
  unfold copy_contents.
  pose proof (table_copy_loop fuel) as Hc.
  pose proof table_xrename as Hx. frame.
Qed.

Lemma table_conflict_check fuel spath dpath st1 st2 st2Valid ddevNo r :
  keeps same_table
    (conflict_check os opt fuel spath dpath st1 st2 st2Valid ddevNo r).
Proof.
  unfold conflict_check. pose proof (table_RemoveRecur fuel) as Hr. frame.
Qed.

End TableFrames.

(** ** Relinking a member of a hardlink group *)

Section Relink.

Context {W : Type}.
Variable os : HostOps W.
Variable opt : Options.
Variable junk : stat.

Lemma hltlookup_ino_found (ino : Z) (t : hltab) (found : hlink) :
  hltlookup_ino ino t = Some found -> hl_ino found = ino.
Proof.
  unfold hltlookup_ino. intros H. apply List.find_some in H.
  destruct H as [_ H]. now apply Z.eqb_eq in H.
Qed.

End Relink.

(** ** The hardlink table as a map from inode numbers *)

Section HardlinkTable.

Implicit Types (t : hltab) (l : list hlink) (i j : Z).

Lemma hl_chain_insert t (k n : Z) l :
  hl_chain (<[k := l]> t) n = if decide (k = n) then l else hl_chain t n.
Proof.
  unfold hl_chain. rewrite lookup_insert. destruct (decide (k = n)); reflexivity.
Qed.

Lemma find_not_in i l :
  List.find (fun hl => hl_ino hl =? i) l = None <->
  ~ In i (List.map hl_ino l).
Proof.
  induction l as [|hl l IH]; cbn [List.find List.map In]; [tauto|].
  destruct (Z.eqb_spec (hl_ino hl) i) as [E|N].
  - split; [discriminate|]. intros H. exfalso. apply H. now left.
  - rewrite IH. tauto.
Qed.

Lemma map_ino_modify i (f : hlink -> hlink) l :
  (forall hl, hl_ino (f hl) = hl_ino hl) ->
  List.map hl_ino (chain_modify i f l) = List.map hl_ino l.
Proof.
  intros Hf. induction l as [|hl l IH]; [reflexivity|].
  cbn [chain_modify]. destruct (hl_ino hl =? i); cbn [List.map].
  - now rewrite Hf.
  - now rewrite IH.
Qed.

Lemma find_modify_same i (f : hlink -> hlink) l :
  (forall hl, hl_ino (f hl) = hl_ino hl) ->
  List.find (fun hl => hl_ino hl =? i) (chain_modify i f l) =
  option_map f (List.find (fun hl => hl_ino hl =? i) l).
Proof.
  intros Hf. induction l as [|hl l IH]; [reflexivity|].
  cbn [chain_modify List.find].
  destruct (hl_ino hl =? i) eqn:E; cbn [List.find].
  - now rewrite Hf, E.
  - now rewrite E, IH.
Qed.

Lemma find_modify_other i j (f : hlink -> hlink) l :
  j <> i -> (forall hl, hl_ino (f hl) = hl_ino hl) ->
  List.find (fun hl => hl_ino hl =? j) (chain_modify i f l) =
  List.find (fun hl => hl_ino hl =? j) l.
Proof.
  intros Hne Hf. induction l as [|hl l IH]; [reflexivity|].
  cbn [chain_modify List.find].
  destruct (Z.eqb_spec (hl_ino hl) i) as [E|N]; cbn [List.find].
  - rewrite Hf. destruct (Z.eqb_spec (hl_ino hl) j); [congruence|reflexivity].
  - now rewrite IH.
Qed.

Lemma find_unlink_other i j l :
  j <> i ->
  List.find (fun hl => hl_ino hl =? j) (chain_unlink i l) =
  List.find (fun hl => hl_ino hl =? j) l.
Proof.
  intros Hne. induction l as [|hl l IH]; [reflexivity|].
  cbn [chain_unlink List.find].
  destruct (Z.eqb_spec (hl_ino hl) i) as [E|N]; cbn [List.find].
  - destruct (Z.eqb_spec (hl_ino hl) j); [congruence|reflexivity].
  - now rewrite IH.
Qed.

Lemma unlink_incl i l x :
  In x (List.map hl_ino (chain_unlink i l)) -> In x (List.map hl_ino l).
Proof.
  induction l as [|hl l IH]; [intros []|].
  cbn [chain_unlink]. destruct (hl_ino hl =? i); cbn [List.map In]; tauto.
Qed.

Lemma NoDup_unlink i l :
  List.NoDup (List.map hl_ino l) -> List.NoDup (List.map hl_ino (chain_unlink i l)).
Proof.
  induction l as [|hl l IH]; [intros H; exact H|].
  cbn [chain_unlink List.map]. intros H.
  apply List.NoDup_cons_iff in H. destruct H as [Hn Hd].
  destruct (hl_ino hl =? i); [exact Hd|].
  cbn [List.map]. apply List.NoDup_cons_iff. split; [|now apply IH].
  intros Hin. apply Hn. eapply unlink_incl. exact Hin.
Qed.

Lemma find_unlink_same i l :
  List.NoDup (List.map hl_ino l) ->
  List.find (fun hl => hl_ino hl =? i) (chain_unlink i l) = None.
Proof.
  induction l as [|hl l IH]; [reflexivity|].
  cbn [chain_unlink List.map]. intros H.
  apply List.NoDup_cons_iff in H. destruct H as [Hn Hd].
  destruct (Z.eqb_spec (hl_ino hl) i) as [E|N].
  - apply find_not_in. now rewrite <- E.
  - cbn [List.find]. destruct (Z.eqb_spec (hl_ino hl) i); [contradiction|].
    now apply IH.
Qed.

Lemma lookup_modify_same i (f : hlink -> hlink) t :
  (forall hl, hl_ino (f hl) = hl_ino hl) ->
  hltlookup_ino i (hlt_modify i f t) = option_map f (hltlookup_ino i t).
Proof.
  intros Hf. unfold hltlookup_ino, hlt_modify.
  rewrite hl_chain_insert. destruct (decide _); [|congruence].
  now apply find_modify_same.
Qed.

Lemma lookup_modify_other i j (f : hlink -> hlink) t :
  j <> i -> (forall hl, hl_ino (f hl) = hl_ino hl) ->
  hltlookup_ino j (hlt_modify i f t) = hltlookup_ino j t.
Proof.
  intros Hne Hf. unfold hltlookup_ino, hlt_modify.
  rewrite hl_chain_insert. destruct (decide _) as [E|]; [|reflexivity].
  rewrite <- E. now apply find_modify_other.
Qed.

Lemma lookup_delete_same i t :
  hlt_wf t -> hltlookup_ino i (hltdelete_ino i t) = None.
Proof.
  intros H. unfold hltlookup_ino, hltdelete_ino.
  rewrite hl_chain_insert. destruct (decide _); [|congruence].
  apply find_unlink_same. apply H.
Qed.

Lemma lookup_delete_other i j t :
  j <> i -> hltlookup_ino j (hltdelete_ino i t) = hltlookup_ino j t.
Proof.
  intros Hne. unfold hltlookup_ino, hltdelete_ino.
  rewrite hl_chain_insert. destruct (decide _) as [E|]; [|reflexivity].
  rewrite <- E. now apply find_unlink_other.
Qed.

Lemma lookup_add_same i (p : string) t :
  hltlookup_ino i (hltadd_ino i p t) = Some (mkhlink i 0 1 p).
Proof.
  unfold hltlookup_ino, hltadd_ino.
  rewrite hl_chain_insert. destruct (decide _); [|congruence].
  cbn [List.find hl_ino]. now rewrite Z.eqb_refl.
Qed.

Lemma lookup_add_other i j (p : string) t :
  j <> i -> hltlookup_ino j (hltadd_ino i p t) = hltlookup_ino j t.
Proof.
  intros Hne. unfold hltlookup_ino, hltadd_ino.
  rewrite hl_chain_insert. destruct (decide _) as [E|]; [|reflexivity].
  rewrite <- E. cbn [List.find hl_ino].
  destruct (Z.eqb_spec i j); [congruence|reflexivity].
Qed.

Lemma wf_modify i (f : hlink -> hlink) t :
  (forall hl, hl_ino (f hl) = hl_ino hl) -> hlt_wf t -> hlt_wf (hlt_modify i f t).
Proof.
  intros Hf H n. unfold hlt_modify. rewrite hl_chain_insert.
  destruct (decide _); [|apply H].
  rewrite map_ino_modify by exact Hf. apply H.
Qed.

Lemma wf_empty : hlt_wf ∅.
Proof.
  intros n. unfold hl_chain. rewrite lookup_empty. constructor.
Qed.

Lemma wf_delete i t : hlt_wf t -> hlt_wf (hltdelete_ino i t).
Proof.
  intros H n. unfold hltdelete_ino. rewrite hl_chain_insert.
  destruct (decide _); [|apply H]. apply NoDup_unlink, H.
Qed.

Lemma wf_add i (p : string) t :
  hlt_wf t -> hltlookup_ino i t = None -> hlt_wf (hltadd_ino i p t).
Proof.
  intros H Hn n. unfold hltadd_ino. rewrite hl_chain_insert.
  destruct (decide _); [|apply H].
  cbn [List.map hl_ino]. apply List.NoDup_cons_iff. split; [|apply H].
  now apply find_not_in.
Qed.

Lemma hl_incr_ino hl : hl_ino (hl_incr hl) = hl_ino hl.
Proof. reflexivity. Qed.

Lemma hl_set_dino_ino d hl : hl_ino (hl_set_dino d hl) = hl_ino hl.
Proof. reflexivity. Qed.

End HardlinkTable.

(** ** One sighting of a multiply-linked file *)

Section Sighting.

Context {W : Type}.
Variable os : HostOps W.
Variable opt : Options.
Variable junk : stat.

Lemma bind_inv {A B : Type} (m : M W A) (k : A -> M W B) (s s' : state W)
    (b : B) :
  bind m k s = Some (b, s') ->
  exists a s1, m s = Some (a, s1) /\ k a s1 = Some (b, s').
Proof.
  rewrite bind_run. destruct (m s) as [[a s1]|]; [|discriminate].
  intros H. now exists a, s1.
Qed.










Ltac grown :=
  cbn [events hltable add_event upd_counts upd_hltable upd_errno];
  rewrite <- ?app_assoc;
  first [ eexists; reflexivity
        | exists []; symmetry; apply app_nil_r ].














End Sighting.






(** ** A run on a destination that already mirrors the source *)

Section Idle.

Context {W : Type}.

Lemma quiet_refl (s : state W) : quiet s s.
Proof.
  repeat split. exists []. split; [now rewrite app_nil_r|constructor].
Qed.

Lemma quiet_trans (s1 s2 s3 : state W) :
  quiet s1 s2 -> quiet s2 s3 -> quiet s1 s3.
Proof.
  intros (Hw1 & Hc1 & Hr1 & e1 & E1 & F1) (Hw2 & Hc2 & Hr2 & e2 & E2 & F2).
  repeat split; try congruence.
  exists (e1 ++ e2)%list. split.
  - now rewrite E2, E1, app_assoc.
  - now apply Forall_app.
Qed.

Lemma idle_refl (s : state W) : idle s s.
Proof. split; [apply quiet_refl|reflexivity]. Qed.

Lemma idle_trans (s1 s2 s3 : state W) :
  idle s1 s2 -> idle s2 s3 -> idle s1 s3.
Proof.
  intros [Q1 T1] [Q2 T2]. split; [eapply quiet_trans; eassumption|congruence].
Qed.

Lemma idle_event (e : event) (s : state W) :
  is_sys e = false -> idle s (add_event e s).
Proof.
  intros H. repeat split. exists [e]. split; [reflexivity|now constructor].
Qed.

Lemma idle_counts (f : Counters -> Counters) (s : state W) :
  (forall c, CountCopiedItems (f c) = CountCopiedItems c) ->
  (forall c, CountRemovedItems (f c) = CountRemovedItems c) ->
  idle s (upd_counts f s).
Proof.
  intros Hc Hr. repeat split; cbn [counts upd_counts]; auto.
  exists []. split; [cbn; now rewrite app_nil_r|constructor].
Qed.

Lemma quiet_table (f : hltab -> hltab) (s : state W) :
  quiet s (upd_hltable f s).
Proof.
  repeat split. exists []. split; [cbn; now rewrite app_nil_r|constructor].
Qed.

Lemma idle_quiet (s s' : state W) : idle s s' -> quiet s s'.
Proof. now intros [Q _]. Qed.

Lemma idle_world (s s' : state W) : idle s s' -> world s' = world s.
Proof. now intros [[Hw _] _]. Qed.

End Idle.

(** A state built from [s] by log lines, reads and counter updates that
    leave the two item counters alone is idle with respect to [s]. *)
Ltac idle_last :=
  first
    [ apply idle_event; reflexivity
    | apply idle_counts; intros; reflexivity ].

Ltac idles :=
  first
    [ apply idle_refl
    | eassumption
    | idle_last
    | eapply idle_trans; [|idle_last]; idles
    | eapply idle_trans; [|eassumption]; idles ].

Ltac quiet_last :=
  first
    [ apply quiet_table
    | apply idle_quiet; idle_last ].

Ltac quiets :=
  first
    [ apply quiet_refl
    | eassumption
    | apply idle_quiet; eassumption
    | quiet_last
    | eapply quiet_trans; [|quiet_last]; quiets
    | eapply quiet_trans; [|eassumption]; quiets
    | eapply quiet_trans; [|apply idle_quiet; eassumption]; quiets ].

Section Paired.

Variable dino : Z -> Z.

Lemma paired_empty : paired dino ∅.
Proof.
  split; [apply wf_empty|].
  intros i e H. unfold hltlookup_ino, hl_chain in H.
  rewrite lookup_empty in H. discriminate.
Qed.

Lemma paired_first (i : Z) (p : string) (t : hltab) :
  paired dino t -> hltlookup_ino i t = None ->
  paired dino (hlt_modify i (hl_set_dino (dino i)) (hltadd_ino i p t)).
Proof.
  intros [Hwf Hd] Hn. split.
  - apply wf_modify; [apply hl_set_dino_ino|]. now apply wf_add.
  - intros j e. destruct (Z.eq_dec j i) as [->|Hj].
    + rewrite lookup_modify_same by apply hl_set_dino_ino.
      rewrite lookup_add_same. intros [= <-]. reflexivity.
    + rewrite lookup_modify_other by (auto; apply hl_set_dino_ino).
      rewrite lookup_add_other by exact Hj. apply Hd.
Qed.

Lemma paired_incr (i : Z) (t : hltab) :
  paired dino t -> paired dino (hlt_modify i hl_incr t).
Proof.
  intros [Hwf Hd]. split.
  - apply wf_modify; [apply hl_incr_ino|exact Hwf].
  - intros j e. destruct (Z.eq_dec j i) as [->|Hj].
    + rewrite lookup_modify_same by apply hl_incr_ino.
      destruct (hltlookup_ino i t) as [e0|] eqn:E; [|discriminate].
      intros [= <-]. apply (Hd i e0 E).
    + rewrite lookup_modify_other by (auto; apply hl_incr_ino). apply Hd.
Qed.

Lemma paired_delete (i : Z) (t : hltab) :
  paired dino t -> paired dino (hltdelete_ino i t).
Proof.
  intros [Hwf Hd]. split; [now apply wf_delete|].
  intros j e. destruct (Z.eq_dec j i) as [->|Hj].
  - now rewrite lookup_delete_same.
  - rewrite lookup_delete_other by exact Hj. apply Hd.
Qed.

End Paired.

Section Mirror.

Context {W : Type}.
Variable os : HostOps W.
Variable opt : Options.
Variable junk : stat.
Variable dino : Z -> Z.

Hypothesis force_off : ForceOpt opt = 0.
Hypothesis md5_off : UseMD5Opt opt = 0.
Hypothesis fsmid_off : UseFSMIDOpt opt = 0.

(** The no-change check of anything but a regular file ends the call
    with 0 or hands on, without a failure. *)
Lemma nochange_check_idle (spath dp : string) (st1 st2 : stat) (size : Z)
    (s : state W) :
  S_ISREG (st_mode st1) = false ->
  exists out s',
    nochange_check os opt spath (Some dp) st1 st2 true None size s
      = Some (out, s') /\
    idle s s' /\
    (out = Return 0 \/ out = Continue (0, 0)).
Proof.
  intros Hreg. unfold nochange_check, truthy.
  rewrite force_off, md5_off, fsmid_off.
  change (0 =? 0) with true. cbn [andb negb].
  destruct ((st_mode st1 =? st_mode st2) && (st_flags st1 =? st_flags st2)).
  2:{ eexists _, s. split; [reflexivity|]. split; [idles|now right]. }
  destruct (S_ISLNK (st_mode st1) || S_ISDIR (st_mode st1)).
  { eexists _, s. split; [reflexivity|]. split; [idles|now right]. }
  destruct ((st_size st1 =? st_size st2) && (st_uid st1 =? st_uid st2) &&
            (st_gid st1 =? st_gid st2) && (st_mtime st1 =? st_mtime st2)).
  2:{ eexists _, s. split; [reflexivity|]. split; [idles|now right]. }
  rewrite !bind_run. cbn [ret]. change (0 =? 0) with true. cbv iota.
  rewrite !bind_run. cbn [ret]. change (0 =? 0) with true. cbv iota.
  rewrite !bind_run. cbn [ret].
  destruct (3 <=? VerboseOpt opt); cbn [when logstd emit ret];
    rewrite ?bind_run; cbn [count ret];
    (eexists _, _; split; [reflexivity|]; split; [idles|now left]).
Qed.

Lemma conflict_check_same_type (fuel : nat) (spath dp : string)
    (st1 st2 : stat) (ddevNo r : Z) (s : state W) :
  st_mode st1 = st_mode st2 ->
  conflict_check os opt fuel spath (Some dp) st1 st2 true ddevNo r s
    = Some (Continue r, s).
Proof.
  intros H. unfold conflict_check. rewrite <- H. cbn [andb].
  destruct (S_ISDIR (st_mode st1)); reflexivity.
Qed.

Lemma copy_symlink_idle (spath dp : string) (st1 st2 : stat)
    (t1 t2 : string) (s : state W) :
  os_readlink os SrcHost spath (world s) = Some t1 ->
  os_readlink os DstHost dp (world s) = Some t2 ->
  String.eqb (substring 0 1023 t1) (substring 0 1023 t2) = true ->
  exists s', copy_symlink os opt spath dp st1 st2 0 s = Some (0, s') /\
             idle s s'.
Proof.
  intros H1 H2 He. apply String.eqb_eq in He.
  unfold copy_symlink, readlink_buf. rewrite !bind_run.
  unfold hc_readlink. rewrite H1.
  cbn [ret]. rewrite !bind_run. cbn [world add_event]. rewrite H2.
  cbn [ret]. rewrite <- He.
  assert (Hn : (0 <=? zlen (substring 0 1023 t1)) = true)
    by (apply Z.leb_le; unfold zlen; lia).
  rewrite Hn. unfold truthy. rewrite force_off, !Z.eqb_refl, String.eqb_refl.
  cbn [negb orb].
  destruct (3 <=? VerboseOpt opt);
    destruct (0 <? zlen (substring 0 1023 t1));
    cbn [when logstd emit ret count bind];
    (eexists; split; [reflexivity|idles]).
Qed.

Lemma copy_device_idle (dp : string) (st1 st2 : stat) (s : state W) :
  st_mode st1 = st_mode st2 ->
  st_rdev st1 = st_rdev st2 ->
  st_uid st1 = st_uid st2 ->
  st_gid st1 = st_gid st2 ->
  exists s', copy_device os opt dp st1 st2 true 0 s = Some (0, s') /\
             idle s s'.
Proof.
  intros Hm Hr Hu Hg. unfold copy_device, truthy.
  rewrite force_off, <- Hm, <- Hr, <- Hu, <- Hg, !Z.eqb_refl.
  cbn [negb orb]. rewrite !bind_run.
  destruct (3 <=? VerboseOpt opt); cbn [when logstd emit ret];
    rewrite ?bind_run; cbn [count ret];
    (eexists; split; [reflexivity|idles]).
Qed.

Lemma dir_prepare_idle (spath dp : string) (st1 st2 : stat) (r : Z)
    (s : state W) :
  S_ISDIR (st_mode st2) = true ->
  (Z.land (st_mode st2) 0x1C0 =? 0x1C0) = true ->
  exists s', dir_prepare os opt spath (Some dp) st1 st2 r s
               = Some ((st2, r, 0), s') /\
             idle s s'.
Proof.
  intros Hd Hx. unfold dir_prepare. rewrite Hd, Hx. cbn [negb].
  rewrite !bind_run. cbn [ret]. rewrite !bind_run.
  destruct (2 <=? VerboseOpt opt); cbn [when logstd emit ret];
    (eexists; split; [reflexivity|idles]).
Qed.

Lemma dir_fixup_idle (dp : string) (st1 st2 : stat) (s : state W) :
  st_mode st1 = st_mode st2 ->
  st_flags st1 = st_flags st2 ->
  st_uid st1 = st_uid st2 ->
  st_gid st1 = st_gid st2 ->
  dir_fixup os opt dp st1 st2 true s = Some (tt, s).
Proof.
  intros Hm Hf Hu Hg. unfold dir_fixup, truthy.
  rewrite force_off, <- Hm, <- Hf, <- Hu, <- Hg, !Z.eqb_refl.
  reflexivity.
Qed.

Lemma cpignore_lines_idle (bufs : list string) :
  forall lst (s : state W), exists lst' s',
    cpignore_lines lst bufs s = Some (lst', s') /\ idle s s'.
Proof.
  induction bufs as [|buf rest IH]; intros lst s.
  - exists lst, s. split; [reflexivity|apply idle_refl].
  - cbn [cpignore_lines]. rewrite bind_run.
    unfold cpignore_line. rewrite bind_run. cbn [count].
    destruct (strip_newline buf) as [|c line'].
    + cbn [ret].
      match goal with
      | |- context [cpignore_lines ?l rest ?st] =>
          destruct (IH l st) as (l' & s' & E & R)
      end.
      exists l', s'. split; [exact E|idles].
    + destruct (Ascii.eqb c "#"); cbn [ret];
        match goal with
        | |- context [cpignore_lines ?l rest ?st] =>
            destruct (IH l st) as (l' & s' & E & R)
        end;
        exists l', s'; (split; [exact E|idles]).
Qed.

Lemma load_ignores_idle (spath : string) (s : state W) :
  exists lst s',
    load_ignores os opt spath InitList s = Some (lst, s') /\
    idle s s' /\ no_tag3 lst.
Proof.
  assert (H : exists lst s',
             load_ignores os opt spath InitList s = Some (lst, s') /\
             idle s s').
  { unfold load_ignores. rewrite bind_run.
    destruct (UseCpFile opt) as [cp|].
    - rewrite bind_run. unfold hc_fgets.
      match goal with
      | |- context [os_fgets os ?f (world s)] =>
          destruct (os_fgets os f (world s)) as [bufs|]
      end.
      + match goal with
        | |- context [cpignore_lines ?l bufs ?st] =>
            destruct (cpignore_lines_idle bufs l st) as (l' & s' & E & R)
        end.
        rewrite E. eexists _, s'. split; [reflexivity|idles].
      + eexists _, _. split; [reflexivity|idles].
    - eexists _, s. split; [reflexivity|apply idle_refl]. }
  destruct H as (lst & s' & E & R). exists lst, s'.
  split; [exact E|]. split; [exact R|].
  exact (load_ignores_no_tag3 os opt spath _ _ _ _ E InitList_no_tag3).
Qed.

Lemma picked_In (n : Z) (keep : Z -> bool) (ents : list string) :
  forall lst name,
    In name (picked n keep ents lst) ->
    In name ents /\ is_dot name = false.
Proof.
  induction ents as [|e rest IH]; intros lst name; [intros []|].
  cbn [picked]. destruct (is_dot e) eqn:Ed.
  - intros H. destruct (IH _ _ H). split; [now right|assumption].
  - destruct (keep (fst (AddList lst e n))).
    + intros [<-|H]; [split; [now left|exact Ed]|].
      destruct (IH _ _ H). split; [now right|assumption].
    + intros H. destruct (IH _ _ H). split; [now right|assumption].
Qed.

Lemma picked_known_nil (ents : list string) (lst : IgnList) :
  (forall name, In name ents -> is_dot name = false -> known lst name) ->
  picked 3 (fun v => v =? 3) ents lst = [].
Proof.
  intros H.
  destruct (picked 3 (fun v => v =? 3) ents lst) as [|name rest] eqn:E;
    [reflexivity|].
  assert (Hin : In name (picked 3 (fun v => v =? 3) ents lst))
    by (rewrite E; now left).
  destruct (picked_In _ _ _ _ _ Hin) as [Hi Hd].
  exfalso. exact (known_not_picked name ents lst (H name Hi Hd) Hin).
Qed.

(** A later name of a multiply-linked file whose destination is already
    a name of the recorded destination inode. *)
Lemma hardlink_probe_paired (spath dp : string) (st1 st2 : stat)
    (found : hlink) (s : state W) :
  S_ISREG (st_mode st1) = true ->
  (1 <? st_nlink st1) = true ->
  hltlookup_ino (st_ino st1) (hltable s) = Some found ->
  paired dino (hltable s) ->
  st_ino st2 = dino (st_ino st1) ->
  exists s',
    hardlink_probe os opt spath (Some dp) st1 st2 true 0 s
      = Some (Return 0, s') /\
    quiet s s' /\ paired dino (hltable s').
Proof.
  intros Hreg Hn Hf Hp Hi.
  pose proof (hltlookup_ino_found _ _ _ Hf) as Hino.
  assert (Hd : hl_dino found = st_ino st2)
    by (rewrite Hi; exact (proj2 Hp _ _ Hf)).
  unfold hardlink_probe. rewrite Hreg, Hn. cbn [andb].
  rewrite bind_run. cbn [get_hltable]. rewrite Hf.
  rewrite bind_run. cbn [modify_hltable hl_incr hl_dino hl_nlinked].
  rewrite Hd, Z.eqb_refl, Hino. cbn [andb].
  destruct (3 <=? VerboseOpt opt);
    destruct (nlink_t (hl_nlinked found + 1) =? st_nlink st1);
    cbn [when logstd emit ret count modify_hltable bind];
    (eexists; split; [reflexivity|]);
    (split; [quiets|]);
    cbn [hltable upd_counts upd_hltable add_event];
    auto using paired_delete, paired_incr.
Qed.

Lemma S_ISDIR_not_reg (m : Z) : S_ISDIR m = true -> S_ISREG m = false.
Proof.
  unfold S_ISREG, S_ISDIR. intros H. apply Z.eqb_eq in H.
  rewrite H. reflexivity.
Qed.

Lemma mirrors_inv (w : W) (n : nat) (sp dp : string) :
  mirrors os w dino (S n) sp dp = true ->
  exists st1 st2,
    os_lstat os SrcHost sp w = Some st1 /\
    os_lstat os DstHost dp w = Some st2 /\
    st_mode st1 = st_mode st2 /\
    st_flags st1 = st_flags st2 /\
    st_uid st1 = st_uid st2 /\
    st_gid st1 = st_gid st2 /\
    (if S_ISDIR (st_mode st1) then
       (Z.land (st_mode st2) 0x1C0 =? 0x1C0) = true /\
       exists ents dents,
         os_opendir os SrcHost sp w = Some ents /\
         os_opendir os DstHost dp w = Some dents /\
         (forall name, In name dents -> is_dot name = false ->
                       In name ents) /\
         (forall name, In name ents -> is_dot name = false ->
                       mirrors os w dino n (child sp name) (child dp name)
                       = true)
     else if S_ISREG (st_mode st1) then
       st_size st1 = st_size st2 /\
       st_mtime st1 = st_mtime st2 /\
       ((1 <? st_nlink st1) = true -> st_ino st2 = dino (st_ino st1))
     else if S_ISLNK (st_mode st1) then
       exists t1 t2,
         os_readlink os SrcHost sp w = Some t1 /\
         os_readlink os DstHost dp w = Some t2 /\
         String.eqb (substring 0 1023 t1) (substring 0 1023 t2) = true
     else if S_ISCHR (st_mode st1) || S_ISBLK (st_mode st1) then
       st_rdev st1 = st_rdev st2
     else True).
Proof.
  cbn [mirrors].
  destruct (os_lstat os SrcHost sp w) as [st1|]; [|discriminate].
  destruct (os_lstat os DstHost dp w) as [st2|]; [|discriminate].
  intros H. apply andb_prop in H. destruct H as [H Hk].
  apply andb_prop in H. destruct H as [H Hg].
  apply andb_prop in H. destruct H as [H Hu].
  apply andb_prop in H. destruct H as [Hm Hf].
  apply Z.eqb_eq in Hm, Hf, Hu, Hg.
  exists st1, st2. do 6 (split; [reflexivity || assumption|]).
  destruct (S_ISDIR (st_mode st1)).
  - apply andb_prop in Hk. destruct Hk as [Hx E].
    split; [exact Hx|].
    destruct (os_opendir os SrcHost sp w) as [ents|]; [|discriminate].
    destruct (os_opendir os DstHost dp w) as [dents|]; [|discriminate].
    apply andb_prop in E. destruct E as [Ed Es].
    exists ents, dents. do 2 (split; [reflexivity|]).
    rewrite forallb_forall in Ed, Es. split.
    + intros name Hin Hdot. specialize (Ed name Hin).
      rewrite Hdot in Ed. cbn [orb] in Ed.
      apply existsb_exists in Ed. destruct Ed as (x & Hx1 & Hx2).
      apply String.eqb_eq in Hx2. now subst.
    + intros name Hin Hdot. specialize (Es name Hin).
      now rewrite Hdot in Es.
  - destruct (S_ISREG (st_mode st1)).
    + apply andb_prop in Hk. destruct Hk as [E Hl].
      apply andb_prop in E. destruct E as [Esz Emt].
      apply Z.eqb_eq in Esz, Emt. do 2 (split; [assumption|]).
      intros Hn. rewrite Hn in Hl. cbn [negb orb] in Hl.
      now apply Z.eqb_eq in Hl.
    + destruct (S_ISLNK (st_mode st1)).
      * destruct (os_readlink os SrcHost sp w) as [t1|]; [|discriminate].
        destruct (os_readlink os DstHost dp w) as [t2|]; [|discriminate].
        exists t1, t2. auto.
      * destruct (S_ISCHR (st_mode st1) || S_ISBLK (st_mode st1));
          [now apply Z.eqb_eq|exact I].
Qed.

(** What the induction gives for the calls on the children. *)
Local Abbreviation settled rec n :=
  (forall sp dp sd dd (s : state W),
      mirrors os (world s) dino n sp dp = true ->
      paired dino (hltable s) ->
      exists s', rec sp (Some dp) sd dd s = Some (0, s') /\
                 quiet s s' /\ paired dino (hltable s')).

Lemma copy_each_mirror (rec : string -> option string -> Z -> Z -> M W Z)
    (n : nat) (spath dp : string) (sdevNo ddevNo : Z) :
  settled rec n ->
  forall names (s : state W),
    (forall name, In name names ->
                  mirrors os (world s) dino n (child spath name)
                          (child dp name) = true) ->
    paired dino (hltable s) ->
    exists s',
      copy_each rec spath (Some dp) sdevNo ddevNo names 0 s = Some (0, s') /\
      quiet s s' /\ paired dino (hltable s').
Proof.
  intros IH. induction names as [|name rest IHn]; intros s Hm Hp.
  - exists s. split; [reflexivity|]. split; [apply quiet_refl|exact Hp].
  - cbn [copy_each]. rewrite bind_run.
    destruct (IH (child spath name) (child dp name) sdevNo ddevNo s
                 (Hm name (or_introl eq_refl)) Hp) as (s1 & E1 & Q1 & P1).
    rewrite E1. change (int32 (0 + 0)) with 0.
    destruct (IHn s1) as (s2 & E2 & Q2 & P2).
    + intros nm Hin. destruct Q1 as [-> _]. apply Hm. now right.
    + exact P1.
    + exists s2. split; [exact E2|]. split; [quiets|exact P2].
Qed.

Lemma copy_directory_mirror
    (rec : string -> option string -> Z -> Z -> M W Z)
    (prune : string -> Z -> M W unit) (n : nat) (spath dp : string)
    (sdevNo ddevNo : Z) (st1 st2 : stat) (ents dents : list string)
    (s : state W) :
  settled rec n ->
  S_ISDIR (st_mode st1) = true ->
  st_mode st1 = st_mode st2 ->
  st_flags st1 = st_flags st2 ->
  st_uid st1 = st_uid st2 ->
  st_gid st1 = st_gid st2 ->
  (Z.land (st_mode st2) 0x1C0 =? 0x1C0) = true ->
  os_opendir os SrcHost spath (world s) = Some ents ->
  os_opendir os DstHost dp (world s) = Some dents ->
  (forall name, In name dents -> is_dot name = false -> In name ents) ->
  (forall name, In name ents -> is_dot name = false ->
                mirrors os (world s) dino n (child spath name)
                        (child dp name) = true) ->
  paired dino (hltable s) ->
  exists s',
    copy_directory os opt rec prune spath (Some dp) sdevNo ddevNo
                   st1 st2 true 0 0 InitList s = Some (0, s') /\
    quiet s s' /\ paired dino (hltable s').
Proof.
  intros IH Hdir Hm Hf Hu Hg Hx Ho Hod Hsub Hch Hp.
  unfold copy_directory. change (0 <? 0) with false. cbn [when].
  rewrite !bind_run. cbn [ret]. rewrite bind_run.
  unfold hc_opendir at 1. rewrite Ho.
  set (s1 := add_event _ s).
  assert (I1 : idle s s1) by (subst s1; idles).
  rewrite bind_run.
  destruct (dir_prepare_idle spath dp st1 st2 0 s1) as (s2 & E2 & I2).
  { now rewrite <- Hm. }
  { exact Hx. }
  rewrite E2.
  assert (I02 : idle s s2) by idles.
  set (c1 := (0 <=? int32 sdevNo) && negb (st_dev st1 =? sdevNo)).
  set (c2 := (0 <=? int32 ddevNo) && negb (st_dev st2 =? ddevNo)).
  destruct (load_ignores_idle spath s2) as (lst & s3 & E3 & I3 & Hn3).
  assert (I03 : idle s s3) by idles.
  assert (Hfix : forall st : state W, idle s st ->
            (ddir <- hc_opendir os DstHost dp ;;
             match ddir with
             | Some _ => ret tt
             | None => ret tt
             end ;;
             dir_fixup os opt dp st1 st2 true) st =
            Some (tt, add_event (EvOpendir DstHost dp (Some dents)) st)).
  { intros st Hst. rewrite !bind_run. unfold hc_opendir.
    rewrite (idle_world _ _ Hst), Hod. rewrite bind_run. cbn [ret].
    now rewrite dir_fixup_idle. }
  destruct c1, c2; cbv iota beta; rewrite bind_run, E3, bind_run.
  4:{ (* both directories are on the devices of the call *)
    change (0 =? 0) with true. cbv iota.
    rewrite src_loop_picked, bind_run.
    match goal with
    | |- context [copy_each rec spath (Some dp) ?sd ?dd ?names 0 s3] =>
        destruct (copy_each_mirror rec n spath dp sd dd IH names s3)
          as (s4 & E4 & Q4 & P4)
    end.
    { intros name Hin. apply picked_In in Hin. destruct Hin as [Hi Hd].
      rewrite (idle_world _ _ I03). now apply Hch. }
    { destruct I03 as [_ ->]. exact Hp. }
    rewrite E4. cbn [ret]. rewrite !bind_run. unfold hc_opendir at 1.
    assert (W4 : world s4 = world s)
      by (destruct Q4 as [-> _]; apply (idle_world _ _ I03)).
    rewrite W4, Hod. rewrite !bind_run, dst_loop_picked.
    rewrite picked_known_nil.
    2:{ intros name Hin Hd. apply tag_all_known; auto. }
    cbn [for_each]. rewrite !bind_run. cbn [ret].
    rewrite dir_fixup_idle by assumption.
    eexists. split; [reflexivity|]. split.
    - eapply quiet_trans; [|apply idle_quiet, idle_event; reflexivity].
      quiets.
    - exact P4. }
  all: change (1 =? 0) with false; cbv iota; cbn [ret];
    rewrite bind_run, (Hfix s3 I03); cbn [ret];
    (eexists; split; [reflexivity|]; split; [quiets|]);
    cbn [hltable add_event]; destruct I03 as [_ ->]; exact Hp.
Qed.

Lemma DoCopy_mirror (fuel : nat) :
  forall n, (n <= fuel)%nat -> settled (DoCopy os opt junk fuel) n.
Proof.
  induction fuel as [|fuel IH]; intros n Hle spath dp sdevNo ddevNo s Hm Hp.
  { destruct n; [discriminate|lia]. }
  destruct n as [|n]; [discriminate|].
  apply mirrors_inv in Hm.
  destruct Hm as (st1 & st2 & H1 & H2 & Em & Ef & Eu & Eg & Hk).
  cbn [DoCopy]. rewrite bind_run, (stat_both_valid _ _ _ _ _ _ _ H1 H2).
  set (s0 := add_event _ (add_event _ s)).
  assert (I0 : idle s s0) by (subst s0; idles).
  assert (P0 : paired dino (hltable s0)) by exact Hp.
  assert (W0 : world s0 = world s) by reflexivity.
  clearbody s0. rewrite bind_run.
  destruct (S_ISREG (st_mode st1)) eqn:Ereg.
  - (* a regular file *)
    destruct (S_ISREG_not_dir_link _ Ereg) as [_ Edir].
    rewrite Edir in Hk. destruct Hk as (Esz & Emt & Hino).
    assert (Hnc : forall hln st, exists s' evs,
               nochange_check os opt spath (Some dp) st1 st2 true hln
                              (file_size st1) st = Some (Return 0, s') /\
               world s' = after_checks os opt spath dp st1 (world st) /\
               hltable s' = match hln with
                            | Some h => hlt_modify h (hl_set_dino (st_ino st2))
                                                   (hltable st)
                            | None => hltable st
                            end /\
               counts s' = add_SourceItems 1
                             (add_SourceBytes (file_size st1) (counts st)) /\
               events s' = (events st ++ evs)%list /\
               Forall (fun e => is_sys e = false) evs).
    { intros hln st.
      apply nochange_check_unchanged; auto; intros Hne; contradiction. }
    assert (Hq : forall st st' evs,
               world st' = after_checks os opt spath dp st1 (world st) ->
               counts st' = add_SourceItems 1
                              (add_SourceBytes (file_size st1) (counts st)) ->
               events st' = (events st ++ evs)%list ->
               Forall (fun e => is_sys e = false) evs ->
               quiet st st').
    { intros st st' evs Hw Hc He Hf. unfold after_checks, after_md5 in Hw.
      rewrite fsmid_off, md5_off in Hw. change (0 =? 0) with true in Hw.
      repeat split; [exact Hw|now rewrite Hc|now rewrite Hc|eauto]. }
    destruct (1 <? st_nlink st1) eqn:En.
    + destruct (hltlookup_ino (st_ino st1) (hltable s0)) as [found|] eqn:Ef0.
      * (* a later name *)
        destruct (hardlink_probe_paired spath dp st1 st2 found s0
                    Ereg En Ef0 P0 (Hino eq_refl)) as (s1 & E1 & Q1 & P1).
        rewrite E1. exists s1. split; [reflexivity|]. split; [quiets|exact P1].
      * (* the first name *)
        rewrite hardlink_probe_first by (intros _; exact Ef0).
        rewrite Ereg, En. cbn [andb]. unfold DoCopy_tail. rewrite bind_run.
        match goal with
        | |- context [nochange_check _ _ _ _ _ _ _ ?h _ ?st] =>
            destruct (Hnc h st) as (s1 & evs & E1 & Hw & Ht & Hc & He & Hf)
        end.
        rewrite E1. exists s1. split; [reflexivity|]. split.
        -- eapply quiet_trans; [apply idle_quiet; exact I0|].
           eapply quiet_trans; [apply quiet_table|].
           eapply Hq; eassumption.
        -- rewrite Ht. cbn [hltable upd_hltable].
           rewrite (Hino eq_refl). now apply paired_first.
    + (* a single name *)
      rewrite hardlink_probe_first by (rewrite Ereg, En; discriminate).
      rewrite Ereg, En. cbn [andb]. unfold DoCopy_tail. rewrite bind_run.
      destruct (Hnc None s0) as (s1 & evs & E1 & Hw & Ht & Hc & He & Hf).
      rewrite E1. exists s1. split; [reflexivity|]. split.
      * eapply quiet_trans; [apply idle_quiet; exact I0|].
        eapply Hq; eassumption.
      * now rewrite Ht.
  - (* anything else *)
    rewrite hardlink_probe_first by (rewrite Ereg; discriminate).
    rewrite Ereg. cbn [andb]. unfold DoCopy_tail. rewrite bind_run.
    destruct (nochange_check_idle spath dp st1 st2 (file_size st1) s0 Ereg)
      as (out & s1 & E1 & I1 & Hout).
    rewrite E1.
    assert (I01 : idle s s1) by idles.
    assert (P1 : paired dino (hltable s1))
      by (destruct I01 as [_ ->]; exact Hp).
    destruct Hout as [-> | ->].
    { exists s1. split; [reflexivity|]. split; [quiets|exact P1]. }
    rewrite bind_run, (conflict_check_same_type _ _ _ _ _ _ _ _ Em).
    unfold dispatch.
    destruct (S_ISDIR (st_mode st1)) eqn:Edir.
    + (* a directory *)
      destruct Hk as (Hx & ents & dents & Ho & Hod & Hsub & Hch).
      destruct (copy_directory_mirror (DoCopy os opt junk fuel)
                  (RemoveRecur os opt fuel) n spath dp sdevNo ddevNo
                  st1 st2 ents dents s1) as (s2 & E2 & Q2 & P2); auto.
      * apply IH. lia.
      * now rewrite (idle_world _ _ I01).
      * now rewrite (idle_world _ _ I01).
      * rewrite (idle_world _ _ I01). exact Hch.
      * exists s2. split; [exact E2|]. split; [quiets|exact P2].
    + rewrite Ereg. destruct (S_ISLNK (st_mode st1)).
      * destruct Hk as (t1 & t2 & Hr1 & Hr2 & Heq).
        destruct (copy_symlink_idle spath dp st1 st2 t1 t2 s1)
          as (s2 & E2 & I2); auto;
          try (rewrite (idle_world _ _ I01); assumption).
        exists s2. split; [exact E2|]. split; [quiets|].
        destruct I2 as [_ ->]. exact P1.
      * destruct (S_ISCHR (st_mode st1) || S_ISBLK (st_mode st1)).
        -- destruct (copy_device_idle dp st1 st2 s1) as (s2 & E2 & I2); auto.
           exists s2. split; [exact E2|]. split; [quiets|].
           destruct I2 as [_ ->]. exact P1.
        -- exists s1. split; [reflexivity|]. split; [quiets|exact P1].
Qed.

End Mirror.

(** C3: the second of two runs copies again when the source directory
    lists [a.tmp] before [a] (default options, nothing at the
    destination).  The first run copies [a.tmp] and then writes [a]
    through the temporary [d/a.tmp], which removes the copy just made;
    the second run on the result copies [a.tmp] again: one item is
    counted as copied, where the description asks for none. *)
Lemma second_run_copies_again :
  option_map
    (fun x => (fst x, CountCopiedItems (counts (snd x)),
               List.filter is_sys (events (snd x))))
    (Scenarios.rerun MemFS.defaults
       (Scenarios.run MemFS.defaults Scenarios.shadowed_temporary))
  = Some (0, 1,
          [EvSys (sys_open SrcHost "s/a.tmp" 0 0) 7;
           EvSys (sys_open DstHost "d/a.tmp.tmp" 2561 384) 8;
           EvSys (sys_write DstHost 8 "xyz") 3;
           EvSys (sys_close DstHost 8) 0;
           EvSys (sys_utimes DstHost "d/a.tmp.tmp" 50 50) 0;
           EvSys (sys_chown DstHost "d/a.tmp.tmp" 0 0) 0;
           EvSys (sys_chmod DstHost "d/a.tmp.tmp" 33188) 0;
           EvSys (sys_rename DstHost "d/a.tmp.tmp" "d/a.tmp") 0;
           EvSys (sys_close SrcHost 7) 0]).
Proof. vm_compute. reflexivity. Qed.

(** With force mode on, every run copies every regular file again, as
    the option asks. *)
Example forced_second_run_copies :
  option_map
    (fun x => (fst x, CountCopiedItems (counts (snd x))))
    (Scenarios.rerun Scenarios.forced
       (Scenarios.run Scenarios.forced Scenarios.stale_entry))
  = Some (0, 2).
Proof. vm_compute. reflexivity. Qed.

(** X25: a run on a destination that already mirrors the source (see
    [mirrors]), started with an empty hardlink table, with force mode
    and the digest and content-id checks off and enough fuel for the
    depth of the tree, exits with code 0, leaves the copied-items and
    removed-items counters as they were and issues no status-returning
    call on either host: it only looks and logs. *)
Theorem replicating_a_mirror_is_idle {W : Type} (os : HostOps W)
    (opt : Options) (junk : stat) (dino : Z -> Z) (sizeof_stat : Z)
    (fuel n : nat) (src dst : string) (s : state W) :
  ForceOpt opt = 0 ->
  UseMD5Opt opt = 0 ->
  UseFSMIDOpt opt = 0 ->
  hltable s = ∅ ->
  (n <= fuel)%nat ->
  mirrors os (world s) dino n src dst = true ->
  exists s' evs,
    cpdup_main os opt junk sizeof_stat fuel src (Some dst) s
      = Some (0, s') /\
    CountCopiedItems (counts s') = CountCopiedItems (counts s) /\
    CountRemovedItems (counts s') = CountRemovedItems (counts s) /\
    events s' = (events s ++ evs)%list /\
    Forall (fun e => is_sys e = false) evs.
Proof.
  intros Hforce Hmd5 Hfsmid Ht Hle Hm.
  assert (Hp : paired dino (hltable s)) by (rewrite Ht; apply paired_empty).
  destruct (DoCopy_mirror os (with_DstBaseLen (String.length dst) opt) junk
              dino Hforce Hmd5 Hfsmid fuel n Hle src dst dev_none dev_none
              s Hm Hp) as (s1 & E1 & (Hw & Hc & Hr & evs & He & Hq) & _).
  unfold cpdup_main. rewrite bind_run, E1, bind_run. cbn [flush].
  rewrite bind_run. change (0 =? 0) with true. rewrite andb_true_r.
  destruct (truthy (SummaryOpt opt)).
  - rewrite bind_run. cbn [count logstd emit ret].
    eexists _, (evs ++ _)%list. split; [reflexivity|].
    cbn [counts events upd_counts add_event].
    split; [exact Hc|]. split; [exact Hr|].
    split; [rewrite He, <- app_assoc; reflexivity|].
    apply Forall_app. split; [exact Hq|]. now repeat constructor.
  - cbn [ret]. eexists _, evs. split; [reflexivity|].
    cbn [counts events]. auto.
Qed.

Lemma replicating_a_mirror_is_idle_witness :
  exists s' evs,
    cpdup_main MemFS.ops MemFS.defaults MemFS.no_junk 120 10 "s" (Some "d")
               (MemFS.start Scenarios.mixed_mirror []) = Some (0, s') /\
    CountCopiedItems (counts s') = 0 /\
    CountRemovedItems (counts s') = 0 /\
    events s' = ([] ++ evs)%list /\
    Forall (fun e => is_sys e = false) evs.
Proof.
  apply (replicating_a_mirror_is_idle MemFS.ops MemFS.defaults MemFS.no_junk
           (fun _ => 1001) 120 10 3 "s" "d"
           (MemFS.start Scenarios.mixed_mirror [])).
  - reflexivity.
  - reflexivity.
  - reflexivity.
  - reflexivity.
  - lia.
  - vm_compute. reflexivity.
Defined.

(** * Further properties of the code *)

(** ** WildCmp *)

(** X1: [WildCmp] returns 0 or -1 and nothing else. *)
Theorem WildCmp_zero_or_minus_one (w s : string) :
  WildCmp w s = 0 \/ WildCmp w s = -1.
Proof.
  revert s. induction w as [|c w1 IH]; intros s.
  - destruct s; [now left|now right].
  - destruct (Ascii.eqb_spec c "*") as [->|Hs].
    + rewrite WildCmp_star_eq. destruct w1 as [|a w2]; [now left|].
      induction s as [|d s IHs]; cbn [star_scan].
      * destruct (_ =? 0); [now left|now right].
      * destruct (_ =? 0); [now left|exact IHs].
    + destruct (Ascii.eqb_spec c "?") as [->|Hq].
      * rewrite WildCmp_any_eq. destruct s; [now right|apply IH].
      * rewrite WildCmp_lit_eq by assumption.
        destruct s as [|d s]; [now right|].
        destruct (Ascii.eqb c d); [apply IH|now right].
Qed.

Lemma plain_cons (c : ascii) (w : string) :
  plain (String c w) = true ->
  c <> "*"%char /\ c <> "?"%char /\ plain w = true.
Proof.
  cbn [plain]. intros H.
  apply andb_prop in H. destruct H as [H Hw].
  apply andb_prop in H. destruct H as [Hs Hq].
  apply negb_true_iff in Hs, Hq.
  apply Ascii.eqb_neq in Hs, Hq. auto.
Qed.

(** X2: a pattern without [*] and [?] matches itself and no other
    string. *)
Theorem WildCmp_plain_pattern (w s : string) :
  plain w = true -> (WildCmp w s = 0 <-> s = w).
Proof.
  revert s. induction w as [|c w1 IH]; intros s Hp.
  - destruct s; split; intros H; try reflexivity; discriminate.
  - apply plain_cons in Hp. destruct Hp as (Hs & Hq & Hw).
    rewrite WildCmp_lit_eq by assumption.
    destruct s as [|d s]; [split; discriminate|].
    destruct (Ascii.eqb_spec c d) as [->|Hne].
    + rewrite (IH s Hw). split; [now intros ->|now intros [= ->]].
    + split; [discriminate|]. intros [= -> _]. contradiction.
Qed.

Lemma WildCmp_plain_pattern_witness :
  WildCmp ".cpignore" "core" = 0 <-> "core" = ".cpignore".
Proof. apply (WildCmp_plain_pattern ".cpignore" "core"). reflexivity. Defined.

Lemma str_app_assoc (a b c : string) : (a ++ b) ++ c = a ++ (b ++ c).
Proof.
  induction a as [|x a IH]; [reflexivity|].
  rewrite !str_app_cons. now rewrite IH.
Qed.

Lemma wild_match_app (w1 s1 w2 s2 : string) :
  wild_match w1 s1 -> wild_match w2 s2 -> wild_match (w1 ++ w2) (s1 ++ s2).
Proof.
  intros H1 H2.
  induction H1 as [|w s c _ IH|w run s _ IH|w s c Hs Hq _ IH].
  - now rewrite !str_app_nil_l.
  - rewrite !str_app_cons. now constructor.
  - rewrite str_app_cons, str_app_assoc. now constructor.
  - rewrite !str_app_cons. now constructor.
Qed.

(** X3: patterns compose: when [w1] matches [s1] and [w2] matches [s2],
    the pattern [w1] followed by [w2] matches [s1] followed by [s2]. *)
Theorem WildCmp_concatenation (w1 s1 w2 s2 : string) :
  WildCmp w1 s1 = 0 -> WildCmp w2 s2 = 0 ->
  WildCmp (w1 ++ w2) (s1 ++ s2) = 0.
Proof.
  intros H1 H2. apply wild_match_sound.
  apply wild_match_app; now apply wild_match_complete.
Qed.

Lemma WildCmp_concatenation_witness :
  WildCmp ("a?c" ++ "*.o") ("abc" ++ "-main.o") = 0.
Proof.
  apply (WildCmp_concatenation "a?c" "abc" "*.o" "-main.o"); reflexivity.
Defined.

(** ** shash *)

Lemma has_wild_shash_loop (s : string) :
  has_wild s = true -> forall hv, shash_loop s hv = 0.
Proof.
  induction s as [|c s IH]; [discriminate|].
  cbn [has_wild shash_loop]. intros H hv.
  destruct (is_wild_char c); [reflexivity|]. now apply IH.
Qed.

Lemma shash_loop_range (s : string) :
  forall hv, 0 <= shash_loop s hv < HSIZE.
Proof.
  induction s as [|c s IH]; intros hv; cbn [shash_loop].
  - change HMASK with (Z.ones 14). rewrite Z.land_ones by lia.
    change HSIZE with (2 ^ 14). apply Z.mod_pos_bound. lia.
  - destruct (is_wild_char c); [unfold HSIZE; lia|apply IH].
Qed.

(** X4: [shash] always returns a bucket index, [0 <= hv < HSIZE], and it
    returns 0 for every name that holds one of the characters
    [* ? { } [ ] |], so that such names all live in the bucket that
    [AddList] scans for every name. *)
Theorem shash_bucket (s : string) :
  0 <= shash s < HSIZE /\ (has_wild s = true -> shash s = 0).
Proof.
  split; [apply shash_loop_range|].
  intros H. now apply has_wild_shash_loop.
Qed.

Lemma shash_bucket_witness :
  0 <= shash "*.o" < HSIZE /\ shash "*.o" = 0.
Proof.
  destruct (shash_bucket "*.o") as [Hr Hw].
  split; [exact Hr|]. apply Hw. reflexivity.
Defined.

(** ** AddList *)

(** X5: the first tag wins.  Once a name has been passed to [AddList]
    with a tag other than 1, a further call for that name with any tag
    other than 1 returns what the first call returned and leaves the list
    as it is. *)
Theorem AddList_first_tag_wins (lst : IgnList) (name : string) (n m : Z) :
  n <> 1 -> m <> 1 ->
  AddList (snd (AddList lst name n)) name m =
  (fst (AddList lst name n), snd (AddList lst name n)).
Proof.
  intros Hn Hm. rewrite (AddList_find_tag lst name n).
  destruct (find_tag lst name n) as [v|] eqn:E; cbn [fst snd].
  - rewrite AddList_find_tag, (find_tag_any_tag lst name m n Hm Hn), E.
    reflexivity.
  - rewrite AddList_find_tag.
    rewrite (find_tag_any_tag _ name m 3 Hm) by discriminate.
    rewrite find_tag_insert_same; [reflexivity|].
    now rewrite <- (find_tag_any_tag lst name n 3 Hn) by discriminate.
Qed.

Lemma AddList_first_tag_wins_witness :
  AddList (snd (AddList InitList "a" 0)) "a" 3 =
  (0, snd (AddList InitList "a" 0)).
Proof. apply (AddList_first_tag_wins InitList "a" 0 3); discriminate. Defined.

Lemma pattern_known (lst : IgnList) (node : Node) (name : string) :
  no_tag3 lst ->
  In node (li_Hash lst 0) ->
  no_Value node = 1 ->
  WildCmp (no_Name node) name = 0 ->
  known lst name.
Proof.
  intros Hn Hin Hv Hw. unfold known, find_tag.
  destruct (List.find _ (li_Hash lst 0)) as [nd|] eqn:E.
  - exists (no_Value nd). split; [reflexivity|].
    apply List.find_some in E. exact (Hn 0 nd (proj1 E)).
  - exfalso. apply (List.find_none _ _ E) in Hin.
    rewrite Hv, Hw in Hin. cbn in Hin.
    rewrite orb_true_r in Hin. discriminate.
Qed.

(** X6: an exclusion pattern shields destination entries.  When bucket 0
    of a list without tag 3 holds a pattern of tag 1 that matches a
    name, then, whatever source entries are tagged afterwards, the
    destination lookup [AddList ... name 3] does not return 3 (the entry
    is not pruned) and inserts nothing. *)
Theorem ignore_pattern_shields_destination (lst : IgnList) (node : Node)
    (name : string) (ents : list string) :
  no_tag3 lst ->
  In node (li_Hash lst 0) ->
  no_Value node = 1 ->
  WildCmp (no_Name node) name = 0 ->
  fst (AddList (tag_all 0 ents lst) name 3) <> 3 /\
  snd (AddList (tag_all 0 ents lst) name 3) = tag_all 0 ents lst.
Proof.
  intros Hn Hin Hv Hw.
  assert (Hk : known (tag_all 0 ents lst) name).
  { apply tag_all_known_stays; [discriminate|].
    eapply pattern_known; eassumption. }
  destruct Hk as (v & Ev & Hv3).
  rewrite AddList_find_tag, Ev. cbn [fst snd]. auto.
Qed.

Lemma ignore_pattern_shields_destination_witness :
  fst (AddList (tag_all 0 ["a.c"] (snd (AddList InitList "*.o" 1)))
               "a.o" 3) <> 3 /\
  snd (AddList (tag_all 0 ["a.c"] (snd (AddList InitList "*.o" 1)))
               "a.o" 3) =
  tag_all 0 ["a.c"] (snd (AddList InitList "*.o" 1)).
Proof.
  apply (ignore_pattern_shields_destination
           (snd (AddList InitList "*.o" 1)) (mkNode "*.o" 1) "a.o" ["a.c"]).
  - apply no_tag3_AddList; [discriminate|apply InitList_no_tag3].
  - vm_compute. now left.
  - reflexivity.
  - reflexivity.
Defined.

Lemma In_AddList (lst : IgnList) (other : string) (n hv : Z) (nd : Node) :
  In nd (li_Hash (snd (AddList lst other n)) hv) ->
  In nd (li_Hash lst hv) \/ nd = mkNode other n.
Proof.
  rewrite AddList_find_tag.
  destruct (find_tag lst other n); cbn [snd]; [now left|].
  rewrite li_Hash_insert.
  destruct (decide (shash other = hv)) as [<-|_]; [|now left].
  intros [<-|H]; [now right|now left].
Qed.

Lemma AddList_keeps_nodes (lst : IgnList) (other : string) (n hv : Z)
    (nd : Node) :
  In nd (li_Hash lst hv) -> In nd (li_Hash (snd (AddList lst other n)) hv).
Proof.
  rewrite AddList_find_tag.
  destruct (find_tag lst other n); cbn [snd]; [auto|].
  rewrite li_Hash_insert.
  destruct (decide (shash other = hv)) as [<-|_]; [|auto].
  intros H. now right.
Qed.

Lemma pattern_hit (lst : IgnList) (node : Node) (name : string) :
  In node (li_Hash lst 0) ->
  no_Value node = 1 ->
  WildCmp (no_Name node) name = 0 ->
  (forall hv nd, In nd (li_Hash lst hv) ->
                 no_Value nd = 1 \/ no_Name nd <> name) ->
  AddList lst name 0 = (1, lst).
Proof.
  intros Hin Hv Hw Hall. unfold AddList.
  destruct (List.find _ (li_Hash lst 0)) as [nd|] eqn:E.
  - apply List.find_some in E. destruct E as [Ei Ep].
    destruct (Hall 0 nd Ei) as [H1|Hne]; [now rewrite H1|].
    destruct (String.eqb_spec name (no_Name nd)) as [->|_];
      [contradiction|].
    cbn [orb negb andb] in Ep.
    apply andb_prop in Ep. destruct Ep as [Ep _].
    apply Z.eqb_eq in Ep. now rewrite Ep.
  - exfalso. apply (List.find_none _ _ E) in Hin.
    rewrite Hv, Hw in Hin. cbn in Hin.
    rewrite orb_true_r in Hin. discriminate.
Qed.

(** X7: an exclusion pattern hides source entries.  In a list whose
    nodes all carry tag 1 (as the exclusion file leaves it), with a
    pattern in bucket 0 that matches a name: after any other source
    entries have been tagged, [AddList ... name 0] returns 1, so the
    entry is skipped, and the list is unchanged. *)
Theorem ignore_pattern_hides_source (lst : IgnList) (node : Node)
    (name : string) (pre : list string) :
  (forall hv nd, In nd (li_Hash lst hv) -> no_Value nd = 1) ->
  In node (li_Hash lst 0) ->
  WildCmp (no_Name node) name = 0 ->
  ~ In name pre ->
  AddList (tag_all 0 pre lst) name 0 = (1, tag_all 0 pre lst).
Proof.
  intros Hall Hin Hw Hpre.
  assert (Hv : no_Value node = 1) by exact (Hall 0 node Hin).
  assert (Hinv : forall hv nd, In nd (li_Hash lst hv) ->
                               no_Value nd = 1 \/ no_Name nd <> name)
    by (intros hv nd H; left; eauto).
  clear Hall. revert lst Hin Hinv.
  induction pre as [|e rest IH]; intros lst Hin Hinv; cbn [tag_all].
  - now apply pattern_hit with (node := node).
  - assert (Hrest : ~ In name rest) by (intros H; apply Hpre; now right).
    destruct (is_dot e); [now apply IH|].
    apply IH; [exact Hrest|now apply AddList_keeps_nodes|].
    intros hv nd H. apply In_AddList in H. destruct H as [H| ->].
    + eauto.
    + right. cbn [no_Name]. intros ->. apply Hpre. now left.
Qed.

Lemma ignore_pattern_hides_source_witness :
  AddList (tag_all 0 ["a.c"; "b.c"] (snd (AddList InitList "*.o" 1)))
          "a.o" 0 =
  (1, tag_all 0 ["a.c"; "b.c"] (snd (AddList InitList "*.o" 1))).
Proof.
  apply (ignore_pattern_hides_source
           (snd (AddList InitList "*.o" 1)) (mkNode "*.o" 1) "a.o"
           ["a.c"; "b.c"]).
  - intros hv nd H. apply In_AddList in H.
    destruct H as [H| ->]; [|reflexivity].
    unfold li_Hash, InitList in H. rewrite lookup_empty in H. destruct H.
  - vm_compute. now left.
  - reflexivity.
  - cbn [In]. intros [H|[H|[]]]; discriminate.
Defined.

(** ** The hardlink table *)

(** X8: what [hltadd] enters is what [hltlookup] finds: the new entry
    has the inode and the path given, destination inode 0 and count 1;
    every other inode, in the same bucket or not, is looked up as
    before. *)
Theorem hltlookup_after_hltadd (i j : Z) (p : string) (t : hltab) :
  hltlookup_ino j (hltadd_ino i p t) =
  if j =? i then Some (mkhlink i 0 1 p) else hltlookup_ino j t.
Proof.
  destruct (Z.eqb_spec j i) as [->|Hne].
  - apply lookup_add_same.
  - now apply lookup_add_other.
Qed.

(** X9: [hltdelete] of the entry that [hltadd] has just made undoes it:
    every inode is looked up as before the two calls, also an older
    entry for the same inode that the new one had shadowed. *)
Theorem hltdelete_undoes_hltadd (i j : Z) (p : string) (t : hltab) :
  hltlookup_ino j (hltdelete_ino i (hltadd_ino i p t)) = hltlookup_ino j t.
Proof.
  unfold hltlookup_ino, hltdelete_ino, hltadd_ino.
  rewrite !hl_chain_insert.
  destruct (decide (Z.land i HLMASK = Z.land i HLMASK)) as [_|N];
    [|congruence].
  cbn [chain_unlink hl_ino]. rewrite Z.eqb_refl.
  destruct (decide (Z.land i HLMASK = Z.land j HLMASK)) as [E|_];
    [now rewrite E|reflexivity].
Qed.

(** X10: in a table without duplicate inodes, [hltdelete] removes the
    entry of its inode and no other: the inode is no longer found, every
    other inode is found as before, and the table stays without
    duplicates. *)
Theorem hltdelete_removes_one (i : Z) (t : hltab) :
  hlt_wf t ->
  hltlookup_ino i (hltdelete_ino i t) = None /\
  (forall j, j <> i ->
             hltlookup_ino j (hltdelete_ino i t) = hltlookup_ino j t) /\
  hlt_wf (hltdelete_ino i t).
Proof.
  intros H. split; [now apply lookup_delete_same|].
  split; [intros j Hj; now apply lookup_delete_other|now apply wf_delete].
Qed.

Lemma hltdelete_removes_one_witness :
  hltlookup_ino 5 (hltdelete_ino 5 (hltadd_ino 8197 "d/b"
                                      (hltadd_ino 5 "d/a" ∅))) = None /\
  hltlookup_ino 8197 (hltdelete_ino 5 (hltadd_ino 8197 "d/b"
                                         (hltadd_ino 5 "d/a" ∅)))
  = Some (mkhlink 8197 0 1 "d/b").
Proof.
  destruct (hltdelete_removes_one 5
              (hltadd_ino 8197 "d/b" (hltadd_ino 5 "d/a" ∅)))
    as (Hn & Ho & _).
  - apply wf_add; [apply wf_add; [apply wf_empty|reflexivity]|].
    vm_compute. reflexivity.
  - split; [exact Hn|]. rewrite Ho by discriminate.
    vm_compute. reflexivity.
Defined.

(** ** xlink and YesNo *)

Lemma sys_inv {W : Type} (os : HostOps W) (c : syscall) (s s' : state W)
    (r : Z) :
  sys os c s = Some (r, s') ->
  exists e w,
    os_sys os c (world s) = (r, e, w) /\
    world s' = w /\
    errno s' = (if r <? 0 then e else errno s) /\
    counts s' = counts s /\
    stdin s' = stdin s /\
    events s' = (events s ++ [EvSys c r])%list.
Proof.
  unfold sys. destruct (os_sys os c (world s)) as [[r0 e] w].
  intros [= <- <-]. exists e, w. repeat split.
Qed.

(** X11: when [xlink] fails, the [errno] it leaves is the one a [link]
    call for the two paths has set together with the value returned, not
    one set by the [chflags] calls around the second attempt. *)
Theorem xlink_failure_errno {W : Type} (os : HostOps W) (src dst : string)
    (flags : Z) (s s' : state W) (r : Z) :
  xlink os src dst flags s = Some (r, s') ->
  r < 0 ->
  exists w, fst (os_sys os (sys_link DstHost src dst) w) = (r, errno s').
Proof.
  unfold xlink, hc_link, hc_chflags. intros H Hr.
  apply bind_inv in H. destruct H as (r1 & s1 & H1 & H).
  destruct (r1 <? 0) eqn:E1.
  2:{ injection H as <- _. apply Z.ltb_ge in E1. lia. }
  apply bind_inv in H. destruct H as (r2 & s2 & _ & H).
  apply bind_inv in H. destruct H as (r3 & s3 & H3 & H).
  apply bind_inv in H. destruct H as (e & s4 & H4 & H).
  injection H4 as <- <-.
  apply bind_inv in H. destruct H as (r5 & s5 & _ & H).
  apply bind_inv in H. destruct H as ([] & s6 & H6 & H).
  injection H6 as <-. injection H as <- <-.
  apply sys_inv in H3. destruct H3 as (e3 & w3 & E3 & _ & Ee & _).
  exists (world s2). rewrite E3. cbn [fst upd_errno errno].
  rewrite Ee. apply Z.ltb_lt in Hr. now rewrite Hr.
Qed.

Lemma xlink_failure_errno_witness :
  exists w,
    fst (os_sys MemFS.ops (sys_link DstHost "d/a" "d/b") w) = (-1, EMLINK).
Proof.
  pose (s := Scenarios.second_sighting (Scenarios.link_fails EMLINK)).
  pose (s' := snd (default (0, s) (xlink MemFS.ops "d/a" "d/b" 0 s))).
  apply (xlink_failure_errno MemFS.ops "d/a" "d/b" 0 s s' (-1)).
  - vm_compute. reflexivity.
  - lia.
Defined.

Lemma skip_line_app (line rest : list ascii) :
  Forall (fun c => c <> "010"%char) line ->
  skip_line (line ++ "010"%char :: rest) = rest.
Proof.
  induction 1 as [|c line Hc _ IH]; cbn [skip_line app].
  - reflexivity.
  - destruct (Ascii.eqb_spec c "010"); [contradiction|exact IH].
Qed.

(** X12: [YesNo] reads exactly one line: the answer is yes when the
    first character of the line is [y] or [Y] (an empty line is a no),
    and the input that is left is what follows the first newline. *)
Theorem YesNo_reads_one_line {W : Type} (path : string) (s : state W)
    (line rest : list ascii) :
  Forall (fun c => c <> "010"%char) line ->
  stdin s = (line ++ "010"%char :: rest)%list ->
  exists s',
    YesNo path s =
      Some (match line with
            | [] => false
            | c :: _ => Ascii.eqb c "y" || Ascii.eqb c "Y"
            end, s') /\
    stdin s' = rest.
Proof.
  intros Hl Hs. unfold YesNo. rewrite Hs, (skip_line_app _ _ Hl).
  assert (Ha : match (line ++ "010"%char :: rest)%list with
               | [] => false
               | first :: _ => Ascii.eqb first "y" || Ascii.eqb first "Y"
               end =
               match line with
               | [] => false
               | c :: _ => Ascii.eqb c "y" || Ascii.eqb c "Y"
               end)
    by (destruct line; reflexivity).
  rewrite Ha. eexists. split; reflexivity.
Qed.

Lemma YesNo_reads_one_line_witness :
  exists s',
    YesNo "d/x"
      (MemFS.start Scenarios.with_mount
         ["Y"; "e"; "s"; "010"; "n"; "010"]%char) = Some (true, s') /\
    stdin s' = ["n"; "010"]%char.
Proof.
  apply (YesNo_reads_one_line "d/x"
           (MemFS.start Scenarios.with_mount
              ["Y"; "e"; "s"; "010"; "n"; "010"]%char)
           ["Y"; "e"; "s"]%char ["n"; "010"]%char).
  - repeat constructor; discriminate.
  - reflexivity.
Defined.

(** ** RemoveRecur without removal, and with confirmation *)

(** Break a computation into its calls, for the relation whose
    reflexivity and transitivity are given; [prim] closes the calls and
    simplifies the tests. *)
Ltac frame_with refl trans prim :=
  repeat first
    [ apply (keeps_ret _ refl)
    | apply (keeps_out_of_fuel _)
    | apply (keeps_get_errno _ refl)
    | apply (keeps_get_hltable _ refl)
    | prim
    | assumption
    | match goal with
      | H : forall _, _ |- keeps _ _ => apply H
      end
    | apply (keeps_when _ refl)
    | apply (keeps_for_each _ refl trans); intros ?
    | apply (keeps_bind _ trans); [|intros ?]
    | match goal with
      | |- keeps _ (if ?b then _ else _) => destruct b
      | |- keeps _ (match ?x with _ => _ end) => destruct x
      | |- keeps _ (let '(_, _) := ?x in _) => destruct x
      end
    | progress unfold logerr, logstd, hc_remove, hc_rmdir, hc_mkdir,
        hc_chown, hc_lchown, hc_chmod, hc_chflags, hc_utimes, hc_umask,
        hc_rename, hc_link, hc_symlink, mknod, hc_open, hc_write, hc_close ].

Section Logs.

Context {W : Type}.
Variable P : event -> Prop.

Lemma logs_refl (s : state W) : logs P s s.
Proof. exists []. split; [now rewrite app_nil_r|constructor]. Qed.

Lemma logs_trans (s1 s2 s3 : state W) :
  logs P s1 s2 -> logs P s2 s3 -> logs P s1 s3.
Proof.
  intros (e1 & E1 & F1) (e2 & E2 & F2). exists (e1 ++ e2)%list.
  split; [now rewrite E2, E1, app_assoc|now apply Forall_app].
Qed.

Lemma logs_event (e : event) (s : state W) : P e -> logs P s (add_event e s).
Proof. intros H. exists [e]. split; [reflexivity|now constructor]. Qed.

End Logs.

Section LooksOnly.

Context {W : Type}.
Variable os : HostOps W.
Variable opt : Options.

Lemma looks_only_refl (s : state W) : looks_only s s.
Proof. repeat split. apply logs_refl. Qed.

Lemma looks_only_trans (s1 s2 s3 : state W) :
  looks_only s1 s2 -> looks_only s2 s3 -> looks_only s1 s3.
Proof.
  intros (W1 & I1 & C1 & L1) (W2 & I2 & C2 & L2).
  repeat split; try congruence. eapply logs_trans; eassumption.
Qed.

Lemma looks_only_event (e : event) (s : state W) :
  is_sys e = false -> is_prompt e = false -> looks_only s (add_event e s).
Proof. intros H1 H2. repeat split. now apply logs_event. Qed.

Lemma look_lstat h p : keeps looks_only (hc_lstat os h p).
Proof. intros s a s' [= _ <-]. now apply looks_only_event. Qed.

Lemma look_opendir h p : keeps looks_only (hc_opendir os h p).
Proof. intros s a s' [= _ <-]. now apply looks_only_event. Qed.

Lemma look_logstd f a : keeps (W:=W) looks_only (emit (EvLogStd f a)).
Proof. intros s x s' [= _ <-]. now apply looks_only_event. Qed.

Lemma RemoveRecur_looks_only (fuel : nat) :
  NoRemoveOpt opt <> 0 ->
  forall dpath devNo,
    keeps looks_only (RemoveRecur os opt fuel dpath devNo).
Proof.
  intros Hno.
  assert (E1 : (NoRemoveOpt opt =? 0) = false) by now apply Z.eqb_neq.
  assert (E2 : truthy (NoRemoveOpt opt) = true)
    by (unfold truthy; now rewrite E1).
  induction fuel as [|fuel IH]; intros dpath devNo; cbn [RemoveRecur].
  - apply keeps_out_of_fuel.
  - frame_with (@looks_only_refl) (@looks_only_trans)
      ltac:(first [ apply look_lstat | apply look_opendir
                  | apply look_logstd
                  | progress rewrite ?E1, ?andb_false_r, ?E2 ]).
Qed.

End LooksOnly.

(** X13: with the no-remove option set, [RemoveRecur] only looks and
    logs: it issues no call at all (in particular no [remove] and no
    [rmdir]), asks nothing, leaves the input and both hosts as they are
    and counts nothing as removed. *)
Theorem RemoveRecur_no_remove_option {W : Type} (os : HostOps W)
    (opt : Options) (fuel : nat) (dpath : string) (devNo : Z)
    (s s' : state W) :
  NoRemoveOpt opt <> 0 ->
  RemoveRecur os opt fuel dpath devNo s = Some (tt, s') ->
  world s' = world s /\
  stdin s' = stdin s /\
  CountRemovedItems (counts s') = CountRemovedItems (counts s) /\
  exists evs,
    events s' = (events s ++ evs)%list /\
    Forall (fun e => is_sys e = false /\ is_prompt e = false) evs.
Proof.
  intros Hno H.
  exact (RemoveRecur_looks_only os opt fuel Hno dpath devNo s tt s' H).
Qed.

Lemma RemoveRecur_no_remove_option_witness :
  let s := MemFS.start Scenarios.with_mount [] in
  let s' := snd (default (tt, s)
                   (RemoveRecur MemFS.ops Scenarios.no_remove 5 "d/x" 1 s)) in
  world s' = world s /\
  stdin s' = stdin s /\
  CountRemovedItems (counts s') = CountRemovedItems (counts s) /\
  exists evs,
    events s' = (events s ++ evs)%list /\
    Forall (fun e => is_sys e = false /\ is_prompt e = false) evs.
Proof.
  intros s s'.
  apply (RemoveRecur_no_remove_option MemFS.ops Scenarios.no_remove 5
           "d/x" 1 s s').
  - discriminate.
  - vm_compute. reflexivity.
Defined.

Lemma asked_None_any (evs : list event) :
  asked None evs = true -> forall last, asked last evs = true.
Proof.
  destruct evs as [|e rest]; [reflexivity|].
  destruct e; cbn [asked]; auto.
  destruct (removal_path c); discriminate.
Qed.

Lemma asked_app (a b : list event) :
  forall last,
    asked last a = true -> asked None b = true ->
    asked last (a ++ b) = true.
Proof.
  induction a as [|e a IH]; intros last Ha Hb; cbn [app].
  - now apply asked_None_any.
  - destruct e; cbn [asked] in *; auto.
    + destruct (removal_path c); [|discriminate].
      destruct last; [|discriminate].
      apply andb_prop in Ha. destruct Ha as [-> Ha]. cbn [andb]. auto.
    + destruct answer; auto.
Qed.

Lemma asked_inv (evs : list event) :
  forall last pre c r post,
    asked last evs = true ->
    evs = (pre ++ EvSys c r :: post)%list ->
    (pre = [] /\ last = removal_path c /\ last <> None) \/
    exists pre' p,
      pre = (pre' ++ [EvYesNo p true])%list /\ removal_path c = Some p.
Proof.
  induction evs as [|e rest IH]; intros last pre c r post Ha He.
  - destruct pre; discriminate.
  - destruct pre as [|e0 pre1]; cbn [app] in He; injection He as -> ->.
    + left. cbn [asked] in Ha.
      destruct (removal_path c) as [q|]; [|discriminate].
      destruct last as [p|]; [|discriminate].
      apply andb_prop in Ha. destruct Ha as [Ha _].
      apply String.eqb_eq in Ha. subst. repeat split. discriminate.
    + right.
      assert (Hr : forall l, asked l (pre1 ++ EvSys c r :: post) = true ->
                  (pre1 = [] /\ l = removal_path c /\ l <> None) \/
                  exists pre' p,
                    pre1 = (pre' ++ [EvYesNo p true])%list /\
                    removal_path c = Some p)
        by (intros l Hl; eapply IH; [exact Hl|reflexivity]).
      assert (Hk : forall l,
                 asked l (pre1 ++ EvSys c r :: post) = true ->
                 (l = None \/ exists p, l = Some p /\ e0 = EvYesNo p true) ->
                 exists pre' p,
                   (e0 :: pre1 = pre' ++ [EvYesNo p true])%list /\
                   removal_path c = Some p).
      { intros l Hl Hl0. destruct (Hr l Hl) as [(-> & El & Hn)|(pre' & p & -> & Hp)].
        - destruct Hl0 as [->|(p & -> & ->)]; [contradiction|].
          exists [], p. split; [reflexivity|now symmetry].
        - exists (e0 :: pre'), p. split; [reflexivity|exact Hp]. }
      destruct e0; cbn [asked] in Ha;
        try (apply (Hk None Ha); now left).
      * destruct (removal_path c0); [|discriminate].
        destruct last; [|discriminate].
        apply andb_prop in Ha. destruct Ha as [_ Ha].
        apply (Hk None Ha). now left.
      * destruct answer.
        -- apply (Hk (Some path) Ha). right. now exists path.
        -- apply (Hk None Ha). now left.
Qed.

Section Confirms.

Context {W : Type}.
Variable os : HostOps W.
Variable opt : Options.

Lemma confirms_refl (s : state W) : confirms s s.
Proof. exists []. split; [now rewrite app_nil_r|reflexivity]. Qed.

Lemma confirms_trans (s1 s2 s3 : state W) :
  confirms s1 s2 -> confirms s2 s3 -> confirms s1 s3.
Proof.
  intros (e1 & E1 & A1) (e2 & E2 & A2). exists (e1 ++ e2)%list.
  split; [now rewrite E2, E1, app_assoc|now apply asked_app].
Qed.

Lemma confirms_lstat h p : keeps confirms (hc_lstat os h p).
Proof. intros s a s' [= _ <-]. now eexists [_]. Qed.

Lemma confirms_opendir h p : keeps confirms (hc_opendir os h p).
Proof. intros s a s' [= _ <-]. now eexists [_]. Qed.

(** The prompt, the removal it allows, and what follows the removal. *)
Lemma confirms_removal (c : syscall) (p f : string)
    (args : Z -> list logarg)
    (g : Counters -> Counters) :
  removal_path c = Some p ->
  keeps confirms
    (yes <- YesNo p ;;
     if yes : bool then
       (rc <- sys os c ;;
        e <- get_errno ;;
        when (rc <? 0) (logerr f (args e))) ;;
       count g
     else ret tt).
Proof.
  intros Hc s a s' H.
  apply bind_inv in H. destruct H as (yes & s1 & Hy & H).
  unfold YesNo in Hy. injection Hy as Ey <-.
  destruct yes.
  - apply bind_inv in H. destruct H as ([] & s2 & H & Hcount).
    injection Hcount as <- <-.
    apply bind_inv in H. destruct H as (rc & s3 & Hs & H).
    apply sys_inv in Hs. destruct Hs as (e & w & _ & _ & _ & _ & _ & E3).
    apply bind_inv in H. destruct H as (e4 & s4 & H4 & H).
    injection H4 as <- <-.
    cbn [events] in E3. rewrite Ey in E3.
    destruct (rc <? 0); cbn [when logerr emit ret] in H; injection H as <-;
      eexists; (split;
        [cbn [events upd_counts add_event]; rewrite E3, <- !app_assoc;
         reflexivity|]);
      cbn [app asked]; rewrite Hc, String.eqb_refl; reflexivity.
  - injection H as <- <-. eexists [_]. split; [reflexivity|].
    cbn [asked]. now rewrite Ey.
Qed.

End Confirms.

Section Confirmation.

Context {W : Type}.
Variable os : HostOps W.
Variable opt : Options.

Lemma RemoveRecur_confirms (fuel : nat) :
  AskConfirmation opt <> 0 ->
  NoRemoveOpt opt = 0 ->
  forall dpath devNo,
    keeps confirms (RemoveRecur os opt fuel dpath devNo).
Proof.
  intros Hask Hno.
  assert (E : truthy (AskConfirmation opt) && (NoRemoveOpt opt =? 0) = true).
  { unfold truthy. rewrite Hno. apply Z.eqb_neq in Hask. now rewrite Hask. }
  induction fuel as [|fuel IH]; intros dpath devNo; cbn [RemoveRecur].
  - apply keeps_out_of_fuel.
  - frame_with (@confirms_refl W) (@confirms_trans W)
      ltac:(first [ apply confirms_lstat | apply confirms_opendir
                  | progress rewrite ?E
                  | apply (confirms_removal os (sys_rmdir DstHost dpath)
                             dpath _ (fun e => [AStr dpath; AErr e]));
                    reflexivity
                  | apply (confirms_removal os (sys_remove DstHost dpath)
                             dpath _ (fun e => [AStr dpath; AErr e]));
                    reflexivity ]).
Qed.

End Confirmation.

(** X14: when confirmation is on (and the no-remove option is off),
    every call that [RemoveRecur] issues is a [remove] or an [rmdir] on
    the destination host that comes directly after a yes to the prompt
    for the very path it names: nothing is removed that the user has not
    just agreed to. *)
Theorem RemoveRecur_asks_first {W : Type} (os : HostOps W) (opt : Options)
    (fuel : nat) (dpath : string) (devNo : Z) (s s' : state W) :
  AskConfirmation opt <> 0 ->
  NoRemoveOpt opt = 0 ->
  RemoveRecur os opt fuel dpath devNo s = Some (tt, s') ->
  exists evs,
    events s' = (events s ++ evs)%list /\
    forall pre c r post,
      evs = (pre ++ EvSys c r :: post)%list ->
      exists pre' p,
        pre = (pre' ++ [EvYesNo p true])%list /\
        (c = sys_remove DstHost p \/ c = sys_rmdir DstHost p).
Proof.
  intros Hask Hno H.
  destruct (RemoveRecur_confirms os opt fuel Hask Hno dpath devNo s tt s' H)
    as (evs & E & Ha).
  exists evs. split; [exact E|].
  intros pre c r post He.
  destruct (asked_inv evs None pre c r post Ha He)
    as [(_ & Hl & Hn)|(pre' & p & Hp & Hc)].
  - exfalso. apply Hn. reflexivity.
  - exists pre', p. split; [exact Hp|].
    destruct c; try discriminate; destruct h; try discriminate;
      injection Hc as ->; auto.
Qed.

Lemma RemoveRecur_asks_first_witness :
  let s := MemFS.start Scenarios.stale_entry ["n"; "010"; "y"; "010"]%char in
  let s' := snd (default (tt, s)
                   (RemoveRecur MemFS.ops MemFS.defaults 5 "d" 1 s)) in
  List.filter (fun e => is_sys e || is_prompt e) (events s') =
    [EvYesNo "d/a" false; EvYesNo "d/x" true;
     EvSys (sys_remove DstHost "d/x") 0; EvYesNo "d" false] /\
  exists evs,
    events s' = (events s ++ evs)%list /\
    forall pre c r post,
      evs = (pre ++ EvSys c r :: post)%list ->
      exists pre' p,
        pre = (pre' ++ [EvYesNo p true])%list /\
        (c = sys_remove DstHost p \/ c = sys_rmdir DstHost p).
Proof.
  intros s s'. split; [vm_compute; reflexivity|].
  apply (RemoveRecur_asks_first MemFS.ops MemFS.defaults 5 "d" 1 s s').
  - discriminate.
  - reflexivity.
  - vm_compute. reflexivity.
Defined.

(** ** The copy of a regular file goes through a temporary *)

Section LogFrames.

Context {W : Type}.
Variable os : HostOps W.
Variable P : event -> Prop.

Lemma logs_sys (c : syscall) :
  (forall r, P (EvSys c r)) -> keeps (logs P) (sys os c).
Proof.
  intros H s r s' Hs. apply sys_inv in Hs.
  destruct Hs as (e & w & _ & _ & _ & _ & _ & E).
  exists [EvSys c r]. split; [exact E|]. constructor; [apply H|constructor].
Qed.

Lemma logs_read h fd n :
  (forall k, P (EvRead h fd k)) -> keeps (logs P) (hc_read os h fd n).
Proof.
  intros H s r s' Hs. unfold hc_read in Hs.
  destruct (os_read os h fd n (world s)) as [[k d] w].
  injection Hs as _ <-. eexists [_]. split; [reflexivity|].
  constructor; [apply H|constructor].
Qed.

Lemma logs_emit (e : event) : P e -> keeps (W:=W) (logs P) (emit e).
Proof. intros H s x s' [= _ <-]. now apply logs_event. Qed.

Lemma logs_count f : keeps (W:=W) (logs P) (count f).
Proof.
  intros s x s' [= _ <-]. exists [].
  split; [cbn; now rewrite app_nil_r|constructor].
Qed.

End LogFrames.

Section ViaTemp.

Context {W : Type}.
Variable os : HostOps W.
Variable opt : Options.
Variable dp : string.

Local Abbreviation tidy := (logs (W:=W) (fun e => via_temp dp e = true)).

Local Ltac named :=
  intros; cbn [via_temp];
  rewrite ?String.eqb_refl, ?orb_true_r; reflexivity.

Local Ltac tidy_prim :=
  first [ apply logs_sys; named
        | apply logs_read; named
        | apply logs_emit; named
        | apply logs_count ].

Lemma tidy_copy_loop (fuel : nat) :
  forall fd1 fd2, keeps tidy (copy_loop os fuel fd1 fd2).
Proof.
  induction fuel as [|fuel IH]; intros fd1 fd2; cbn [copy_loop].
  - apply keeps_out_of_fuel.
  - frame_with (logs_refl (W:=W) (fun e => via_temp dp e = true))
               (logs_trans (W:=W) (fun e => via_temp dp e = true))
               tidy_prim.
Qed.

Lemma tidy_xrename (flags : Z) :
  keeps tidy (xrename os (dp ++ ".tmp") dp flags).
Proof.
  unfold xrename.
  frame_with (logs_refl (W:=W) (fun e => via_temp dp e = true))
             (logs_trans (W:=W) (fun e => via_temp dp e = true))
             tidy_prim.
Qed.

Lemma tidy_copy_contents (fuel : nat) (spath : string) (st1 st2 : stat)
    (size r : Z) :
  keeps tidy (copy_contents os opt fuel spath dp st1 st2 size r).
Proof.
  unfold copy_contents.
  pose proof (tidy_copy_loop fuel) as Hl.
  pose proof tidy_xrename as Hx.
  frame_with (logs_refl (W:=W) (fun e => via_temp dp e = true))
             (logs_trans (W:=W) (fun e => via_temp dp e = true))
             tidy_prim.
Qed.

End ViaTemp.

(** X15: the copy of the contents of a regular file never opens, writes,
    truncates or removes the destination file itself.  On the destination
    host it creates, fills and adjusts the temporary [dp.tmp] and renames
    it to [dp]; apart from that rename only [chflags] names [dp]. *)
Theorem copy_contents_goes_through_temporary {W : Type} (os : HostOps W)
    (opt : Options) (fuel : nat) (spath dp : string) (st1 st2 : stat)
    (size r r' : Z) (s s' : state W) :
  copy_contents os opt fuel spath dp st1 st2 size r s = Some (r', s') ->
  exists evs,
    events s' = (events s ++ evs)%list /\
    Forall (fun e => via_temp dp e = true) evs.
Proof.
  intros H.
  exact (tidy_copy_contents os opt dp fuel spath st1 st2 size r s r' s' H).
Qed.

Lemma copy_contents_goes_through_temporary_witness :
  let s := MemFS.start Scenarios.stale_entry [] in
  let s' := snd (default (0, s)
                   (copy_contents MemFS.ops MemFS.defaults 3 "s/b" "d/b"
                      (MemFS.n_stat (MemFS.file 3 1 3 50 "xyz"))
                      MemFS.no_junk 3 0 s)) in
  MemFS.m_lstat DstHost "d/b" (world s') <> None /\
  exists evs,
    events s' = (events s ++ evs)%list /\
    Forall (fun e => via_temp "d/b" e = true) evs.
Proof.
  intros s s'. split; [vm_compute; discriminate|].
  apply (copy_contents_goes_through_temporary MemFS.ops MemFS.defaults 3
           "s/b" "d/b" (MemFS.n_stat (MemFS.file 3 1 3 50 "xyz"))
           MemFS.no_junk 3 0 0 s s').
  vm_compute. reflexivity.
Defined.

(** ** checkHLPath *)

(** X16: [checkHLPath] only ever proposes the file at the -H base plus
    the destination path without its first [DstBaseLen] characters, and
    only when [stat] finds it with the size, owner, group and time of the
    source; with force mode off that one [stat] is all it does. *)
Theorem checkHLPath_proposes_matching_file {W : Type} (os : HostOps W)
    (opt : Options) (fuel : nat) (hlbase spath dpath hp : string)
    (st1 : stat) (s s' : state W) :
  checkHLPath os opt fuel hlbase st1 spath dpath s = Some (Some hp, s') ->
  hp = hlbase ++ str_drop (DstBaseLen opt) dpath /\
  exists sthl,
    os_stat os DstHost hp (world s) = Some sthl /\
    st_size st1 = st_size sthl /\
    st_uid st1 = st_uid sthl /\
    st_gid st1 = st_gid sthl /\
    st_mtime st1 = st_mtime sthl /\
    (ForceOpt opt = 0 -> s' = add_event (EvStat DstHost hp (Some sthl)) s).
Proof.
  unfold checkHLPath. set (hpath := hlbase ++ _). intros H.
  apply bind_inv in H. destruct H as (r & s1 & Hst & H).
  unfold hc_stat in Hst. injection Hst as <- <-.
  destruct (os_stat os DstHost hpath (world s)) as [sthl|] eqn:Est;
    [|discriminate].
  destruct (negb (st_size st1 =? st_size sthl) ||
            negb (st_uid st1 =? st_uid sthl) ||
            negb (st_gid st1 =? st_gid sthl) ||
            negb (st_mtime st1 =? st_mtime sthl)) eqn:Ecmp; [discriminate|].
  apply orb_false_elim in Ecmp. destruct Ecmp as [Ecmp Emt].
  apply orb_false_elim in Ecmp. destruct Ecmp as [Ecmp Eg].
  apply orb_false_elim in Ecmp. destruct Ecmp as [Esz Eu].
  apply negb_false_iff, Z.eqb_eq in Esz, Eu, Eg, Emt.
  assert (Hhp : hp = hpath).
  { destruct (truthy (ForceOpt opt)).
    - apply bind_inv in H. destruct H as (fd1 & s2 & _ & H).
      apply bind_inv in H. destruct H as (fd2 & s3 & _ & H).
      apply bind_inv in H. destruct H as (good & s4 & _ & H).
      apply bind_inv in H. destruct H as (u1 & s5 & _ & H).
      apply bind_inv in H. destruct H as (u2 & s6 & _ & H).
      destruct good; injection H as H _; congruence.
    - injection H as H _. congruence. }
  subst hp. split; [reflexivity|].
  exists sthl. do 5 (split; [assumption|]).
  intros Hf. unfold truthy in H. rewrite Hf in H.
  change (negb (0 =? 0)) with false in H. cbv iota in H.
  now injection H as <-.
Qed.

Lemma checkHLPath_proposes_matching_file_witness :
  let s := MemFS.start Scenarios.beside_older_copy [] in
  let st1 := MemFS.n_stat (MemFS.file 2 1 5 100 "hello") in
  exists s',
    checkHLPath MemFS.ops Scenarios.with_base 3 "h" st1 "s/a" "d/a" s
      = Some (Some "h/a", s') /\
    exists sthl,
      os_stat MemFS.ops DstHost "h/a" (world s) = Some sthl /\
      st_size st1 = st_size sthl /\
      st_mtime st1 = st_mtime sthl.
Proof.
  intros s st1.
  pose (s' := snd (default (None, s)
                     (checkHLPath MemFS.ops Scenarios.with_base 3 "h" st1
                        "s/a" "d/a" s))).
  assert (E : checkHLPath MemFS.ops Scenarios.with_base 3 "h" st1
                "s/a" "d/a" s = Some (Some "h/a", s'))
    by (vm_compute; reflexivity).
  exists s'. split; [exact E|].
  destruct (checkHLPath_proposes_matching_file MemFS.ops Scenarios.with_base
              3 "h" "s/a" "d/a" "h/a" st1 s s' E)
    as (_ & sthl & Hst & Hsz & _ & _ & Hmt & _).
  exists sthl. auto.
Defined.

(** ** Directories on another device *)

Section Runs.

Context {W : Type}.
Variable os : HostOps W.
Variable opt : Options.

Lemma runs_ret {A : Type} (a : A) : runs (W:=W) (ret a).
Proof. intros s. discriminate. Qed.

Lemma runs_bind {A B : Type} (m : M W A) (k : A -> M W B) :
  runs m -> (forall a, runs (k a)) -> runs (bind m k).
Proof.
  intros Hm Hk s. rewrite bind_run.
  destruct (m s) as [[a s1]|] eqn:E; [apply Hk|].
  exfalso. exact (Hm s E).
Qed.

Lemma runs_when (b : bool) (m : M W unit) : runs m -> runs (when b m).
Proof. intros H. destruct b; [exact H|apply runs_ret]. Qed.

Lemma runs_sys (c : syscall) : runs (sys os c).
Proof. intros s. rewrite sys_run. discriminate. Qed.

Lemma runs_lstat h p : runs (hc_lstat os h p).
Proof. intros s. discriminate. Qed.

Lemma runs_opendir h p : runs (hc_opendir os h p).
Proof. intros s. discriminate. Qed.

Lemma runs_fgets p : runs (hc_fgets os p).
Proof. intros s. discriminate. Qed.

Lemma runs_fsmid id dp : runs (fsmid_check os id dp).
Proof.
  intros s. unfold fsmid_check.
  destruct (os_fsmid_check os id dp (world s)). discriminate.
Qed.

Lemma runs_md5 sp dp : runs (md5_check os sp dp).
Proof.
  intros s. unfold md5_check.
  destruct (os_md5_check os sp dp (world s)). discriminate.
Qed.

Lemma runs_emit e : runs (W:=W) (emit e).
Proof. intros s. discriminate. Qed.

Lemma runs_count f : runs (W:=W) (count f).
Proof. intros s. discriminate. Qed.

Lemma runs_get_errno : runs (W:=W) get_errno.
Proof. intros s. discriminate. Qed.

Lemma runs_modify_hltable f : runs (W:=W) (modify_hltable f).
Proof. intros s. discriminate. Qed.

End Runs.

(** Break a computation into its calls and see that each one returns. *)
Ltac runs_all :=
  repeat first
    [ apply runs_ret | apply runs_sys | apply runs_lstat | apply runs_opendir
    | apply runs_fgets | apply runs_fsmid | apply runs_md5 | apply runs_emit
    | apply runs_count | apply runs_get_errno | apply runs_modify_hltable
    | assumption
    | match goal with
      | H : forall _, _ |- runs _ => apply H
      end
    | apply runs_when
    | apply runs_bind; [|intros ?]
    | match goal with
      | |- runs (if ?b then _ else _) => destruct b
      | |- runs (match ?x with _ => _ end) => destruct x
      | |- runs (let '(_, _) := ?x in _) => destruct x
      end
    | progress unfold logerr, logstd, hc_remove, hc_rmdir, hc_mkdir,
        hc_chown, hc_lchown, hc_chmod, hc_chflags, hc_utimes, hc_umask,
        hc_rename, hc_link, hc_symlink, mknod, hc_open, hc_write, hc_close ].

Section MountPoint.

Context {W : Type}.
Variable os : HostOps W.
Variable opt : Options.
Variable junk : stat.

Lemma bind_ext {A B : Type} (m : M W A) (k1 k2 : A -> M W B) (s : state W) :
  (forall a s1, k1 a s1 = k2 a s1) -> bind m k1 s = bind m k2 s.
Proof.
  intros H. rewrite !bind_run. destruct (m s) as [[a s1]|]; [apply H|reflexivity].
Qed.

Lemma runs_cpignore_lines (bufs : list string) :
  forall lst, runs (W:=W) (cpignore_lines lst bufs).
Proof.
  induction bufs as [|buf rest IH]; intros lst; cbn [cpignore_lines].
  - apply runs_ret.
  - unfold cpignore_line. runs_all.
Qed.

Lemma runs_load_ignores (spath : string) (lst : IgnList) :
  runs (load_ignores os opt spath lst).
Proof.
  unfold load_ignores. pose proof runs_cpignore_lines as Hc. runs_all.
Qed.

Lemma runs_dir_prepare spath dpath st1 st2 r :
  runs (dir_prepare os opt spath dpath st1 st2 r).
Proof. unfold dir_prepare. runs_all. Qed.

Lemma runs_dir_fixup dp st1 st2 v : runs (dir_fixup os opt dp st1 st2 v).
Proof. unfold dir_fixup. runs_all. Qed.

Lemma runs_nochange_check spath dpath st1 st2 v hln size :
  runs (nochange_check os opt spath dpath st1 st2 v hln size).
Proof. unfold nochange_check. runs_all. Qed.

Lemma copy_directory_no_descent
    (rec rec' : string -> option string -> Z -> Z -> M W Z)
    (prune prune' : string -> Z -> M W unit)
    (spath : string) (dpath : option string) (sdevNo ddevNo : Z)
    (st1 st2 : stat) (v : bool) (r fres : Z) (lst : IgnList) (s : state W) :
  (0 <=? int32 sdevNo) && negb (st_dev st1 =? sdevNo) = true ->
  copy_directory os opt rec prune spath dpath sdevNo ddevNo st1 st2 v
                 r fres lst s =
  copy_directory os opt rec' prune' spath dpath sdevNo ddevNo st1 st2 v
                 r fres lst s.
Proof.
  intros Hc. unfold copy_directory. rewrite Hc.
  apply bind_ext. intros _ s1.
  apply bind_ext. intros [ents|] s2; [|reflexivity].
  apply bind_ext. intros [[st2' r'] noLoop] s3.
  destruct ((0 <=? int32 ddevNo) && negb (st_dev st2' =? ddevNo));
    apply bind_ext; intros lst1 s4;
    change (1 =? 0) with false; cbv iota; reflexivity.
Qed.

Lemma runs_copy_directory_no_descent
    (rec : string -> option string -> Z -> Z -> M W Z)
    (prune : string -> Z -> M W unit)
    (spath : string) (dpath : option string) (sdevNo ddevNo : Z)
    (st1 st2 : stat) (v : bool) (r fres : Z) (lst : IgnList) :
  (0 <=? int32 sdevNo) && negb (st_dev st1 =? sdevNo) = true ->
  runs (copy_directory os opt rec prune spath dpath sdevNo ddevNo st1 st2 v
                       r fres lst).
Proof.
  intros Hc. unfold copy_directory. rewrite Hc.
  apply runs_bind; [runs_all|intros _].
  apply runs_bind; [runs_all|intros [ents|]]; [|apply runs_ret].
  apply runs_bind; [apply runs_dir_prepare|intros [[st2' r'] noLoop]].
  pose proof runs_dir_fixup as Hf.
  destruct ((0 <=? int32 ddevNo) && negb (st_dev st2' =? ddevNo));
    (apply runs_bind; [apply runs_load_ignores|intros lst1]);
    change (1 =? 0) with false; cbv iota; runs_all.
Qed.

End MountPoint.

Section MountPointCall.

Context {W : Type}.
Variable os : HostOps W.
Variable opt : Options.
Variable junk : stat.

Lemma stat_both_source (spath : string) (dpath : option string)
    (st1 : stat) (s s1 : state W) (sb : option (stat * stat * bool)) :
  os_lstat os SrcHost spath (world s) = Some st1 ->
  stat_both os junk spath dpath s = Some (sb, s1) ->
  exists st2 v, sb = Some (st1, st2, v).
Proof.
  intros H1 H. unfold stat_both in H.
  apply bind_inv in H. destruct H as (l1 & s2 & Hl & H).
  unfold hc_lstat in Hl. injection Hl as <- <-. rewrite H1 in H.
  destruct dpath as [dp|].
  - apply bind_inv in H. destruct H as ([st2|] & s3 & _ & H);
      injection H as <- _; eauto.
  - injection H as <- _. eauto.
Qed.

Lemma runs_stat_both (spath : string) (dpath : option string) :
  runs (stat_both os junk spath dpath).
Proof. unfold stat_both. runs_all. Qed.

Lemma hardlink_probe_directory (spath : string) (dpath : option string)
    (st1 st2 : stat) (v : bool) (s : state W) :
  S_ISDIR (st_mode st1) = true ->
  hardlink_probe os opt spath dpath st1 st2 v 0 s
    = Some (Continue (0, None), s).
Proof.
  intros Hd. unfold hardlink_probe.
  rewrite (S_ISDIR_not_reg _ Hd). destruct dpath; reflexivity.
Qed.

Lemma conflict_check_directory (fuel : nat) (spath : string)
    (dpath : option string) (st1 st2 : stat) (v : bool) (ddevNo r : Z)
    (s : state W) :
  S_ISDIR (st_mode st1) = true ->
  conflict_check os opt fuel spath dpath st1 st2 v ddevNo r s
    = Some (Continue r, s).
Proof.
  intros Hd. unfold conflict_check. rewrite Hd.
  cbn [negb]. rewrite andb_false_r. reflexivity.
Qed.

Lemma DoCopy_tail_no_descent (fuel fuel' : nat)
    (rec rec' : string -> option string -> Z -> Z -> M W Z)
    (spath : string) (dpath : option string) (sdevNo ddevNo : Z)
    (st1 st2 : stat) (v : bool) (s : state W) :
  S_ISDIR (st_mode st1) = true ->
  (0 <=? int32 sdevNo) && negb (st_dev st1 =? sdevNo) = true ->
  DoCopy_tail os opt fuel rec spath dpath sdevNo ddevNo st1 st2 v 0 None s
    <> None /\
  DoCopy_tail os opt fuel rec spath dpath sdevNo ddevNo st1 st2 v 0 None s =
  DoCopy_tail os opt fuel' rec' spath dpath sdevNo ddevNo st1 st2 v 0 None s.
Proof.
  intros Hd Hc. unfold DoCopy_tail. rewrite !bind_run.
  destruct (nochange_check os opt spath dpath st1 st2 v None (file_size st1) s)
    as [[[x|[mres fres]] s1]|] eqn:E.
  - split; [discriminate|reflexivity].
  - rewrite !bind_run, !(conflict_check_directory _ _ _ _ _ _ _ _ _ Hd).
    unfold dispatch. rewrite Hd. split.
    + now apply runs_copy_directory_no_descent.
    + now apply copy_directory_no_descent.
  - exfalso. exact (runs_nochange_check os opt _ _ _ _ _ _ _ s E).
Qed.

End MountPointCall.

(** X17: the copy does not cross a mount point of the source.  When the
    source path is a directory on another device than the one passed
    down by the caller, [DoCopy] handles the directory itself and
    returns without a call on any of its entries and without pruning:
    one unit of fuel is enough, and more fuel changes nothing. *)
Theorem DoCopy_stops_at_mount_point {W : Type} (os : HostOps W)
    (opt : Options) (junk : stat) (fuel : nat) (spath : string)
    (dpath : option string) (sdevNo ddevNo : Z) (st1 : stat)
    (s : state W) :
  os_lstat os SrcHost spath (world s) = Some st1 ->
  S_ISDIR (st_mode st1) = true ->
  0 <= int32 sdevNo ->
  st_dev st1 <> sdevNo ->
  DoCopy os opt junk 1 spath dpath sdevNo ddevNo s <> None /\
  DoCopy os opt junk (S fuel) spath dpath sdevNo ddevNo s =
  DoCopy os opt junk 1 spath dpath sdevNo ddevNo s.
Proof.
  intros H1 Hd Hs Hne.
  assert (Hc : (0 <=? int32 sdevNo) && negb (st_dev st1 =? sdevNo) = true).
  { apply andb_true_intro. split; [now apply Z.leb_le|].
    apply negb_true_iff. now apply Z.eqb_neq. }
  cbn [DoCopy]. rewrite !bind_run.
  destruct (stat_both os junk spath dpath s) as [[sb s1]|] eqn:E.
  2:{ exfalso. exact (runs_stat_both os junk spath dpath s E). }
  destruct (stat_both_source os junk spath dpath st1 s s1 sb H1 E)
    as (st2 & v & ->).
  rewrite !bind_run, !(hardlink_probe_directory os opt _ _ _ _ _ _ Hd).
  destruct (DoCopy_tail_no_descent os opt 0 fuel
              (DoCopy os opt junk 0) (DoCopy os opt junk fuel)
              spath dpath sdevNo ddevNo st1 st2 v s1 Hd Hc) as [Hr He].
  split; [exact Hr|exact (eq_sym He)].
Qed.

Lemma DoCopy_stops_at_mount_point_witness :
  let s := MemFS.start Scenarios.source_mount [] in
  let run := DoCopy MemFS.ops Scenarios.batch_options MemFS.no_junk 1
                    "s/m" (Some "d/m") 1 1 s in
  run <> None /\
  DoCopy MemFS.ops Scenarios.batch_options MemFS.no_junk 6
         "s/m" (Some "d/m") 1 1 s = run /\
  option_map (fun x => MemFS.m_lstat DstHost "d/m/f" (world (snd x))) run
    = Some None.
Proof.
  intros s run.
  destruct (DoCopy_stops_at_mount_point MemFS.ops Scenarios.batch_options
              MemFS.no_junk 5 "s/m" (Some "d/m") 1 1
              (MemFS.n_stat (MemFS.on_dev 2 (MemFS.dir 3))) s)
    as [Hr He].
  - reflexivity.
  - reflexivity.
  - vm_compute. discriminate.
  - discriminate.
  - split; [exact Hr|]. split; [exact He|]. vm_compute. reflexivity.
Defined.

(** ** The size counted for a file, and a source that is not there *)

(** X18: for a regular file whose 512-byte blocks exactly cover its
    bytes, the size that [DoCopy] counts (blocks times 512, less the
    slack of the last block) is the byte size [st_size]. *)
Theorem file_size_of_allocated_file (st1 : stat) :
  S_ISREG (st_mode st1) = true ->
  0 <= st_size st1 ->
  st_blocks st1 = (st_size st1 + 511) / 512 ->
  st_blocks st1 * 512 < 2 ^ 64 ->
  file_size st1 = st_size st1.
Proof.
  intros Hreg Hsz Hb Hlt. unfold file_size, truthy, uint64. rewrite Hreg.
  rewrite Z.rem_mod_nonneg by lia.
  pose proof (Z.div_mod (st_size st1) 512 ltac:(lia)) as Hdm.
  pose proof (Z.mod_pos_bound (st_size st1) 512 ltac:(lia)) as Hm.
  set (q := st_size st1 / 512) in *. set (m := st_size st1 mod 512) in *.
  assert (Hq : 0 <= q) by (subst q; apply Z.div_pos; lia).
  assert (Hblocks : st_blocks st1 = if m =? 0 then q else q + 1).
  { rewrite Hb, Hdm. destruct (Z.eqb_spec m 0) as [E|N].
    - rewrite E. replace (512 * q + 0 + 511) with (q * 512 + 511) by lia.
      rewrite Z.div_add_l by lia. change (511 / 512) with 0. lia.
    - replace (512 * q + m + 511) with ((q + 1) * 512 + (m - 1)) by lia.
      rewrite Z.div_add_l by lia. rewrite Z.div_small by lia. lia. }
  rewrite Hblocks in *.
  destruct (Z.eqb_spec m 0) as [E|N]; cbn [negb].
  - rewrite Z.mod_small by lia. lia.
  - rewrite (Z.mod_small ((q + 1) * 512)) by lia.
    rewrite Z.mod_small by lia. lia.
Qed.

Lemma file_size_of_allocated_file_witness :
  file_size (mkstat S_IFREG 0 2 1 1 0 0 1300 0 3 0 0) = 1300.
Proof.
  apply (file_size_of_allocated_file
           (mkstat S_IFREG 0 2 1 1 0 0 1300 0 3 0 0));
    cbn [st_mode st_size st_blocks]; try reflexivity; lia.
Defined.

(** X19: a run on a source path that [lstat] does not find exits with
    code 0: nothing is copied, removed or called on either host, whether
    or not the destination exists. *)
Theorem cpdup_missing_source_exits_zero {W : Type} (os : HostOps W)
    (opt : Options) (junk : stat) (sizeof_stat : Z) (fuel : nat)
    (src : string) (dst : string) (s : state W) :
  os_lstat os SrcHost src (world s) = None ->
  exists s' evs,
    cpdup_main os opt junk sizeof_stat (S fuel) src (Some dst) s
      = Some (0, s') /\
    CountCopiedItems (counts s') = CountCopiedItems (counts s) /\
    CountRemovedItems (counts s') = CountRemovedItems (counts s) /\
    events s' = (events s ++ evs)%list /\
    Forall (fun e => is_sys e = false) evs.
Proof.
  intros H. unfold cpdup_main. cbn [DoCopy]. rewrite !bind_run.
  unfold stat_both. rewrite bind_run. unfold hc_lstat. rewrite H.
  cbn [ret]. rewrite bind_run. cbn [flush]. rewrite bind_run.
  change (0 =? 0) with true. rewrite andb_true_r.
  destruct (truthy (SummaryOpt opt)).
  - rewrite bind_run. cbn [count logstd emit ret].
    eexists _, _. split; [reflexivity|].
    cbn [counts events upd_counts add_event].
    do 2 (split; [reflexivity|]).
    split; [rewrite <- app_assoc; reflexivity|]. now repeat constructor.
  - cbn [ret]. eexists _, _. split; [reflexivity|].
    cbn [counts events add_event].
    do 2 (split; [reflexivity|]).
    split; [reflexivity|]. now repeat constructor.
Qed.

Lemma cpdup_missing_source_exits_zero_witness :
  exists s' evs,
    cpdup_main MemFS.ops MemFS.defaults MemFS.no_junk 120 3 "nowhere"
               (Some "d") (MemFS.start Scenarios.stale_entry [])
      = Some (0, s') /\
    CountCopiedItems (counts s') = 0 /\
    CountRemovedItems (counts s') = 0 /\
    events s' = ([] ++ evs)%list /\
    Forall (fun e => is_sys e = false) evs.
Proof.
  apply (cpdup_missing_source_exits_zero MemFS.ops MemFS.defaults
           MemFS.no_junk 120 2 "nowhere" "d"
           (MemFS.start Scenarios.stale_entry [])).
  reflexivity.
Defined.

(** ** Files with a single link and the hardlink table *)

Section SingleLink.

Context {W : Type}.
Variable os : HostOps W.
Variable opt : Options.
Variable junk : stat.

Lemma table_nochange_check spath dpath st1 st2 v size :
  keeps same_table (nochange_check os opt spath dpath st1 st2 v None size).
Proof. unfold nochange_check. cbv iota. frame. Qed.

Lemma table_dispatch_file fuel rec spath dpath sdevNo ddevNo st1 st2 v
    size r mres fres lst :
  S_ISDIR (st_mode st1) = false ->
  keeps same_table
    (dispatch os opt fuel rec spath dpath sdevNo ddevNo st1 st2 v
              size r mres fres None lst).
Proof.
  intros Hd. unfold dispatch. rewrite Hd.
  unfold md5_refresh, copy_regular, copy_symlink, copy_device, readlink_buf.
  cbv iota.
  pose proof (table_checkHLPath os opt fuel) as Hh.
  pose proof (table_copy_contents os opt fuel) as Hc.
  pose proof (table_xrename os) as Hx.
  frame.
Qed.

Lemma table_DoCopy_tail_file fuel rec spath dpath sdevNo ddevNo st1 st2 v r :
  S_ISDIR (st_mode st1) = false ->
  keeps same_table
    (DoCopy_tail os opt fuel rec spath dpath sdevNo ddevNo st1 st2 v r None).
Proof.
  intros Hd. unfold DoCopy_tail.
  pose proof (table_nochange_check spath dpath st1 st2 v) as Hn.
  pose proof (table_conflict_check os opt fuel spath dpath st1 st2 v ddevNo)
    as Hc.
  pose proof (fun size r mres fres lst =>
                table_dispatch_file fuel rec spath dpath sdevNo ddevNo
                  st1 st2 v size r mres fres lst Hd) as Hdis.
  frame.
Qed.

Lemma table_stat_both spath dpath :
  keeps same_table (stat_both os junk spath dpath).
Proof. unfold stat_both. frame. Qed.

End SingleLink.

(** X20: a source that is neither a directory nor a regular file with
    more than one link never touches the hardlink table: whatever
    [DoCopy] does for it, the table is the same afterwards. *)
Theorem DoCopy_single_link_keeps_table {W : Type} (os : HostOps W)
    (opt : Options) (junk : stat) (fuel : nat) (spath : string)
    (dpath : option string) (sdevNo ddevNo : Z) (st1 : stat)
    (s s' : state W) (r : Z) :
  os_lstat os SrcHost spath (world s) = Some st1 ->
  S_ISDIR (st_mode st1) = false ->
  S_ISREG (st_mode st1) && (1 <? st_nlink st1) = false ->
  DoCopy os opt junk (S fuel) spath dpath sdevNo ddevNo s = Some (r, s') ->
  hltable s' = hltable s.
Proof.
  intros H1 Hd Hl H. cbn [DoCopy] in H.
  apply bind_inv in H. destruct H as (sb & s1 & Hsb & H).
  destruct (stat_both_source os junk spath dpath st1 s s1 sb H1 Hsb)
    as (st2 & v & ->).
  apply table_stat_both in Hsb. destruct Hsb as [T1 _].
  apply bind_inv in H. destruct H as (hp & s2 & Hp & H).
  assert (Ep : hp = Continue (0, None) /\ s2 = s1).
  { unfold hardlink_probe in Hp. rewrite Hl in Hp.
    destruct dpath; injection Hp as <- <-; auto. }
  destruct Ep as [-> ->].
  apply (table_DoCopy_tail_file os opt) in H; [|exact Hd].
  destruct H as [T2 _]. congruence.
Qed.

Lemma DoCopy_single_link_keeps_table_witness :
  let s := Scenarios.second_sighting Scenarios.mixed_tree_empty_dir in
  let s' := snd (default (0, s)
                   (DoCopy MemFS.ops Scenarios.batch_options MemFS.no_junk 4
                           "s/c" (Some "d/c") 1 1 s)) in
  hltable s' = hltable s.
Proof.
  intros s s'.
  apply (DoCopy_single_link_keeps_table MemFS.ops Scenarios.batch_options
           MemFS.no_junk 3 "s/c" (Some "d/c") 1 1
           (MemFS.n_stat (MemFS.symlink 3 "a")) s s' 0).
  - reflexivity.
  - reflexivity.
  - reflexivity.
  - vm_compute. reflexivity.
Defined.

(** ** The source host is only read *)

Section LogLooks.

Context {W : Type}.
Variable os : HostOps W.
Variable P : event -> Prop.

Lemma logs_lstat h p :
  (forall r, P (EvLstat h p r)) -> keeps (logs P) (hc_lstat os h p).
Proof. intros H s a s' [= _ <-]. now apply logs_event. Qed.

Lemma logs_stat h p :
  (forall r, P (EvStat h p r)) -> keeps (logs P) (hc_stat os h p).
Proof. intros H s a s' [= _ <-]. now apply logs_event. Qed.

Lemma logs_readlink h p :
  (forall r, P (EvReadlink h p r)) -> keeps (logs P) (hc_readlink os h p).
Proof. intros H s a s' [= _ <-]. now apply logs_event. Qed.

Lemma logs_opendir h p :
  (forall r, P (EvOpendir h p r)) -> keeps (logs P) (hc_opendir os h p).
Proof. intros H s a s' [= _ <-]. now apply logs_event. Qed.

Lemma logs_fgets p :
  (forall r, P (EvFgets p r)) -> keeps (logs P) (hc_fgets os p).
Proof. intros H s a s' [= _ <-]. now apply logs_event. Qed.

Lemma logs_md5 sp dp :
  (forall r, P (EvMd5 sp dp r)) -> keeps (logs P) (md5_check os sp dp).
Proof.
  intros H s a s' Hs. unfold md5_check in Hs.
  destruct (os_md5_check os sp dp (world s)) as [k w].
  injection Hs as _ <-. eexists [_]. split; [reflexivity|].
  constructor; [apply H|constructor].
Qed.

Lemma logs_fsmid id dp :
  (forall r, P (EvFsmid id dp r)) -> keeps (logs P) (fsmid_check os id dp).
Proof.
  intros H s a s' Hs. unfold fsmid_check in Hs.
  destruct (os_fsmid_check os id dp (world s)) as [k w].
  injection Hs as _ <-. eexists [_]. split; [reflexivity|].
  constructor; [apply H|constructor].
Qed.

Lemma logs_YesNo p :
  (forall a, P (EvYesNo p a)) -> keeps (W:=W) (logs P) (YesNo p).
Proof. intros H s a s' [= _ <-]. now apply logs_event. Qed.

Lemma logs_set_errno e : keeps (W:=W) (logs P) (set_errno e).
Proof.
  intros s x s' [= _ <-]. exists [].
  split; [cbn; now rewrite app_nil_r|constructor].
Qed.

Lemma logs_modify_hltable f : keeps (W:=W) (logs P) (modify_hltable f).
Proof.
  intros s x s' [= _ <-]. exists [].
  split; [cbn; now rewrite app_nil_r|constructor].
Qed.

End LogLooks.

Section SourceIsRead.

Context {W : Type}.
Variable os : HostOps W.
Variable opt : Options.
Variable junk : stat.

(** The digest option is off. *)
Hypothesis md5_off : UseMD5Opt opt = 0.

Local Abbreviation gentle := (logs (W:=W) (fun e => src_handle_reads e = true)).

Local Ltac harmless := intros; reflexivity.

Local Ltac gentle_prim :=
  first [ apply logs_sys; harmless
        | apply logs_read; harmless
        | apply logs_emit; harmless
        | apply logs_count
        | apply logs_lstat; harmless
        | apply logs_stat; harmless
        | apply logs_readlink; harmless
        | apply logs_opendir; harmless
        | apply logs_fgets; harmless
        | apply logs_fsmid; harmless
        | apply logs_YesNo; harmless
        | apply logs_set_errno
        | apply logs_modify_hltable ].

Local Ltac gentle_frame :=
  frame_with (logs_refl (W:=W) (fun e => src_handle_reads e = true))
             (logs_trans (W:=W) (fun e => src_handle_reads e = true))
             gentle_prim.

Lemma gentle_xlink src dst flags : keeps gentle (xlink os src dst flags).
Proof. unfold xlink. gentle_frame. Qed.

Lemma gentle_xrename src dst flags : keeps gentle (xrename os src dst flags).
Proof. unfold xrename. gentle_frame. Qed.

Lemma gentle_RemoveRecur (fuel : nat) :
  forall dpath devNo, keeps gentle (RemoveRecur os opt fuel dpath devNo).
Proof.
  induction fuel as [|fuel IH]; intros dpath devNo; cbn [RemoveRecur];
    gentle_frame.
Qed.

Lemma gentle_compare_loop (fuel : nat) :
  forall fd1 fd2, keeps gentle (compare_loop os fuel fd1 fd2).
Proof.
  induction fuel as [|fuel IH]; intros fd1 fd2; cbn [compare_loop];
    gentle_frame.
Qed.

Lemma gentle_copy_loop (fuel : nat) :
  forall fd1 fd2, keeps gentle (copy_loop os fuel fd1 fd2).
Proof.
  induction fuel as [|fuel IH]; intros fd1 fd2; cbn [copy_loop];
    gentle_frame.
Qed.

Lemma gentle_checkHLPath fuel hlbase st1 spath dpath :
  keeps gentle (checkHLPath os opt fuel hlbase st1 spath dpath).
Proof.
  unfold checkHLPath. pose proof (gentle_compare_loop fuel) as Hc.
  gentle_frame.
Qed.

Lemma gentle_copy_contents fuel spath dp st1 st2 size r :
  keeps gentle (copy_contents os opt fuel spath dp st1 st2 size r).
Proof.
  unfold copy_contents.
  pose proof (gentle_copy_loop fuel) as Hc.
  pose proof gentle_xrename as Hx. gentle_frame.
Qed.

Lemma gentle_hardlink_probe spath dpath st1 st2 v r :
  keeps gentle (hardlink_probe os opt spath dpath st1 st2 v r).
Proof.
  unfold hardlink_probe, relink. pose proof gentle_xlink as Hx.
  gentle_frame.
Qed.

Lemma gentle_nochange_check spath dpath st1 st2 v hln size :
  keeps gentle (nochange_check os opt spath dpath st1 st2 v hln size).
Proof.
  unfold nochange_check. rewrite md5_off. cbn [truthy negb Z.eqb].
  gentle_frame.
Qed.

Lemma gentle_conflict_check fuel spath dpath st1 st2 v ddevNo r :
  keeps gentle (conflict_check os opt fuel spath dpath st1 st2 v ddevNo r).
Proof.
  unfold conflict_check. pose proof (gentle_RemoveRecur fuel) as Hr.
  gentle_frame.
Qed.

Lemma gentle_dir_prepare spath dpath st1 st2 r :
  keeps gentle (dir_prepare os opt spath dpath st1 st2 r).
Proof. unfold dir_prepare. gentle_frame. Qed.

Lemma gentle_dir_fixup dp st1 st2 v :
  keeps gentle (dir_fixup os opt dp st1 st2 v).
Proof. unfold dir_fixup. gentle_frame. Qed.

Lemma gentle_cpignore_lines (bufs : list string) :
  forall lst, keeps gentle (cpignore_lines lst bufs).
Proof.
  induction bufs as [|buf rest IH]; intros lst; cbn [cpignore_lines].
  - gentle_frame.
  - unfold cpignore_line. gentle_frame.
Qed.

Lemma gentle_load_ignores spath lst :
  keeps gentle (load_ignores os opt spath lst).
Proof.
  unfold load_ignores. pose proof gentle_cpignore_lines as Hc.
  gentle_frame.
Qed.

Lemma gentle_src_loop rec spath dpath sdevNo ddevNo (ents : list string) :
  (forall sp dp sd dd, keeps gentle (rec sp dp sd dd)) ->
  forall lst r,
    keeps gentle (src_loop rec spath dpath sdevNo ddevNo ents lst r).
Proof.
  intros Hrec. induction ents as [|name rest IH]; intros lst r;
    cbn [src_loop]; gentle_frame.
Qed.

Lemma gentle_dst_loop prune dp ddevNo (ents : list string) :
  (forall p d, keeps gentle (prune p d)) ->
  forall lst, keeps gentle (dst_loop prune dp ddevNo ents lst).
Proof.
  intros Hp. induction ents as [|name rest IH]; intros lst;
    cbn [dst_loop]; gentle_frame.
Qed.

Lemma gentle_copy_directory rec prune spath dpath sdevNo ddevNo st1 st2 v
    r fres lst :
  (forall sp dp sd dd, keeps gentle (rec sp dp sd dd)) ->
  (forall p d, keeps gentle (prune p d)) ->
  keeps gentle
    (copy_directory os opt rec prune spath dpath sdevNo ddevNo st1 st2 v
                    r fres lst).
Proof.
  intros Hrec Hp. unfold copy_directory.
  pose proof gentle_dir_prepare as H1.
  pose proof gentle_load_ignores as H2.
  pose proof (fun sp dp sd dd ents =>
                gentle_src_loop rec sp dp sd dd ents Hrec) as H3.
  pose proof (fun dp dd ents => gentle_dst_loop prune dp dd ents Hp) as H4.
  pose proof gentle_dir_fixup as H5.
  gentle_frame.
Qed.

Lemma gentle_dispatch fuel rec spath dpath sdevNo ddevNo st1 st2 v
    size r mres fres hln lst :
  (forall sp dp sd dd, keeps gentle (rec sp dp sd dd)) ->
  keeps gentle
    (dispatch os opt fuel rec spath dpath sdevNo ddevNo st1 st2 v
              size r mres fres hln lst).
Proof.
  intros Hrec. unfold dispatch.
  pose proof (fun sp dp sd dd st1 st2 v r fres lst =>
                gentle_copy_directory rec (RemoveRecur os opt fuel)
                  sp dp sd dd st1 st2 v r fres lst Hrec
                  (gentle_RemoveRecur fuel)) as Hd.
  unfold md5_refresh, copy_regular, copy_symlink, copy_device, readlink_buf.
  rewrite md5_off. cbn [truthy negb Z.eqb andb].
  pose proof (gentle_checkHLPath fuel) as Hh.
  pose proof (gentle_copy_contents fuel) as Hc.
  pose proof gentle_xrename as Hx.
  gentle_frame.
Qed.

Lemma gentle_DoCopy (fuel : nat) :
  forall spath dpath sdevNo ddevNo,
    keeps gentle (DoCopy os opt junk fuel spath dpath sdevNo ddevNo).
Proof.
  induction fuel as [|fuel IH]; intros spath dpath sdevNo ddevNo;
    cbn [DoCopy].
  - apply keeps_out_of_fuel.
  - unfold stat_both, DoCopy_tail.
    pose proof gentle_hardlink_probe as H1.
    pose proof gentle_nochange_check as H2.
    pose proof (gentle_conflict_check fuel) as H3.
    pose proof (fun sp dp sd dd st1 st2 v size r mres fres hln lst =>
                  gentle_dispatch fuel (DoCopy os opt junk fuel) sp dp sd dd
                    st1 st2 v size r mres fres hln lst IH) as H4.
    gentle_frame.
Qed.

End SourceIsRead.

(** X21: with the digest option off, the program only reads through the
    source host handle.  Of the status-returning calls that [DoCopy]
    issues, in the call and in all the calls it makes on the entries
    below, those made through the source host handle open a file for
    reading or close a descriptor, and no digest check (which rewrites
    the cache file beside the source) is made.  Every other call goes
    through the destination handle, or is [mknod], a call of the local
    system. *)
Theorem DoCopy_only_reads_the_source {W : Type} (os : HostOps W)
    (opt : Options) (junk : stat) (fuel : nat) (spath : string)
    (dpath : option string) (sdevNo ddevNo : Z) (s s' : state W) (r : Z) :
  UseMD5Opt opt = 0 ->
  DoCopy os opt junk fuel spath dpath sdevNo ddevNo s = Some (r, s') ->
  exists evs,
    events s' = (events s ++ evs)%list /\
    Forall (fun e => src_handle_reads e = true) evs.
Proof.
  intros Hmd5 H.
  exact (gentle_DoCopy os opt junk Hmd5 fuel spath dpath sdevNo ddevNo s r s'
           H).
Qed.

Lemma DoCopy_only_reads_the_source_witness :
  let s := MemFS.start Scenarios.mixed_tree [] in
  let s' := snd (default (0, s)
                   (DoCopy MemFS.ops MemFS.defaults MemFS.no_junk 6
                           "s" (Some "d") dev_none dev_none s)) in
  MemFS.src_fs (world s') = MemFS.src_fs (world s) /\
  exists evs,
    events s' = (events s ++ evs)%list /\
    Forall (fun e => src_handle_reads e = true) evs.
Proof.
  intros s s'. split; [vm_compute; reflexivity|].
  apply (DoCopy_only_reads_the_source MemFS.ops MemFS.defaults MemFS.no_junk
           6 "s" (Some "d") dev_none dev_none s s' 0).
  - reflexivity.
  - vm_compute. reflexivity.
Defined.

(** ** The list that the exclusion file produces *)

Section OnlyTagOne.

Context {W : Type}.
Variable os : HostOps W.
Variable opt : Options.

Local Abbreviation all_one lst :=
  (forall hv nd, In nd (li_Hash lst hv) -> no_Value nd = 1).

Lemma all_one_AddList (lst : IgnList) (name : string) :
  all_one lst -> all_one (snd (AddList lst name 1)).
Proof.
  intros H hv nd Hin. apply In_AddList in Hin.
  destruct Hin as [Hin| ->]; [eauto|reflexivity].
Qed.

Lemma all_one_cpignore_lines (bufs : list string) :
  forall (lst lst' : IgnList) (s s' : state W),
    cpignore_lines lst bufs s = Some (lst', s') ->
    all_one lst -> all_one lst'.
Proof.
  induction bufs as [|buf rest IH]; intros lst lst' s s' H Hn.
  - injection H as <- _. exact Hn.
  - cbn [cpignore_lines] in H. rewrite bind_run in H.
    unfold cpignore_line in H. rewrite bind_run in H. cbn [count] in H.
    destruct (strip_newline buf) as [|c line'].
    + cbn [ret] in H. eapply IH; eassumption.
    + destruct (Ascii.eqb c "#"); cbn [ret] in H.
      * eapply IH; eassumption.
      * eapply IH; [eassumption|]. now apply all_one_AddList.
Qed.

Lemma all_one_load_ignores (spath : string) (lst lst' : IgnList)
    (s s' : state W) :
  load_ignores os opt spath lst s = Some (lst', s') ->
  all_one lst -> all_one lst'.
Proof.
  unfold load_ignores. intros H Hn.
  apply bind_inv in H. destruct H as (l1 & s1 & H1 & H).
  assert (Hl1 : all_one l1).
  { destruct (UseCpFile opt) as [cp|].
    - apply bind_inv in H1. destruct H1 as (fi & s2 & _ & H1).
      destruct fi as [bufs|].
      + eapply all_one_cpignore_lines; [exact H1|].
        now apply all_one_AddList.
      + injection H1 as <- _. now apply all_one_AddList.
    - injection H1 as <- _. exact Hn. }
  injection H as <- _.
  destruct (truthy (UseMD5Opt opt)); destruct (truthy (UseFSMIDOpt opt));
    repeat apply all_one_AddList; exact Hl1.
Qed.

End OnlyTagOne.

(** X22: every node of the list that [DoCopy] builds for a directory
    from the exclusion file and the names of the two cache files carries
    the tag 1, whatever the file holds. *)
Theorem load_ignores_only_tag_one {W : Type} (os : HostOps W)
    (opt : Options) (spath : string) (lst : IgnList) (s s' : state W) :
  load_ignores os opt spath InitList s = Some (lst, s') ->
  forall hv nd, In nd (li_Hash lst hv) -> no_Value nd = 1.
Proof.
  intros H. eapply all_one_load_ignores; [exact H|].
  intros hv nd Hin. unfold li_Hash, InitList in Hin.
  rewrite lookup_empty in Hin. destruct Hin.
Qed.

Lemma load_ignores_only_tag_one_witness :
  let s := MemFS.start Scenarios.ignore_file [] in
  let lst := fst (default (InitList, s)
                    (load_ignores MemFS.ops Scenarios.ignoring "s"
                                  InitList s)) in
  li_Hash lst 0 = [mkNode "*.o" 1] /\
  forall hv nd, In nd (li_Hash lst hv) -> no_Value nd = 1.
Proof.
  intros s lst. split; [vm_compute; reflexivity|].
  apply (load_ignores_only_tag_one MemFS.ops Scenarios.ignoring "s" lst s
           (snd (default (InitList, s)
                   (load_ignores MemFS.ops Scenarios.ignoring "s"
                                 InitList s)))).
  vm_compute. reflexivity.
Defined.

(** ** xrename *)

(** X23: [xrename] returns what its last [rename] returned.  When it
    gives up (a negative result), the last thing it has done is to put
    the flags of the destination back with [chflags]; when it succeeds,
    the last thing it has done is the [rename] that succeeded. *)
Theorem xrename_restores_flags {W : Type} (os : HostOps W)
    (src dst : string) (flags : Z) (s s' : state W) (r : Z) :
  xrename os src dst flags s = Some (r, s') ->
  exists evs,
    events s' = (events s ++ evs)%list /\
    if r <? 0
    then exists pre rc,
           evs = (pre ++ [EvSys (sys_rename DstHost src dst) r;
                          EvSys (sys_chflags DstHost dst flags) rc])%list
    else exists pre,
           evs = (pre ++ [EvSys (sys_rename DstHost src dst) r])%list.
Proof.
  unfold xrename, hc_rename, hc_chflags. intros H.
  apply bind_inv in H. destruct H as (r1 & s1 & H1 & H).
  apply sys_inv in H1. destruct H1 as (e1 & w1 & _ & _ & _ & _ & _ & E1).
  destruct (r1 <? 0) eqn:Er1.
  - apply bind_inv in H. destruct H as (r2 & s2 & H2 & H).
    apply sys_inv in H2. destruct H2 as (e2 & w2 & _ & _ & _ & _ & _ & E2).
    apply bind_inv in H. destruct H as (r3 & s3 & H3 & H).
    apply sys_inv in H3. destruct H3 as (e3 & w3 & _ & _ & _ & _ & _ & E3).
    apply bind_inv in H. destruct H as ([] & s4 & H4 & H).
    injection H as <- <-.
    destruct (r3 <? 0) eqn:Er3.
    + apply bind_inv in H4. destruct H4 as (r5 & s5 & H5 & H4).
      injection H4 as <-.
      apply sys_inv in H5. destruct H5 as (e5 & w5 & _ & _ & _ & _ & _ & E5).
      eexists. split.
      * rewrite E5, E3, E2, E1, <- !app_assoc. reflexivity.
      * cbn [app]. exists [EvSys (sys_rename DstHost src dst) r1;
                           EvSys (sys_chflags DstHost dst 0) r2], r5.
        reflexivity.
    + injection H4 as <-. eexists. split.
      * rewrite E3, E2, E1, <- !app_assoc. reflexivity.
      * cbn [app]. exists [EvSys (sys_rename DstHost src dst) r1;
                           EvSys (sys_chflags DstHost dst 0) r2].
        reflexivity.
  - injection H as <- <-. rewrite Er1. eexists. split; [exact E1|].
    now exists [].
Qed.

Lemma xrename_restores_flags_witness :
  let s := MemFS.start Scenarios.stale_entry [] in
  let s' := snd (default (0, s) (xrename MemFS.ops "d/x" "d/a" 0 s)) in
  exists evs,
    events s' = (events s ++ evs)%list /\
    exists pre, evs = (pre ++ [EvSys (sys_rename DstHost "d/x" "d/a") 0])%list.
Proof.
  intros s s'.
  apply (xrename_restores_flags MemFS.ops "d/x" "d/a" 0 s s' 0).
  vm_compute. reflexivity.
Defined.

(** ** The removed-items counter in batch mode *)

Lemma tally_app (a b : list event) :
  forall c, tally (a ++ b) c = tally b (tally a c).
Proof.
  induction a as [|e a IH]; intros c; [reflexivity|].
  destruct e; cbn [app tally]; apply IH.
Qed.

Section Tally.

Context {W : Type}.
Variable os : HostOps W.
Variable opt : Options.

Lemma counts_removals_refl (s : state W) : counts_removals s s.
Proof. exists []. split; [now rewrite app_nil_r|reflexivity]. Qed.

Lemma counts_removals_trans (s1 s2 s3 : state W) :
  counts_removals s1 s2 -> counts_removals s2 s3 -> counts_removals s1 s3.
Proof.
  intros (e1 & E1 & C1) (e2 & E2 & C2). exists (e1 ++ e2)%list.
  split; [now rewrite E2, E1, app_assoc|].
  now rewrite tally_app, <- C1.
Qed.

Lemma tally_lstat h p : keeps counts_removals (hc_lstat os h p).
Proof. intros s a s' [= _ <-]. now eexists [_]. Qed.

Lemma tally_opendir h p : keeps counts_removals (hc_opendir os h p).
Proof. intros s a s' [= _ <-]. now eexists [_]. Qed.

(** A removal in batch mode and what follows it. *)
Lemma tally_removal (c : syscall) (b : bool) (f f' : string)
    (a : list logarg) (args : Z -> list logarg) :
  keeps counts_removals
    (rc <- sys os c ;;
     if rc =? 0 then
       when b (logstd f a) ;;
       count (add_RemovedItems 1)
     else
       e <- get_errno ;;
       logerr f' (args e)).
Proof.
  intros s x s' H.
  apply bind_inv in H. destruct H as (rc & s1 & Hs & H).
  apply sys_inv in Hs. destruct Hs as (e & w & _ & _ & _ & Ec & _ & E1).
  destruct (rc =? 0) eqn:Erc.
  - apply bind_inv in H. destruct H as ([] & s2 & Hw & H).
    injection H as _ <-.
    destruct b; cbn [when logstd emit ret] in Hw; injection Hw as <-;
      eexists; (split;
        [cbn [events upd_counts add_event]; rewrite E1, <- ?app_assoc;
         reflexivity|]);
      cbn [app tally counts upd_counts add_event add_RemovedItems
           CountRemovedItems]; rewrite Erc, Ec; reflexivity.
  - apply bind_inv in H. destruct H as (e2 & s2 & He & H).
    injection He as <- <-. cbn [logerr emit] in H. injection H as _ <-.
    eexists. split.
    + cbn [events add_event]. rewrite E1, <- app_assoc. reflexivity.
    + cbn [app tally counts add_event]. rewrite Erc. now rewrite Ec.
Qed.

Lemma RemoveRecur_counts_removals (fuel : nat) :
  AskConfirmation opt = 0 ->
  NoRemoveOpt opt = 0 ->
  forall dpath devNo,
    keeps counts_removals (RemoveRecur os opt fuel dpath devNo).
Proof.
  intros Hask Hno.
  assert (E1 : truthy (AskConfirmation opt) = false)
    by (unfold truthy; now rewrite Hask).
  assert (E2 : truthy (NoRemoveOpt opt) = false)
    by (unfold truthy; now rewrite Hno).
  induction fuel as [|fuel IH]; intros dpath devNo; cbn [RemoveRecur].
  - apply keeps_out_of_fuel.
  - frame_with (@counts_removals_refl) (@counts_removals_trans)
      ltac:(first [ apply tally_lstat | apply tally_opendir
                  | progress (rewrite ?E1, ?E2; cbn [andb])
                  | apply (tally_removal (sys_rmdir DstHost dpath) _ _ _ _
                             (fun e => [AStr dpath; AErr e]))
                  | apply (tally_removal (sys_remove DstHost dpath) _ _ _ _
                             (fun e => [AStr dpath; AErr e])) ]).
Qed.

End Tally.

(** X24: in batch mode (no confirmation, removal allowed) the
    removed-items counter counts the removals that succeeded:
    [RemoveRecur] advances it once for each [remove] or [rmdir] that
    returned 0, and for nothing else. *)
Theorem RemoveRecur_counts_successes {W : Type} (os : HostOps W)
    (opt : Options) (fuel : nat) (dpath : string) (devNo : Z)
    (s s' : state W) :
  AskConfirmation opt = 0 ->
  NoRemoveOpt opt = 0 ->
  RemoveRecur os opt fuel dpath devNo s = Some (tt, s') ->
  exists evs,
    events s' = (events s ++ evs)%list /\
    CountRemovedItems (counts s') = tally evs (CountRemovedItems (counts s)).
Proof.
  intros Hask Hno H.
  exact (RemoveRecur_counts_removals os opt fuel Hask Hno dpath devNo
           s tt s' H).
Qed.

Lemma RemoveRecur_counts_successes_witness :
  let s := MemFS.start Scenarios.stale_entry [] in
  let s' := snd (default (tt, s)
                   (RemoveRecur MemFS.ops Scenarios.batch_options 5
                                "d/x" 1 s)) in
  CountRemovedItems (counts s') = 1 /\
  exists evs,
    events s' = (events s ++ evs)%list /\
    CountRemovedItems (counts s') = tally evs (CountRemovedItems (counts s)).
Proof.
  intros s s'. split; [vm_compute; reflexivity|].
  apply (RemoveRecur_counts_successes MemFS.ops Scenarios.batch_options 5
           "d/x" 1 s s').
  - reflexivity.
  - reflexivity.
  - vm_compute. reflexivity.
Defined.
